(** * Bus-ticket seat booking: the browser-side controllers

    A shallow embedding of the two scripts of the repository:

    - [seat-booking.js]: [SeatBookingManager] (availability checks and the
      booking call, guarded by the [bookingInProgress] flag) and
      [SeatSelectionHandler] (the local, bounded seat selection and the
      form submission);
    - the real-time seat script: [RealTimeSeatManager] (server-confirmed
      temporary selections, the polled seat status and its rendering).

    Everything the scripts do to the outside world (network requests,
    alerts, notifications, navigation, console output) is recorded as a
    list of events, and the replies of the server are inputs.

    The methods of [RealTimeSeatManager] are given from their call to
    their completion.  The booking path of [seat-booking.js] is also cut
    at its [await] points, into the part that runs when a method is
    called and the part that runs when the awaited reply arrives, and the
    page is a transition system whose turns are clicks, submissions and
    arriving replies, so that submissions can overlap.  An
    [await fetch (..)] and the [await response.json ()] after it are one
    arrival: nothing the scripts do in between changes their state.

    The timers that poll the server are handles the browser hands out,
    given as inputs.  [cancelBooking], which neither script calls, is
    left out. *)

From Stdlib Require Import ZArith Lia Ascii String.
From stdpp Require Import base strings pretty list sorting gmap sets.

(** ** JavaScript values and built-ins used by the scripts *)

Module Js.

(** Truthiness of a value that is a string or [undefined]
    (the result of [form.querySelector(..)?.value]). *)
Definition truthy (v : option string) : bool :=
  match v with
  | Some s => negb (String.eqb s "")
  | None => false
  end.

(** [a || b] on an optional string with a string default. *)
Definition or_else (v : option string) (d : string) : string :=
  if truthy v then default d v else d.

(** [Array.prototype.join]. *)
Fixpoint join (sep : string) (l : list string) : string :=
  match l with
  | [] => ""
  | x :: r =>
      match r with
      | [] => x
      | _ :: _ => x +:+ sep +:+ join sep r
      end
  end.

(** A number in a template literal; seat numbers, counts and ids
    are integers. *)
Definition show (n : Z) : string := pretty n.

(** An optional number in a template literal. *)
Definition show_opt (n : option Z) : string :=
  match n with
  | Some z => show z
  | None => "undefined"
  end.

(** [Math.ceil (a / b)] for an integer [a] and a positive integer [b]:
    the least integer that is at least the quotient. *)
Definition ceil_div (a b : Z) : Z := (- ((- a) / b))%Z.

(** A [Date]: a time value in milliseconds since the epoch, or the
    invalid date that [new Date (s)] yields on a string it cannot
    parse. *)
Inductive Date :=
| TimeValue (ms : Z)
| InvalidDate.

(** What [await fetch (..)] and a following [await response.json ()]
    can give: the fetch rejects (transport failure), or a response
    arrives with its [status] and a body on which [json ()] either
    rejects ([inl], with the error's message) or yields a value of
    [A]. *)
Inductive fetch_result (A : Type) :=
| Rejected (message : string)
| Responded (status : Z) (body : string + A).
Arguments Rejected {A} message.
Arguments Responded {A} status body.

(** [response.ok]: the status is in the range 200-299. *)
Definition ok (status : Z) : bool :=
  ((200 <=? status) && (status <=? 299))%Z.

(** The value a method call evaluates to: a returned value or a thrown
    [Error] with its message. *)
Inductive completion (A : Type) :=
| Return (v : A)
| Throw (message : string).
Arguments Return {A} v.
Arguments Throw {A} message.

(** [parseInt (s)] without a radix: leading (ASCII) white space, an
    optional sign, an optional [0x] prefix, then the longest run of
    digits of the radix; [None] is [NaN]. *)
Definition is_space (c : ascii) : bool :=
  let n := nat_of_ascii c in
  bool_decide (n = 32 ∨ (9 <= n <= 13)).

Fixpoint skip_space (s : string) : string :=
  match s with
  | String c r => if is_space c then skip_space r else s
  | EmptyString => s
  end.

Definition digit_value (c : ascii) : option Z :=
  let n := Z.of_nat (nat_of_ascii c) in
  if ((48 <=? n) && (n <=? 57))%Z then Some (n - 48)%Z
  else if ((97 <=? n) && (n <=? 122))%Z then Some (n - 87)%Z
  else if ((65 <=? n) && (n <=? 90))%Z then Some (n - 55)%Z
  else None.

Fixpoint digits (radix : Z) (s : string) (acc : option Z) : option Z :=
  match s with
  | String c r =>
      match digit_value c with
      | Some d =>
          if (d <? radix)%Z
          then digits radix r (Some (default 0 acc * radix + d))%Z
          else acc
      | None => acc
      end
  | EmptyString => acc
  end.

Definition parseInt (s : string) : option Z :=
  let s := skip_space s in
  let '(negative, s) :=
    match s with
    | String "-" r => (true, r)
    | String "+" r => (false, r)
    | _ => (false, s)
    end in
  let '(radix, s) :=
    match s with
    | String "0" (String "x" r) => (16%Z, r)
    | String "0" (String "X" r) => (16%Z, r)
    | _ => (10%Z, s)
    end in
  (fun n => if negative : bool then (- n)%Z else n) <$> digits radix s None.

(** A [Set] of integers the scripts iterate over: its elements in
    insertion order, as [Array.from] lists them. *)
Module JsSet.
Definition t := list Z.
Definition empty : t := [].
Definition has (s : t) (x : Z) : bool := bool_decide (x ∈ s).
Definition add (s : t) (x : Z) : t := if has s x then s else s ++ [x].
Definition delete (s : t) (x : Z) : t := filter (fun y => y ≠ x) s.
Definition size (s : t) : Z := Z.of_nat (length s).
Definition to_array (s : t) : list Z := s.
End JsSet.

End Js.

(** ** The real-time seat script: [RealTimeSeatManager] *)

Module RealTime.
Import Js.

(** One entry of [temporary_selections]. *)
Record HoldInfo := {
  user_id : Z;
  username : string;
  expires_at : Date
}.

(** [diffMins] of [getTimeUntilExpiry], for a positive [diffMs]. *)
Definition diffMins (diffMs : Z) : Z := ceil_div diffMs (1000 * 60).

(** [getTimeUntilExpiry (expiresAt)], with the clock reading
    [new Date ()] passed as [now] (milliseconds).  On an invalid date
    [diffMs] is [NaN]: the comparison with 0 is false, [Math.ceil]
    gives [NaN], and [NaN !== 1] holds. *)
Definition getTimeUntilExpiry (now : Z) (expiresAt : Date) : string :=
  match expiresAt with
  | InvalidDate => "NaN mins"
  | TimeValue expiry =>
      let diffMs := (expiry - now)%Z in
      if (diffMs <=? 0)%Z then "expired"
      else
        let m := diffMins diffMs in
        show m +:+ " min" +:+ (if (m =? 1)%Z then "" else "s")
  end.

(** The countdown as the specification words it: the difference
    floor-divided into whole minutes, "expired" when it is not
    positive.  Only compared with [getTimeUntilExpiry]. *)
Definition countdown_floor_spec (now : Z) (expiry : Z) : string :=
  let diffMs := (expiry - now)%Z in
  if (diffMs <=? 0)%Z then "expired"
  else
    let m := (diffMs / (1000 * 60))%Z in
    show m +:+ " min" +:+ (if (m =? 1)%Z then "" else "s").

(** *** State *)

(** The reply of the select and deselect endpoints:
    [{success, error?}] and [{success, message?}]. *)
Record HoldReply := {
  success : bool;
  error : option string;
  message : option string
}.

(** The reply of the seat-status endpoint.  The keys of
    [temporary_selections] are given as the integers [parseInt] reads
    from them, in the order [Object.entries] lists them. *)
Record SeatStatus := {
  booked_seats : list Z;
  available_seats : list Z;
  temporary_selections : list (Z * HoldInfo)
}.

(** The fields of the manager that the seat logic reads or writes.
    [userId] comes from the page's [user-id] meta tag, which holds the
    decimal rendering of the user's integer id, so that both [==]
    tests against a [user_id] are equality of integers. *)
Record RealTimeSeatManager := {
  scheduleId : string;
  userId : Z;
  selectedSeats : JsSet.t;
  tempSelections : gmap Z HoldInfo;
  bookedSeats : gset Z;
  availableSeats : gset Z
}.

(** [new RealTimeSeatManager (scheduleId, userId)]. *)
Definition constructor (scheduleId : string) (userId : Z)
  : RealTimeSeatManager :=
  {| scheduleId := scheduleId; userId := userId;
     selectedSeats := JsSet.empty; tempSelections := ∅;
     bookedSeats := ∅; availableSeats := ∅ |}.

Definition with_selectedSeats (m : RealTimeSeatManager) (s : JsSet.t)
  : RealTimeSeatManager :=
  {| scheduleId := scheduleId m; userId := userId m;
     selectedSeats := s; tempSelections := tempSelections m;
     bookedSeats := bookedSeats m; availableSeats := availableSeats m |}.

(** The three assignments of [fetchSeatStatus] and its [forEach]. *)
Definition with_status (m : RealTimeSeatManager) (d : SeatStatus)
  : RealTimeSeatManager :=
  {| scheduleId := scheduleId m; userId := userId m;
     selectedSeats := selectedSeats m;
     tempSelections :=
       foldl (fun acc e => <[e.1 := e.2]> acc) ∅ (temporary_selections d);
     bookedSeats := list_to_set (booked_seats d);
     availableSeats := list_to_set (available_seats d) |}.

(** A seat element [.seat[data-seat-number]]: the integer its
    [data-seat-number] attribute holds, its class list, the [dataset]
    entries the script writes, and its title. *)
Record SeatElement := {
  seatNumber : Z;
  classList : gset string;
  ds_status : string;
  ds_userId : option Z;
  ds_username : option string;
  title : string
}.

(** The manager and the seat elements of the document. *)
Record page := {
  manager : RealTimeSeatManager;
  seats : list SeatElement
}.

Inductive request :=
| PostSelectSeat (schedule_id : string) (seat_number : Z)
| PostDeselectSeat (schedule_id : string) (seat_number : Z)
| GetSeatStatus (schedule_id : string).

Inductive event :=
| Fetch (r : request)
| ConsoleError (label message : string)
| Notify (message type : string).

(** *** Rendering *)

(** The classes removed at the start of each seat's render. *)
Definition status_classes : gset string :=
  {[ "bg-gray-200"; "bg-red-400"; "bg-yellow-400"; "bg-green-500";
     "text-white"; "hover:bg-gray-300"; "cursor-not-allowed";
     "cursor-pointer" ]}.

(** The body of the [forEach] of [updateSeatDisplay] for one seat. *)
Definition renderSeat (now : Z) (m : RealTimeSeatManager)
    (seat : SeatElement) : SeatElement :=
  let n := seatNumber seat in
  let cl := classList seat ∖ status_classes in
  if decide (n ∈ bookedSeats m) then
    {| seatNumber := n;
       classList := cl ∪ {[ "bg-red-400"; "text-white"; "cursor-not-allowed" ]};
       ds_status := "booked"; ds_userId := None; ds_username := None;
       title := "Booked" |}
  else
    match tempSelections m !! n with
    | Some selection =>
        let cl := cl ∪ {[ "bg-yellow-400"; "text-white"; "cursor-not-allowed" ]} in
        if (user_id selection =? userId m)%Z then
          {| seatNumber := n;
             classList :=
               (cl ∖ {[ "bg-yellow-400" ]}) ∪ {[ "bg-green-500" ]}
                 ∪ {[ "cursor-pointer" ]};
             ds_status := "temporary";
             ds_userId := Some (user_id selection);
             ds_username := Some (username selection);
             title := "Your selection (expires in "
                      +:+ getTimeUntilExpiry now (expires_at selection)
                      +:+ ")" |}
        else
          {| seatNumber := n;
             classList := cl;
             ds_status := "temporary";
             ds_userId := Some (user_id selection);
             ds_username := Some (username selection);
             title := "Temporarily selected by " +:+ username selection
                      +:+ " (expires in "
                      +:+ getTimeUntilExpiry now (expires_at selection)
                      +:+ ")" |}
    | None =>
        {| seatNumber := n;
           classList := cl ∪ {[ "bg-gray-200"; "hover:bg-gray-300"; "cursor-pointer" ]};
           ds_status := "available"; ds_userId := None; ds_username := None;
           title := "Available" |}
    end.

(** [updateSeatDisplay ()]: every seat element is rendered from the
    manager's sets.  (The legend it then updates holds no seat state.) *)
Definition updateSeatDisplay (now : Z) (p : page) : page :=
  {| manager := manager p; seats := renderSeat now (manager p) <$> seats p |}.

(** *** Requests *)

(** [fetchSeatStatus ()], from the call to its completion on the
    response [r]. *)
Definition fetchSeatStatus (now : Z) (p : page)
    (r : fetch_result SeatStatus) : page * list event :=
  let call := Fetch (GetSeatStatus (scheduleId (manager p))) in
  let failed msg := (p, [call; ConsoleError "Error fetching seat status:" msg]) in
  match r with
  | Rejected msg => failed msg
  | Responded status body =>
      if ok status then
        match body with
        | inl msg => failed msg
        | inr data =>
            (updateSeatDisplay now
               {| manager := with_status (manager p) data; seats := seats p |},
             [call])
        end
      else failed ("HTTP " +:+ show status)
  end.

(** [selectSeat (seatNumber)], from the call to its completion: [r] is
    the reply to the select request, [r2] the reply to the status
    refresh that follows a confirmed selection. *)
Definition selectSeat (now : Z) (p : page) (seatNumber : Z)
    (r : fetch_result HoldReply) (r2 : fetch_result SeatStatus)
  : page * list event :=
  let call := Fetch (PostSelectSeat (scheduleId (manager p)) seatNumber) in
  let failed msg :=
    (p, [call; ConsoleError "Error selecting seat:" msg;
         Notify "Failed to select seat. Please try again." "error"]) in
  match r with
  | Rejected msg => failed msg
  | Responded _ (inl msg) => failed msg
  | Responded _ (inr data) =>
      if success data then
        let p1 :=
          {| manager := with_selectedSeats (manager p)
                          (JsSet.add (selectedSeats (manager p)) seatNumber);
             seats := seats p |} in
        let '(p2, evs) := fetchSeatStatus now p1 r2 in
        (p2, call :: evs ++
               [Notify ("Seat " +:+ show seatNumber +:+ " temporarily selected")
                       "success"])
      else
        (p, [call; Notify (or_else (error data) "Failed to select seat") "error"])
  end.

(** [deselectSeat (seatNumber)], likewise. *)
Definition deselectSeat (now : Z) (p : page) (seatNumber : Z)
    (r : fetch_result HoldReply) (r2 : fetch_result SeatStatus)
  : page * list event :=
  let call := Fetch (PostDeselectSeat (scheduleId (manager p)) seatNumber) in
  let failed msg :=
    (p, [call; ConsoleError "Error deselecting seat:" msg;
         Notify "Failed to deselect seat. Please try again." "error"]) in
  match r with
  | Rejected msg => failed msg
  | Responded _ (inl msg) => failed msg
  | Responded _ (inr data) =>
      if success data then
        let p1 :=
          {| manager := with_selectedSeats (manager p)
                          (JsSet.delete (selectedSeats (manager p)) seatNumber);
             seats := seats p |} in
        let '(p2, evs) := fetchSeatStatus now p1 r2 in
        (p2, call :: evs ++
               [Notify ("Seat " +:+ show seatNumber +:+ " deselected") "success"])
      else
        (p, [call; Notify (or_else (message data) "Failed to deselect seat") "error"])
  end.

(** What a click on a seat element starts. *)
Inductive action :=
| NoAction
| DeselectSeat (seatNumber : Z)
| SelectSeat (seatNumber : Z).

(** The dispatch of [handleSeatClick (event)] on the clicked element. *)
Definition clickAction (m : RealTimeSeatManager) (seat : SeatElement)
  : action :=
  if String.eqb (ds_status seat) "booked" then NoAction
  else if String.eqb (ds_status seat) "temporary"
          && bool_decide (ds_userId seat = Some (userId m))
  then DeselectSeat (seatNumber seat)
  else if String.eqb (ds_status seat) "available"
  then SelectSeat (seatNumber seat)
  else NoAction.

(** [handleSeatClick (event)] on the [i]-th seat element, to
    completion. *)
Definition handleSeatClick (now : Z) (p : page) (i : nat)
    (r : fetch_result HoldReply) (r2 : fetch_result SeatStatus)
  : page * list event :=
  match seats p !! i with
  | None => (p, [])
  | Some seat =>
      match clickAction (manager p) seat with
      | NoAction => (p, [])
      | DeselectSeat n => deselectSeat now p n r r2
      | SelectSeat n => selectSeat now p n r r2
      end
  end.

(** A user operation or a poll, with the clock reading at its render
    and the server's replies to it; the run of a sequence of
    operations, each completing before the next starts. *)
Inductive op :=
| Click (now : Z) (i : nat)
    (r : fetch_result HoldReply) (r2 : fetch_result SeatStatus)
| Select (now : Z) (seatNumber : Z)
    (r : fetch_result HoldReply) (r2 : fetch_result SeatStatus)
| Deselect (now : Z) (seatNumber : Z)
    (r : fetch_result HoldReply) (r2 : fetch_result SeatStatus)
| Poll (now : Z) (r : fetch_result SeatStatus).

Definition exec (p : page) (o : op) : page * list event :=
  match o with
  | Click now i r r2 => handleSeatClick now p i r r2
  | Select now n r r2 => selectSeat now p n r r2
  | Deselect now n r r2 => deselectSeat now p n r r2
  | Poll now r => fetchSeatStatus now p r
  end.

Fixpoint run (p : page) (ops : list op) : page * list event :=
  match ops with
  | [] => (p, [])
  | o :: ops =>
      let '(p1, e1) := exec p o in
      let '(p2, e2) := run p1 ops in
      (p2, e1 ++ e2)
  end.

(** The server confirms the request of an operation. *)
Definition confirmed (r : fetch_result HoldReply) : bool :=
  match r with
  | Responded _ (inr data) => success data
  | _ => false
  end.

Definition op_confirmed (o : op) : bool :=
  match o with
  | Click _ _ r _ | Select _ _ r _ | Deselect _ _ r _ => confirmed r
  | Poll _ _ => true
  end.

End RealTime.


(** ** [seat-booking.js]: [SeatBookingManager] and [SeatSelectionHandler] *)

Module SeatBooking.
Import Js.

(** *** Data *)

(** The replies of the availability, seat-check and booking
    endpoints, and the body of the booking request. *)
Record Availability := {
  available_count : Z;
  total_seats : Z;
  booked_seats : list Z
}.

Record SeatCheck := {
  all_available : bool;
  unavailable_seats : list Z
}.

Record BookingReply := {
  success : bool;
  booking_id : option Z;
  error : option string
}.

Record BookingData := {
  schedule_id : option Z;
  passenger_name : string;
  passenger_email : string;
  passenger_phone : string;
  seat_numbers : list Z
}.

(** [availabilityCache] is keyed by the schedule id as the caller
    passes it: the string read from the page ([inl]) when an
    availability check fills it, the number [parseInt] gave ([inr])
    when [bookSeats] deletes from it.  An entry holds the data and the
    [Date.now ()] of its arrival. *)
Record SeatBookingManager := {
  availabilityCache : gmap (string + option Z) (Availability * Z);
  bookingInProgress : bool
}.

(** [new SeatBookingManager ()]. *)
Definition newManager : SeatBookingManager :=
  {| availabilityCache := ∅; bookingInProgress := false |}.

(** A [.seat] element of the container: the integer of its
    [data-seat] attribute and its class list. *)
Record SeatElement := {
  seat : Z;
  classList : gset string
}.

(** The container: its seat elements, the text of its
    [.seat-selection-display] element and the value of its
    [schedule_id] field, where it has them. *)
Record Container := {
  seat_elements : list SeatElement;
  display : option string;
  schedule_id_field : option string
}.

Record SeatSelectionHandler := {
  container : Container;
  maxSeats : Z;
  selectedSeats : JsSet.t;
  bookingManager : SeatBookingManager
}.

(** The values of the form's fields at the time of a submission;
    [None] where [querySelector] finds no element. *)
Record Form := {
  schedule_id_value : option string;
  name_value : option string;
  email_value : option string;
  phone_value : option string
}.

Inductive request :=
| GetSeatAvailability (scheduleId : string)
| PostCheckSeats (scheduleId : string) (seat_numbers : list Z)
| PostBookSeats (d : BookingData).

Inductive event :=
| Fetch (r : request)
| ConsoleError (label message : string)
| Alert (message : string)
| Navigate (href : string).

Definition is_booking_call (e : event) : bool :=
  match e with Fetch (PostBookSeats _) => true | _ => false end.

Definition is_fetch (e : event) : bool :=
  match e with Fetch _ => true | _ => false end.

Definition is_alert (message : string) (e : event) : bool :=
  match e with Alert m => String.eqb m message | _ => false end.

(** An asynchronous call suspended at its [await]:
    [handleFormSubmission] waiting for the seat check or for the
    booking, and the availability check that [refreshSeatDisplay]
    starts. *)
Inductive task :=
| AwaitCheck (scheduleId passengerName passengerEmail passengerPhone : string)
| AwaitBooking (d : BookingData)
| AwaitAvailability (scheduleId : string).

Definition is_booking_task (t : task) : bool :=
  match t with AwaitBooking _ => true | _ => false end.

(** *** Field updates *)

Definition with_bookingInProgress (m : SeatBookingManager) (b : bool)
  : SeatBookingManager :=
  {| availabilityCache := availabilityCache m; bookingInProgress := b |}.

Definition with_availabilityCache (m : SeatBookingManager)
    (c : gmap (string + option Z) (Availability * Z)) : SeatBookingManager :=
  {| availabilityCache := c; bookingInProgress := bookingInProgress m |}.

Definition with_container (h : SeatSelectionHandler) (c : Container)
  : SeatSelectionHandler :=
  {| container := c; maxSeats := maxSeats h;
     selectedSeats := selectedSeats h; bookingManager := bookingManager h |}.

Definition with_selectedSeats (h : SeatSelectionHandler) (s : JsSet.t)
  : SeatSelectionHandler :=
  {| container := container h; maxSeats := maxSeats h;
     selectedSeats := s; bookingManager := bookingManager h |}.

Definition with_bookingManager (h : SeatSelectionHandler)
    (m : SeatBookingManager) : SeatSelectionHandler :=
  {| container := container h; maxSeats := maxSeats h;
     selectedSeats := selectedSeats h; bookingManager := m |}.

Definition with_seat_elements (c : Container) (l : list SeatElement)
  : Container :=
  {| seat_elements := l; display := display c;
     schedule_id_field := schedule_id_field c |}.

Definition with_classList (e : SeatElement) (cl : gset string)
  : SeatElement :=
  {| seat := seat e; classList := cl |}.

(** *** [SeatBookingManager] *)

(** [checkSeatAvailability (scheduleId, callback)] up to its [await]:
    the request. *)
Definition checkSeatAvailability_call (scheduleId : string) : list event :=
  [Fetch (GetSeatAvailability scheduleId)].

(** The rest of [checkSeatAvailability], run when the reply [r]
    arrives at time [now].  It gives the data handed to the callback
    and returned, or [None] for [null]. *)
Definition checkSeatAvailability_resume (now : Z) (m : SeatBookingManager)
    (scheduleId : string) (r : fetch_result Availability)
  : SeatBookingManager * list event * option Availability :=
  let caught msg :=
    (m, [ConsoleError "Error checking seat availability:" msg], None) in
  match r with
  | Rejected msg => caught msg
  | Responded status body =>
      if ok status then
        match body with
        | inl msg => caught msg
        | inr data =>
            (with_availabilityCache m
               (<[inl scheduleId := (data, now)]> (availabilityCache m)),
             [], Some data)
        end
      else caught ("HTTP error! status: " +:+ show status)
  end.

(** [checkSpecificSeats (scheduleId, seatNumbers)], called without a
    callback, up to its [await]: the request. *)
Definition checkSpecificSeats_call (scheduleId : string) (seatNumbers : list Z)
  : list event :=
  [Fetch (PostCheckSeats scheduleId seatNumbers)].

(** The rest of [checkSpecificSeats], run when the reply arrives: the
    data returned, or [None] for [null]. *)
Definition checkSpecificSeats_resume (r : fetch_result SeatCheck)
  : list event * option SeatCheck :=
  let caught msg :=
    ([ConsoleError "Error checking specific seats:" msg], None) in
  match r with
  | Rejected msg => caught msg
  | Responded status body =>
      if ok status then
        match body with
        | inl msg => caught msg
        | inr data => ([], Some data)
        end
      else caught ("HTTP error! status: " +:+ show status)
  end.

Definition busy_message : string :=
  "Booking already in progress. Please wait.".

(** How the synchronous part of [bookSeats] ends: it throws, or it
    is suspended at [await fetch (..)]. *)
Inductive call_outcome :=
| Thrown (message : string)
| Awaiting.

(** [bookSeats (bookingData)], called without a callback, up to its
    first [await]: the guard, the flag and the request. *)
Definition bookSeats_call (m : SeatBookingManager) (d : BookingData)
  : SeatBookingManager * list event * call_outcome :=
  if bookingInProgress m then (m, [], Thrown busy_message)
  else (with_bookingInProgress m true, [Fetch (PostBookSeats d)], Awaiting).

(** The rest of [bookSeats], run when the reply arrives: the [try]
    block, its [catch], which logs and rethrows, and its [finally]. *)
Definition bookSeats_resume (m : SeatBookingManager) (d : BookingData)
    (r : fetch_result BookingReply)
  : SeatBookingManager * list event * completion BookingReply :=
  let caught msg :=
    (with_bookingInProgress m false,
     [ConsoleError "Error booking seats:" msg], Throw msg) in
  match r with
  | Rejected msg => caught msg
  | Responded status body =>
      if ok status then
        match body with
        | inl msg => caught msg
        | inr data =>
            (with_bookingInProgress
               (with_availabilityCache m
                  (delete (inr (schedule_id d)) (availabilityCache m)))
               false,
             [], Return data)
        end
      else
        match body with
        | inl msg => caught msg
        | inr errorData => caught (or_else (error errorData) "Booking failed")
        end
  end.

(** [bookSeats] from the call to its completion on the reply [r]. *)
Definition bookSeats (m : SeatBookingManager) (d : BookingData)
    (r : fetch_result BookingReply)
  : SeatBookingManager * list event * completion BookingReply :=
  match bookSeats_call m d with
  | (m1, e1, Thrown msg) => (m1, e1, Throw msg)
  | (m1, e1, Awaiting) =>
      let '(m2, e2, c) := bookSeats_resume m1 d r in
      (m2, e1 ++ e2, c)
  end.

(** *** [SeatSelectionHandler] *)

(** The text [updateSelectionDisplay] writes. *)
Definition selectionText (h : SeatSelectionHandler) : string :=
  "Selected seats: "
    +:+ join ", " (show <$> merge_sort Z.le (JsSet.to_array (selectedSeats h)))
    +:+ " (" +:+ show (JsSet.size (selectedSeats h))
    +:+ "/" +:+ show (maxSeats h) +:+ ")".

Definition updateSelectionDisplay (h : SeatSelectionHandler)
  : SeatSelectionHandler :=
  with_container h
    {| seat_elements := seat_elements (container h);
       display := (fun _ => selectionText h) <$> display (container h);
       schedule_id_field := schedule_id_field (container h) |}.

(** [new SeatSelectionHandler (container, maxSeats)]. *)
Definition newHandler (c : Container) (maxSeats : Z) : SeatSelectionHandler :=
  updateSelectionDisplay
    {| container := c; maxSeats := maxSeats;
       selectedSeats := JsSet.empty; bookingManager := newManager |}.

Definition set_element_classes (h : SeatSelectionHandler) (i : nat)
    (f : gset string → gset string) : SeatSelectionHandler :=
  with_container h
    (with_seat_elements (container h)
       (alter (fun e => with_classList e (f (classList e))) i
          (seat_elements (container h)))).

(** [toggleSeat (seatElement)] on the [i]-th seat element. *)
Definition toggleSeat (h : SeatSelectionHandler) (i : nat)
  : SeatSelectionHandler * list event :=
  match seat_elements (container h) !! i with
  | None => (h, [])
  | Some seatElement =>
      let seatNumber := seat seatElement in
      if JsSet.has (selectedSeats h) seatNumber then
        let h := with_selectedSeats h (JsSet.delete (selectedSeats h) seatNumber) in
        let h := set_element_classes h i (fun cl => cl ∖ {[ "selected" ]}) in
        (updateSelectionDisplay h, [])
      else if (JsSet.size (selectedSeats h) >=? maxSeats h)%Z then
        (h, [Alert ("You can only select up to " +:+ show (maxSeats h)
                      +:+ " seats.")])
      else
        let h := with_selectedSeats h (JsSet.add (selectedSeats h) seatNumber) in
        let h := set_element_classes h i (fun cl => cl ∪ {[ "selected" ]}) in
        (updateSelectionDisplay h, [])
  end.

(** [refreshSeatDisplay ()]: the availability request it sends, if the
    container has a [schedule_id] value, and the suspended check. *)
Definition refreshSeatDisplay (h : SeatSelectionHandler)
  : list event * list task :=
  if truthy (schedule_id_field (container h)) then
    let scheduleId := default "" (schedule_id_field (container h)) in
    (checkSeatAvailability_call scheduleId, [AwaitAvailability scheduleId])
  else ([], []).

(** The body of the [forEach] of [updateSeatDisplay]. *)
Definition markSeat (availabilityData : Availability) (e : SeatElement)
  : SeatElement :=
  if bool_decide (seat e ∈ booked_seats availabilityData) then
    with_classList e
      ((classList e ∪ {[ "booked" ]}) ∖ {[ "available"; "selected" ]})
  else
    with_classList e ((classList e ∪ {[ "available" ]}) ∖ {[ "booked" ]}).

Definition updateSeatDisplay (h : SeatSelectionHandler)
    (availabilityData : Availability) : SeatSelectionHandler :=
  with_container h
    (with_seat_elements (container h)
       (markSeat availabilityData <$> seat_elements (container h))).

(** The reply to the availability check of [refreshSeatDisplay]
    arrives: the cache is filled and the callback redraws the seats. *)
Definition availability_arrived (now : Z) (h : SeatSelectionHandler)
    (scheduleId : string) (r : fetch_result Availability)
  : SeatSelectionHandler * list event :=
  let '(m, evs, data) :=
    checkSeatAvailability_resume now (bookingManager h) scheduleId r in
  let h := with_bookingManager h m in
  match data with
  | Some d => (updateSeatDisplay h d, evs)
  | None => (h, evs)
  end.

(** The message of the [TypeError] raised by reading a property of
    [null] (the engine's wording). *)
Definition null_read_message : string :=
  "Cannot read properties of null (reading 'all_available')".

Definition unavailable_message (unavailable : list Z) : string :=
  "Seats " +:+ join ", " (show <$> unavailable)
    +:+ " are no longer available. Please select different seats.".

(** The [catch] block of [handleFormSubmission]. *)
Definition submission_caught (h : SeatSelectionHandler) (msg : string)
  : list event * list task :=
  let '(evs, ts) := refreshSeatDisplay h in
  (Alert ("Booking failed: " +:+ msg) :: evs, ts).

(** [handleFormSubmission (form)] up to its first [await]: the two
    validations, then the seat check is sent for the seats selected
    at that moment. *)
Definition submit_call (h : SeatSelectionHandler) (form : Form)
  : SeatSelectionHandler * list event * list task :=
  if negb (truthy (schedule_id_value form))
     || negb (truthy (name_value form))
     || negb (truthy (email_value form))
     || negb (truthy (phone_value form))
  then (h, [Alert "Please fill in all required fields."], [])
  else if (JsSet.size (selectedSeats h) =? 0)%Z
  then (h, [Alert "Please select at least one seat."], [])
  else
    let scheduleId := default "" (schedule_id_value form) in
    (h, checkSpecificSeats_call scheduleId (JsSet.to_array (selectedSeats h)),
     [AwaitCheck scheduleId (default "" (name_value form))
        (default "" (email_value form)) (default "" (phone_value form))]).

(** [handleFormSubmission] from the arrival of the seat check's reply
    to its next [await] or its end. *)
Definition submit_checked (h : SeatSelectionHandler)
    (scheduleId passengerName passengerEmail passengerPhone : string)
    (r : fetch_result SeatCheck)
  : SeatSelectionHandler * list event * list task :=
  let '(e1, seatCheck) := checkSpecificSeats_resume r in
  match seatCheck with
  | None =>
      let '(e2, ts) := submission_caught h null_read_message in
      (h, e1 ++ e2, ts)
  | Some seatCheck =>
      if negb (all_available seatCheck) then
        let '(e2, ts) := refreshSeatDisplay h in
        (h, e1 ++ Alert (unavailable_message (unavailable_seats seatCheck)) :: e2,
         ts)
      else
        let bookingData :=
          {| schedule_id := parseInt scheduleId;
             passenger_name := passengerName;
             passenger_email := passengerEmail;
             passenger_phone := passengerPhone;
             seat_numbers := JsSet.to_array (selectedSeats h) |} in
        match bookSeats_call (bookingManager h) bookingData with
        | (m, e2, Thrown msg) =>
            let h := with_bookingManager h m in
            let '(e3, ts) := submission_caught h msg in
            (h, e1 ++ e2 ++ e3, ts)
        | (m, e2, Awaiting) =>
            (with_bookingManager h m, e1 ++ e2, [AwaitBooking bookingData])
        end
  end.

(** [handleFormSubmission] from the arrival of the booking's reply
    to its end. *)
Definition submit_booked (h : SeatSelectionHandler) (d : BookingData)
    (r : fetch_result BookingReply)
  : SeatSelectionHandler * list event * list task :=
  let '(m, e1, c) := bookSeats_resume (bookingManager h) d r in
  let h := with_bookingManager h m in
  match c with
  | Return result =>
      if success result then
        (h, e1 ++ [Navigate ("/payment/" +:+ show_opt (booking_id result) +:+ "/")],
         [])
      else (h, e1, [])
  | Throw msg =>
      let '(e2, ts) := submission_caught h msg in
      (h, e1 ++ e2, ts)
  end.

(** [handleFormSubmission (form)] run without anything else in
    between: [rc] is the reply to the seat check and [rb] the reply to
    the booking, each used if the submission gets that far.  The tasks
    left are the availability checks of [refreshSeatDisplay]. *)
Definition handleFormSubmission (h : SeatSelectionHandler) (form : Form)
    (rc : fetch_result SeatCheck) (rb : fetch_result BookingReply)
  : SeatSelectionHandler * list event * list task :=
  match submit_call h form with
  | (h1, e1, [AwaitCheck scheduleId name email phone]) =>
      match submit_checked h1 scheduleId name email phone rc with
      | (h2, e2, [AwaitBooking d]) =>
          let '(h3, e3, ts) := submit_booked h2 d rb in
          (h3, e1 ++ e2 ++ e3, ts)
      | (h2, e2, ts) => (h2, e1 ++ e2, ts)
      end
  | (h1, e1, ts) => (h1, e1, ts)
  end.

(** *** The page as a transition system

    Clicks, submissions and arriving replies are turns that run one
    after the other; a reply may arrive for any suspended call. *)
Record system := {
  handler : SeatSelectionHandler;
  pending : list task;
  log : list event
}.

Inductive input :=
| ClickSeat (i : nat)
| Submit (form : Form)
| CheckArrives (k : nat) (r : fetch_result SeatCheck)
| BookingArrives (k : nat) (r : fetch_result BookingReply)
| AvailabilityArrives (now : Z) (k : nat) (r : fetch_result Availability).

Definition start (c : Container) (maxSeats : Z) : system :=
  {| handler := newHandler c maxSeats; pending := []; log := [] |}.

(** One turn; [None] when the input names no suspended call of its
    kind. *)
Definition step (s : system) (i : input) : option system :=
  match i with
  | ClickSeat i =>
      let '(h, evs) := toggleSeat (handler s) i in
      Some {| handler := h; pending := pending s; log := log s ++ evs |}
  | Submit form =>
      let '(h, evs, ts) := submit_call (handler s) form in
      Some {| handler := h; pending := pending s ++ ts; log := log s ++ evs |}
  | CheckArrives k r =>
      match pending s !! k with
      | Some (AwaitCheck scheduleId name email phone) =>
          let '(h, evs, ts) :=
            submit_checked (handler s) scheduleId name email phone r in
          Some {| handler := h; pending := delete k (pending s) ++ ts;
                  log := log s ++ evs |}
      | _ => None
      end
  | BookingArrives k r =>
      match pending s !! k with
      | Some (AwaitBooking d) =>
          let '(h, evs, ts) := submit_booked (handler s) d r in
          Some {| handler := h; pending := delete k (pending s) ++ ts;
                  log := log s ++ evs |}
      | _ => None
      end
  | AvailabilityArrives now k r =>
      match pending s !! k with
      | Some (AwaitAvailability scheduleId) =>
          let '(h, evs) := availability_arrived now (handler s) scheduleId r in
          Some {| handler := h; pending := delete k (pending s);
                  log := log s ++ evs |}
      | _ => None
      end
  end.

Fixpoint steps (s : system) (inputs : list input) : option system :=
  match inputs with
  | [] => Some s
  | i :: inputs =>
      match step s i with
      | Some s' => steps s' inputs
      | None => None
      end
  end.

(** The bookings in flight, the booking requests sent so far, and the
    booking replies among the inputs. *)
Definition count {A : Type} (f : A → bool) (l : list A) : nat :=
  length (filter (fun x => f x = true) l).

Definition in_flight (s : system) : nat := count is_booking_task (pending s).

Definition booking_calls (evs : list event) : nat := count is_booking_call evs.

Definition is_booking_reply (i : input) : bool :=
  match i with BookingArrives _ _ => true | _ => false end.

Definition booking_replies (inputs : list input) : nat :=
  count is_booking_reply inputs.

(** *** Invariants *)

(** The fields a handler keeps through a turn. *)
Definition same_selection (h h' : SeatSelectionHandler) : Prop :=
  selectedSeats h' = selectedSeats h ∧ maxSeats h' = maxSeats h.

(** The invariant of the local selection: it has no duplicates and is
    within [maxSeats]. *)
Record selection_invariant (limit : Z) (s : system) : Prop := {
  inv_maxSeats : maxSeats (handler s) = limit;
  inv_NoDup : NoDup (selectedSeats (handler s));
  inv_bounded : (JsSet.size (selectedSeats (handler s)) <= limit)%Z
}.

(** The invariant of the booking guard: the [bookingInProgress] flag
    is up exactly when one booking is in flight. *)
Definition guard_invariant (s : system) : Prop :=
  in_flight s
  = if bookingInProgress (bookingManager (handler s)) then 1 else 0.

End SeatBooking.


(** ** Scenarios on the seat page: five seats selected one after the other

    The seat page of schedule 12 for user 7, with five available seats.
    The user clicks them in turn; the server confirms every hold, and
    the status refresh after the [k]-th click lists the first [k] seats
    as held by the user. *)

Module RealTimeScenario.
Import Js RealTime.

Definition seatElement (n : Z) : SeatElement :=
  {| seatNumber := n; classList := {[ "seat" ]}; ds_status := "available";
     ds_userId := None; ds_username := None; title := "" |}.

Definition page0 : page :=
  updateSeatDisplay 0
    {| manager := constructor "12" 7;
       seats := seatElement <$> [1; 2; 3; 4; 5]%Z |}.

Definition hold (n : Z) : Z * HoldInfo :=
  (n, {| user_id := 7; username := "A"; expires_at := TimeValue 600000 |}).

Definition status_after (k : nat) : SeatStatus :=
  {| booked_seats := [];
     available_seats := drop k [1; 2; 3; 4; 5]%Z;
     temporary_selections := hold <$> take k [1; 2; 3; 4; 5]%Z |}.

Definition confirm : fetch_result HoldReply :=
  Responded 200 (inr {| success := true; error := None; message := None |}).

Definition click (k : nat) : op :=
  Click 0 k confirm (Responded 200 (inr (status_after (S k)))).

Definition five_clicks : list op := click <$> [0; 1; 2; 3; 4]%nat.

(** A seat page on which the server lists seat 3 both as booked and
    as temporarily held by another user. *)
Definition overlap_status : SeatStatus :=
  {| booked_seats := [3]%Z;
     available_seats := [1; 2]%Z;
     temporary_selections :=
       [(3%Z, {| user_id := 9; username := "B"; expires_at := TimeValue 600000 |})] |}.

Definition overlap_page : page :=
  {| manager := with_status (constructor "12" 7) overlap_status;
     seats := seatElement <$> [1; 2; 3]%Z |}.

End RealTimeScenario.

(** ** Scenarios on the booking form *)

Module BookingScenario.
Import Js SeatBooking.

Definition seatElement (n : Z) : SeatElement :=
  {| seat := n; classList := {[ "seat" ]} |}.

Definition container0 : Container :=
  {| seat_elements := seatElement <$> [1; 2; 3; 4; 5; 6]%Z;
     display := Some "";
     schedule_id_field := Some "12" |}.

Definition form0 : Form :=
  {| schedule_id_value := Some "12"; name_value := Some "Ada";
     email_value := Some "ada@example.org"; phone_value := Some "555" |}.

Definition all_free : fetch_result SeatCheck :=
  Responded 200 (inr {| all_available := true; unavailable_seats := [] |}).

Definition seat3_taken : fetch_result SeatCheck :=
  Responded 200 (inr {| all_available := false; unavailable_seats := [3]%Z |}).

Definition booked42 : fetch_result BookingReply :=
  Responded 200 (inr {| success := true; booking_id := Some 42%Z; error := None |}).

(** The handler after the user picked seats 3 and 1. *)
Definition picked : SeatSelectionHandler :=
  (toggleSeat (toggleSeat (newHandler container0 4) 2).1 0).1.

(** Two submissions that overlap: both seat checks pass, and the
    second reaches [bookSeats] while the first booking is pending. *)
Definition overlapping_submits : list input :=
  [ClickSeat 2; Submit form0; Submit form0;
   CheckArrives 0 all_free; CheckArrives 0 all_free].

(** Two submissions whose bookings do not overlap: the first booking
    is refused by the server before the second seat check returns. *)
Definition successive_submits : list input :=
  [ClickSeat 2; Submit form0; Submit form0;
   CheckArrives 0 all_free;
   BookingArrives 1
     (Responded 409 (inr {| success := false; booking_id := None;
                            error := Some "Seat 3 was just booked" |}));
   CheckArrives 0 all_free].

(** The states of [overlapping_submits] after the two submissions and
    at its end. *)
Definition both_submitted : system :=
  default (start container0 4)
    (steps (start container0 4) [ClickSeat 2; Submit form0; Submit form0]).

Definition both_checked : system :=
  default both_submitted
    (steps both_submitted [CheckArrives 0 all_free; CheckArrives 0 all_free]).

(** A submission during which the user picks one more seat before the
    seat check returns. *)
Definition late_pick : list input :=
  [ClickSeat 2; Submit form0; ClickSeat 0; CheckArrives 0 all_free].

(** The states that run goes through. *)
Definition run_from (s : system) (inputs : list input) : system :=
  default s (steps s inputs).

Definition seat3_picked : system := run_from (start container0 4) [ClickSeat 2].
Definition submitted : system := run_from seat3_picked [Submit form0].
Definition seat1_added : system := run_from submitted [ClickSeat 0].
Definition checked : system := run_from seat1_added [CheckArrives 0 all_free].

End BookingScenario.


(** ** [seat-booking.js]: the availability cache and its monitoring *)

Module Monitoring.
Import Js SeatBooking.

(** [getCachedAvailability (scheduleId)] at time [now]: the cached data
    when there is an entry for that key less than ten seconds old. *)
Definition getCachedAvailability (now : Z) (m : SeatBookingManager)
    (scheduleId : string + option Z) : option Availability :=
  match availabilityCache m !! scheduleId with
  | Some (data, timestamp) =>
      if (now - timestamp <? 10000)%Z then Some data else None
  | None => None
  end.

(** Truthiness of a schedule id: a string other than the empty one, a
    number other than 0 and [NaN]. *)
Definition key_truthy (k : string + option Z) : bool :=
  match k with
  | inl s => negb (String.eqb s "")
  | inr (Some n) => negb (n =? 0)%Z
  | inr None => false
  end.

(** [clearCache (scheduleId = null)]; [None] is a call without an
    argument, or with [null]. *)
Definition clearCache (m : SeatBookingManager)
    (scheduleId : option (string + option Z)) : SeatBookingManager :=
  match scheduleId with
  | Some k =>
      if key_truthy k
      then with_availabilityCache m (delete k (availabilityCache m))
      else with_availabilityCache m ∅
  | None => with_availabilityCache m ∅
  end.

(** A manager with its [refreshInterval] and the interval timers it
    has running in the page: the handle of each and the schedule its
    callback checks.  An availability check waiting for its reply
    is a pending schedule id. *)
Record Monitor := {
  manager : SeatBookingManager;
  refreshInterval : option positive;
  intervals : gmap positive string;
  checks : list string
}.

Definition newMonitor : Monitor :=
  {| manager := newManager; refreshInterval := None;
     intervals := ∅; checks := [] |}.

(** [clearInterval (handle)]: a handle that names no timer is
    ignored. *)
Definition clearInterval (handle : positive) (timers : gmap positive string)
  : gmap positive string :=
  delete handle timers.

(** [startAvailabilityMonitoring (scheduleId, updateCallback)].
    [handle] is the handle [setInterval] returns: the browser gives one
    that no running timer has, so there is no result for a handle in
    use. *)
Definition startAvailabilityMonitoring (handle : positive) (mon : Monitor)
    (scheduleId : string) : option (Monitor * list event) :=
  let timers :=
    match refreshInterval mon with
    | Some old => clearInterval old (intervals mon)
    | None => intervals mon
    end in
  if decide (is_Some (timers !! handle)) then None
  else
    Some ({| manager := manager mon;
             refreshInterval := Some handle;
             intervals := <[handle := scheduleId]> timers;
             checks := checks mon ++ [scheduleId] |},
          checkSeatAvailability_call scheduleId).

(** [stopAvailabilityMonitoring ()]. *)
Definition stopAvailabilityMonitoring (mon : Monitor) : Monitor :=
  match refreshInterval mon with
  | Some handle =>
      {| manager := manager mon; refreshInterval := None;
         intervals := clearInterval handle (intervals mon);
         checks := checks mon |}
  | None => mon
  end.

(** What happens to a monitor: it is started or stopped, a timer
    fires, or the reply to a pending check arrives. *)
Inductive input :=
| Start (handle : positive) (scheduleId : string)
| Stop
| Tick (handle : positive)
| Arrives (now : Z) (k : nat) (r : fetch_result Availability).

(** One turn, with the data handed to the callback if any; [None]
    when the input cannot happen in this state. *)
Definition step (mon : Monitor) (i : input)
  : option (Monitor * list event * option Availability) :=
  match i with
  | Start handle scheduleId =>
      (fun '(mon', evs) => (mon', evs, None))
        <$> startAvailabilityMonitoring handle mon scheduleId
  | Stop => Some (stopAvailabilityMonitoring mon, [], None)
  | Tick handle =>
      match intervals mon !! handle with
      | Some scheduleId =>
          Some ({| manager := manager mon;
                   refreshInterval := refreshInterval mon;
                   intervals := intervals mon;
                   checks := checks mon ++ [scheduleId] |},
                checkSeatAvailability_call scheduleId, None)
      | None => None
      end
  | Arrives now k r =>
      match checks mon !! k with
      | Some scheduleId =>
          let '(m, evs, data) :=
            checkSeatAvailability_resume now (manager mon) scheduleId r in
          Some ({| manager := m;
                   refreshInterval := refreshInterval mon;
                   intervals := intervals mon;
                   checks := delete k (checks mon) |},
                evs, data)
      | None => None
      end
  end.

Fixpoint steps (mon : Monitor) (inputs : list input)
  : option (Monitor * list event) :=
  match inputs with
  | [] => Some (mon, [])
  | i :: inputs =>
      match step mon i with
      | Some (mon1, e1, _) =>
          (fun '(mon2, e2) => (mon2, e1 ++ e2)) <$> steps mon1 inputs
      | None => None
      end
  end.

(** The timers of a monitor are the one its [refreshInterval] names,
    if any. *)
Definition one_timer (mon : Monitor) : Prop :=
  match refreshInterval mon with
  | Some handle => ∃ scheduleId, intervals mon = {[ handle := scheduleId ]}
  | None => intervals mon = ∅
  end.

(** An input that neither starts nor stops the monitoring. *)
Definition passive (i : input) : Prop :=
  match i with Start _ _ | Stop => False | _ => True end.

End Monitoring.


(** ** The real-time seat script: polling and the life of the manager *)

Module Lifecycle.
Import Js RealTime.

(** The manager in its page: the seat page it works on, its
    [updateInterval] and [isInitialized] fields, the interval timers it
    has running, whether the seat elements carry its click listener,
    and how many listeners [setupEventListeners] has put on the
    window's [focus] and [blur] and on the document's
    [visibilitychange].  Those three are arrow functions made anew at
    each call, so each call adds one. *)
Record Live := {
  doc : page;
  updateInterval : option positive;
  isInitialized : bool;
  intervals : gset positive;
  seat_clicks : bool;
  focus_listeners : nat;
  blur_listeners : nat;
  visibility_listeners : nat
}.

(** The page after [new RealTimeSeatManager (scheduleId, userId)]. *)
Definition newLive (scheduleId : string) (userId : Z)
    (seats : list SeatElement) : Live :=
  {| doc := {| manager := constructor scheduleId userId; seats := seats |};
     updateInterval := None; isInitialized := false; intervals := ∅;
     seat_clicks := false; focus_listeners := 0; blur_listeners := 0;
     visibility_listeners := 0 |}.

Definition with_doc (l : Live) (p : page) : Live :=
  {| doc := p; updateInterval := updateInterval l;
     isInitialized := isInitialized l; intervals := intervals l;
     seat_clicks := seat_clicks l; focus_listeners := focus_listeners l;
     blur_listeners := blur_listeners l;
     visibility_listeners := visibility_listeners l |}.

(** [startRealTimeUpdates ()].  [handle] is the handle [setInterval]
    returns when it is called: one that no running timer has. *)
Definition startRealTimeUpdates (handle : positive) (l : Live) : option Live :=
  match updateInterval l with
  | Some _ => Some l
  | None =>
      if decide (handle ∈ intervals l) then None
      else
        Some {| doc := doc l; updateInterval := Some handle;
                isInitialized := isInitialized l;
                intervals := {[ handle ]} ∪ intervals l;
                seat_clicks := seat_clicks l;
                focus_listeners := focus_listeners l;
                blur_listeners := blur_listeners l;
                visibility_listeners := visibility_listeners l |}
  end.

(** [stopRealTimeUpdates ()]. *)
Definition stopRealTimeUpdates (l : Live) : Live :=
  match updateInterval l with
  | Some handle =>
      {| doc := doc l; updateInterval := None;
         isInitialized := isInitialized l;
         intervals := intervals l ∖ {[ handle ]};
         seat_clicks := seat_clicks l;
         focus_listeners := focus_listeners l;
         blur_listeners := blur_listeners l;
         visibility_listeners := visibility_listeners l |}
  | None => l
  end.

(** [setupEventListeners ()]: the click listener is the bound
    [handleSeatClick], the same function at every call, so adding it
    again changes nothing. *)
Definition setupEventListeners (l : Live) : Live :=
  {| doc := doc l; updateInterval := updateInterval l;
     isInitialized := isInitialized l; intervals := intervals l;
     seat_clicks := true;
     focus_listeners := S (focus_listeners l);
     blur_listeners := S (blur_listeners l);
     visibility_listeners := S (visibility_listeners l) |}.

(** [initialize ()], from the call to its completion: [r] is the reply
    to its first status request. *)
Definition initialize (handle : positive) (now : Z) (l : Live)
    (r : fetch_result SeatStatus) : option (Live * list event) :=
  let '(p, evs) := fetchSeatStatus now (doc l) r in
  match startRealTimeUpdates handle (setupEventListeners (with_doc l p)) with
  | Some l' =>
      Some ({| doc := doc l'; updateInterval := updateInterval l';
               isInitialized := true; intervals := intervals l';
               seat_clicks := seat_clicks l';
               focus_listeners := focus_listeners l';
               blur_listeners := blur_listeners l';
               visibility_listeners := visibility_listeners l' |}, evs)
  | None => None
  end.

(** [destroy ()]: the timer is stopped and the click listener is taken
    off the seats.  The three [removeEventListener] calls that follow
    name the bound [startRealTimeUpdates] and [stopRealTimeUpdates],
    which are not the arrow functions that were added, so they remove
    nothing. *)
Definition destroy (l : Live) : Live :=
  let l := stopRealTimeUpdates l in
  {| doc := doc l; updateInterval := updateInterval l;
     isInitialized := isInitialized l; intervals := intervals l;
     seat_clicks := false;
     focus_listeners := focus_listeners l;
     blur_listeners := blur_listeners l;
     visibility_listeners := visibility_listeners l |}.

(** What happens in the page.  An input that may start the timer
    carries the handle the browser would give. *)
Inductive input :=
| Initialize (handle : positive) (now : Z) (r : fetch_result SeatStatus)
| Focus (handle : positive)
| Blur
| VisibilityChange (hidden : bool) (handle : positive)
| Tick (handle : positive) (now : Z) (r : fetch_result SeatStatus)
| SeatClick (now : Z) (i : nat)
    (r : fetch_result HoldReply) (r2 : fetch_result SeatStatus)
| Destroy.

(** One turn; [None] when the input cannot happen in this state.  The
    listeners of an event all make the same call, and making it again
    changes nothing, so it is made once when there is a listener. *)
Definition step (l : Live) (i : input) : option (Live * list event) :=
  match i with
  | Initialize handle now r => initialize handle now l r
  | Focus handle =>
      if Nat.eqb (focus_listeners l) 0 then Some (l, [])
      else (fun l' => (l', [])) <$> startRealTimeUpdates handle l
  | Blur =>
      if Nat.eqb (blur_listeners l) 0 then Some (l, [])
      else Some (stopRealTimeUpdates l, [])
  | VisibilityChange hidden handle =>
      if Nat.eqb (visibility_listeners l) 0 then Some (l, [])
      else if hidden then Some (stopRealTimeUpdates l, [])
      else (fun l' => (l', [])) <$> startRealTimeUpdates handle l
  | Tick handle now r =>
      if decide (handle ∈ intervals l) then
        let '(p, evs) := fetchSeatStatus now (doc l) r in
        Some (with_doc l p, evs)
      else None
  | SeatClick now i r r2 =>
      if seat_clicks l then
        let '(p, evs) := handleSeatClick now (doc l) i r r2 in
        Some (with_doc l p, evs)
      else Some (l, [])
  | Destroy => Some (destroy l, [])
  end.

Fixpoint steps (l : Live) (inputs : list input) : option (Live * list event) :=
  match inputs with
  | [] => Some (l, [])
  | i :: inputs =>
      match step l i with
      | Some (l1, e1) =>
          (fun '(l2, e2) => (l2, e1 ++ e2)) <$> steps l1 inputs
      | None => None
      end
  end.

(** The invariant of the manager's life: its running timers are the
    one [updateInterval] names, if any, and once it is initialized the
    window and the document carry its listeners. *)
Record alive (l : Live) : Prop := {
  alive_timers :
    intervals l = match updateInterval l with
                  | Some handle => {[ handle ]}
                  | None => ∅
                  end;
  alive_listeners :
    isInitialized l = true →
    0 < focus_listeners l ∧ 0 < blur_listeners l ∧ 0 < visibility_listeners l
}.

End Lifecycle.

(** ** The real-time seat script: the legend *)

Module Legend.

(** The children of the [.seat-legend] container, by the class that
    [updateLegend] looks for: its two entries, and anything else. *)
Inductive child :=
| TempLegend
| OwnLegend
| Other (className : string).

Definition is_temp (c : child) : bool :=
  match c with TempLegend => true | _ => false end.

Definition is_own (c : child) : bool :=
  match c with OwnLegend => true | _ => false end.

(** [updateLegend ()] on the legend container, [None] when the page
    has none. *)
Definition updateLegend (legend : option (list child)) : option (list child) :=
  match legend with
  | None => None
  | Some children =>
      let children :=
        if existsb is_temp children then children else children ++ [TempLegend] in
      let children :=
        if existsb is_own children then children else children ++ [OwnLegend] in
      Some children
  end.

End Legend.


(** ** Both scripts: the CSRF token *)

Module Cookies.
Import Js.

(** A string of the script as the sequence of its UTF-16 code units. *)
Definition text := list N.

(** The code units of a literal of the script, which is ASCII. *)
Definition units (s : string) : text := N_of_ascii <$> list_ascii_of_string s.

(** The code units that [String.prototype.trim] strips, the white
    space and line terminators of the language: TAB, LF, VT, FF, CR,
    SP, U+00A0, U+1680, U+2000 to U+200A, U+2028, U+2029, U+202F,
    U+205F, U+3000 and U+FEFF. *)
Definition is_white_space (c : N) : bool :=
  bool_decide (c ∈ [9; 10; 11; 12; 13; 32; 160; 5760; 8232; 8233; 8239;
                    8287; 12288; 65279]%N)
  || ((8192 <=? c) && (c <=? 8202))%N.

(** The separator [';']. *)
Definition semicolon : N := 59.

(** [s.split (sep)] for a separator of one code unit. *)
Fixpoint split (sep : N) (s : text) : list text :=
  match s with
  | [] => [[]]
  | c :: r =>
      if (c =? sep)%N then [] :: split sep r
      else
        match split sep r with
        | x :: xs => (c :: x) :: xs
        | [] => [[c]]
        end
  end.

(** [s.trim ()]. *)
Fixpoint trim_start (s : text) : text :=
  match s with
  | c :: r => if is_white_space c then trim_start r else s
  | [] => []
  end.

Fixpoint trim_end (s : text) : text :=
  match s with
  | [] => []
  | c :: r =>
      let r' := trim_end r in
      if is_white_space c && bool_decide (r' = []) then [] else c :: r'
  end.

Definition trim (s : text) : text := trim_end (trim_start s).

Definition name : string := "csrftoken".

(** The message of the [URIError] that [decodeURIComponent] throws on
    a malformed escape (the engine's wording). *)
Definition uri_error_message : string := "URI malformed".

(** The loop of [getCSRFToken] over the pieces of [document.cookie];
    [substring (0, n)] is [take n] and [substring (n)] is [drop n].
    [decodeURIComponent] is a parameter; it gives [None] where the
    built-in throws. *)
Fixpoint findToken (decodeURIComponent : text → option text)
    (cookies : list text) : completion (option text) :=
  match cookies with
  | [] => Return None
  | piece :: cookies =>
      let cookie := trim piece in
      if bool_decide (take (String.length name + 1) cookie = units (name +:+ "="))
      then
        match decodeURIComponent (drop (String.length name + 1) cookie) with
        | Some value => Return (Some value)
        | None => Throw uri_error_message
        end
      else findToken decodeURIComponent cookies
  end.

(** [getCSRFToken ()] on the value of [document.cookie]. *)
Definition getCSRFToken (decodeURIComponent : text → option text)
    (document_cookie : text) : completion (option text) :=
  if bool_decide (document_cookie ≠ []) then
    findToken decodeURIComponent (split semicolon document_cookie)
  else Return None.

(** The cookie string made of the given pieces with [';'] between
    them, and a text without the code unit [sep]. *)
Fixpoint cookie_string (pieces : list text) : text :=
  match pieces with
  | [] => []
  | x :: r =>
      match r with
      | [] => x
      | _ :: _ => x ++ semicolon :: cookie_string r
      end
  end.

Definition free_of (sep : N) (s : text) : bool :=
  forallb (fun c => negb (c =? sep)%N) s.

(** A piece of [document.cookie] that holds the cookie [csrftoken]. *)
Definition names_token (piece : text) : bool :=
  bool_decide (take (String.length name + 1) (trim piece) = units (name +:+ "=")).

End Cookies.


(** ** A scenario: a manager that is polling *)

Module LifeScenario.
Import Js RealTime Lifecycle.

(** An initialized manager of schedule 12 whose timer has handle 4. *)
Definition polling : Live :=
  {| doc := {| manager := constructor "12" 7; seats := [] |};
     updateInterval := Some 4%positive; isInitialized := true;
     intervals := {[ 4%positive ]}; seat_clicks := true;
     focus_listeners := 1; blur_listeners := 1; visibility_listeners := 1 |}.

End LifeScenario.


(** ** Notions used to state further properties *)

Module Observed.
Import Js.

(** The data an awaited reply yields where the script checks
    [response.ok] before reading the body: none when the fetch rejects,
    the status is not 2xx or the body cannot be read. *)
Definition reply_data {A : Type} (r : fetch_result A) : option A :=
  match r with
  | Responded status (inr data) => if ok status then Some data else None
  | _ => None
  end.

(** The requests among the events of the seat page, in order. *)
Definition hold_requests (evs : list RealTime.event) : list RealTime.request :=
  omap (fun e => match e with RealTime.Fetch r => Some r | _ => None end) evs.

(** The server does not confirm the hold request of an operation; a
    poll makes none. *)
Definition hold_refused (o : RealTime.op) : Prop :=
  match o with
  | RealTime.Click _ _ r _ | RealTime.Select _ _ r _
  | RealTime.Deselect _ _ r _ => RealTime.confirmed r = false
  | RealTime.Poll _ _ => True
  end.

(** The requests among the events of the booking form, in order. *)
Definition form_requests (evs : list SeatBooking.event)
  : list SeatBooking.request :=
  omap (fun e => match e with SeatBooking.Fetch r => Some r | _ => None end) evs.

(** The text of the selection display, where the container has one,
    is the text of the current selection. *)
Definition display_in_sync (h : SeatBooking.SeatSelectionHandler) : Prop :=
  SeatBooking.display (SeatBooking.container h)
  = (fun _ => SeatBooking.selectionText h)
      <$> SeatBooking.display (SeatBooking.container h).

End Observed.


(** ** Seat-status replies with missing parts *)

Module StatusBody.
Import Js RealTime.

(** The value [response.json ()] yields for the seat-status reply, as
    [fetchSeatStatus] reads it: [null], or a value on which the three
    properties are read.  A property is [None] where it is missing or
    [null] (on a body that is not an object all three are missing);
    where present it has the type the server sends. *)
Record fields := {
  body_booked_seats : option (list Z);
  body_available_seats : option (list Z);
  body_temporary_selections : option (list (Z * HoldInfo))
}.

Inductive body :=
| JsonNull
| JsonValue (data : fields).

(** The messages of the [TypeError]s raised by reading a property of
    [null] and by [Object.entries (undefined)] (the engine's wording). *)
Definition null_body_message : string :=
  "Cannot read properties of null (reading 'booked_seats')".

Definition no_entries_message : string :=
  "Cannot convert undefined or null to object".

(** [fetchSeatStatus ()] on such a reply.  [new Set (undefined)] is
    the empty set; the three assignments are made one after the other,
    before [Object.entries] is called and before the seats are
    rendered, and the [catch] block only logs. *)
Definition fetchSeatStatus (now : Z) (p : page) (r : fetch_result body)
  : page * list event :=
  let call := Fetch (GetSeatStatus (scheduleId (manager p))) in
  let caught (q : page) msg :=
    (q, [call; ConsoleError "Error fetching seat status:" msg]) in
  match r with
  | Rejected msg => caught p msg
  | Responded status b =>
      if ok status then
        match b with
        | inl msg => caught p msg
        | inr JsonNull => caught p null_body_message
        | inr (JsonValue data) =>
            let m := manager p in
            let assigned tempSelections :=
              {| scheduleId := scheduleId m; userId := userId m;
                 selectedSeats := selectedSeats m;
                 tempSelections := tempSelections;
                 bookedSeats := list_to_set (default [] (body_booked_seats data));
                 availableSeats :=
                   list_to_set (default [] (body_available_seats data)) |} in
            match body_temporary_selections data with
            | None =>
                caught {| manager := assigned ∅; seats := seats p |}
                  no_entries_message
            | Some entries =>
                (updateSeatDisplay now
                   {| manager :=
                        assigned (foldl (fun acc e => <[e.1 := e.2]> acc) ∅ entries);
                      seats := seats p |},
                 [call])
            end
        end
      else caught p ("HTTP " +:+ show status)
  end.

(** A reply that has the three properties. *)
Definition complete (d : SeatStatus) : body :=
  JsonValue {| body_booked_seats := Some (booked_seats d);
               body_available_seats := Some (available_seats d);
               body_temporary_selections := Some (temporary_selections d) |}.

Definition complete_reply (r : fetch_result SeatStatus) : fetch_result body :=
  match r with
  | Rejected msg => Rejected msg
  | Responded status (inl msg) => Responded status (inl msg)
  | Responded status (inr d) => Responded status (inr (complete d))
  end.

End StatusBody.


(** * Properties *)

(** ** The insertion-ordered set *)

Section JsSet_facts.
Import Js.

Lemma JsSet_has_true (s : JsSet.t) (x : Z) : JsSet.has s x = true ↔ x ∈ s.
Proof. unfold JsSet.has. by rewrite bool_decide_eq_true. Qed.

Lemma JsSet_has_false (s : JsSet.t) (x : Z) : JsSet.has s x = false ↔ x ∉ s.
Proof. unfold JsSet.has. by rewrite bool_decide_eq_false. Qed.

Lemma JsSet_elem_of_add (s : JsSet.t) (x y : Z) :
  y ∈ JsSet.add s x ↔ y = x ∨ y ∈ s.
Proof.
  unfold JsSet.add. destruct (JsSet.has s x) eqn:Hx.
  - apply JsSet_has_true in Hx. split; [auto | intros [-> | ?]; done].
  - rewrite elem_of_app, list_elem_of_singleton. tauto.
Qed.

Lemma JsSet_elem_of_delete (s : JsSet.t) (x y : Z) :
  y ∈ JsSet.delete s x ↔ y ≠ x ∧ y ∈ s.
Proof. unfold JsSet.delete. by rewrite list_elem_of_filter. Qed.

Lemma JsSet_add_fresh (s : JsSet.t) (x : Z) :
  x ∉ s → JsSet.add s x = s ++ [x].
Proof. intros Hx. unfold JsSet.add. by rewrite (proj2 (JsSet_has_false s x) Hx). Qed.

Lemma JsSet_NoDup_add (s : JsSet.t) (x : Z) : NoDup s → NoDup (JsSet.add s x).
Proof.
  intros Hs. unfold JsSet.add. destruct (JsSet.has s x) eqn:Hx; [done|].
  apply JsSet_has_false in Hx. apply NoDup_app. split_and!; [done | | apply NoDup_singleton].
  intros y Hy ->%list_elem_of_singleton. done.
Qed.

Lemma JsSet_NoDup_delete (s : JsSet.t) (x : Z) : NoDup s → NoDup (JsSet.delete s x).
Proof. intros Hs. by apply NoDup_filter. Qed.

Lemma JsSet_size_delete (s : JsSet.t) (x : Z) :
  (JsSet.size (JsSet.delete s x) <= JsSet.size s)%Z.
Proof.
  unfold JsSet.size, JsSet.delete. apply Nat2Z.inj_le, length_filter.
Qed.

Lemma JsSet_size_add (s : JsSet.t) (x : Z) :
  (JsSet.size (JsSet.add s x) <= JsSet.size s + 1)%Z.
Proof.
  unfold JsSet.size, JsSet.add. destruct (JsSet.has s x); [lia|].
  rewrite length_app. simpl. lia.
Qed.

End JsSet_facts.

(** ** The countdown of a hold *)

Section Countdown.
Import Js RealTime.

Lemma ceil_div_bounds (a b : Z) :
  (0 < b)%Z → (b * (ceil_div a b - 1) < a <= b * ceil_div a b)%Z.
Proof.
  intros Hb. unfold ceil_div.
  pose proof (Z.div_mod (- a) b ltac:(lia)) as Hdm.
  pose proof (Z.mod_pos_bound (- a) b Hb) as Hmod.
  nia.
Qed.

Lemma getTimeUntilExpiry_positive (now expiry : Z) :
  (0 < expiry - now)%Z →
  getTimeUntilExpiry now (TimeValue expiry)
  = show (diffMins (expiry - now)) +:+ " min"
      +:+ (if (diffMins (expiry - now) =? 1)%Z then "" else "s").
Proof.
  intros Hpos. unfold getTimeUntilExpiry.
  destruct (Z.leb_spec (expiry - now) 0); [lia | done].
Qed.

Lemma getTimeUntilExpiry_expired (now expiry : Z) :
  (expiry - now <= 0)%Z →
  getTimeUntilExpiry now (TimeValue expiry) = "expired".
Proof.
  intros Hle. unfold getTimeUntilExpiry.
  destruct (Z.leb_spec (expiry - now) 0); [done | lia].
Qed.

(** C8 (as amended): the countdown text is computed from
    [expiresAt - now] at render time; it is "expired" when the
    difference is at most 0, and otherwise it shows the difference
    rounded up (not down) to whole minutes: the least [m] with
    [diffMs <= 60000 * m], followed by "min" when [m] is 1 and "mins"
    otherwise. *)
Theorem getTimeUntilExpiry_rounds_up (now expiry : Z) :
  ((expiry - now <= 0)%Z →
     getTimeUntilExpiry now (TimeValue expiry) = "expired")
  ∧ ((0 < expiry - now)%Z →
     ∃ m : Z,
       (60000 * (m - 1) < expiry - now <= 60000 * m)%Z
       ∧ getTimeUntilExpiry now (TimeValue expiry)
         = show m +:+ " min" +:+ (if (m =? 1)%Z then "" else "s")).
Proof.
  split.
  - apply getTimeUntilExpiry_expired.
  - intros Hpos. exists (diffMins (expiry - now)). split.
    + unfold diffMins. change (1000 * 60)%Z with 60000%Z.
      apply ceil_div_bounds. lia.
    + by apply getTimeUntilExpiry_positive.
Qed.

Lemma getTimeUntilExpiry_rounds_up_witness :
  (∃ m : Z,
     (60000 * (m - 1) < 90000 - 0 <= 60000 * m)%Z
     ∧ getTimeUntilExpiry 0 (TimeValue 90000)
       = show m +:+ " min" +:+ (if (m =? 1)%Z then "" else "s"))
  ∧ getTimeUntilExpiry 0 (TimeValue 0) = "expired".
Proof.
  split.
  - apply (proj2 (getTimeUntilExpiry_rounds_up 0 90000)). lia.
  - apply (proj1 (getTimeUntilExpiry_rounds_up 0 0)). lia.
Defined.

(** C8 (as stated) fails: 90 seconds before expiry the code shows
    "2 mins", where floor division into whole minutes gives "1 min". *)
Lemma getTimeUntilExpiry_not_floor :
  getTimeUntilExpiry 0 (TimeValue 90000) = "2 mins"
  ∧ countdown_floor_spec 0 90000 = "1 min"
  ∧ getTimeUntilExpiry 0 (TimeValue 90000) ≠ countdown_floor_spec 0 90000.
Proof. split_and!; [by vm_compute | by vm_compute | by vm_compute]. Qed.

(** C9: an [expires_at] in the past, or equal to now, renders as
    "expired"; an [expires_at] exactly 90 seconds ahead renders as
    "2 mins". *)
Theorem getTimeUntilExpiry_past_and_90s (now expiry : Z) :
  (expiry <= now)%Z →
  getTimeUntilExpiry now (TimeValue expiry) = "expired"
  ∧ getTimeUntilExpiry now (TimeValue (now + 90 * 1000)) = "2 mins".
Proof.
  intros Hle. split.
  - apply getTimeUntilExpiry_expired. lia.
  - rewrite getTimeUntilExpiry_positive by lia.
    replace (now + 90 * 1000 - now)%Z with 90000%Z by lia.
    by vm_compute.
Qed.

Lemma getTimeUntilExpiry_past_and_90s_witness :
  getTimeUntilExpiry 1700000000000 (TimeValue 1699999990000) = "expired"
  ∧ getTimeUntilExpiry 1700000000000 (TimeValue (1700000000000 + 90 * 1000))
    = "2 mins".
Proof. apply (getTimeUntilExpiry_past_and_90s 1700000000000 1699999990000). lia. Defined.

End Countdown.

(** ** Server-confirmed selection in [RealTimeSeatManager] *)

Section Holds.
Import Js RealTime.

Lemma fetchSeatStatus_selectedSeats now p r :
  selectedSeats (manager (fetchSeatStatus now p r).1) = selectedSeats (manager p).
Proof.
  unfold fetchSeatStatus.
  destruct r as [msg | status [msg | data]]; simpl; try done;
    destruct (ok status); done.
Qed.

Lemma selectSeat_selectedSeats now p n r r2 :
  selectedSeats (manager (selectSeat now p n r r2).1)
  = if confirmed r then JsSet.add (selectedSeats (manager p)) n
    else selectedSeats (manager p).
Proof.
  unfold selectSeat, confirmed.
  destruct r as [msg | status [msg | data]]; simpl; try done.
  destruct (success data); [|done].
  destruct (fetchSeatStatus now _ r2) as [p2 evs] eqn:Hf. simpl.
  change p2 with (p2, evs).1. rewrite <- Hf.
  by rewrite fetchSeatStatus_selectedSeats.
Qed.

Lemma deselectSeat_selectedSeats now p n r r2 :
  selectedSeats (manager (deselectSeat now p n r r2).1)
  = if confirmed r then JsSet.delete (selectedSeats (manager p)) n
    else selectedSeats (manager p).
Proof.
  unfold deselectSeat, confirmed.
  destruct r as [msg | status [msg | data]]; simpl; try done.
  destruct (success data); [|done].
  destruct (fetchSeatStatus now _ r2) as [p2 evs] eqn:Hf. simpl.
  change p2 with (p2, evs).1. rewrite <- Hf.
  by rewrite fetchSeatStatus_selectedSeats.
Qed.

(** C4: a select of a seat that is not in the local selection leaves
    the selection unchanged, and the seat absent from it, when the
    server reports failure or the request fails; the seat is added, at
    the end of the selection, exactly when the server confirms. *)
Theorem selectSeat_adds_only_when_confirmed now p n r r2 :
  n ∉ selectedSeats (manager p) →
  (confirmed r = false →
     selectedSeats (manager (selectSeat now p n r r2).1) = selectedSeats (manager p)
     ∧ n ∉ selectedSeats (manager (selectSeat now p n r r2).1))
  ∧ (confirmed r = true →
     selectedSeats (manager (selectSeat now p n r r2).1)
     = selectedSeats (manager p) ++ [n])
  ∧ (n ∈ selectedSeats (manager (selectSeat now p n r r2).1) ↔ confirmed r = true).
Proof.
  intros Hn. rewrite selectSeat_selectedSeats.
  destruct (confirmed r); split_and!; try done.
  - intros _. by apply JsSet_add_fresh.
  - split; [done|]. intros _. apply JsSet_elem_of_add. by left.
Qed.

Lemma selectSeat_adds_only_when_confirmed_witness :
  selectedSeats
    (manager
       (selectSeat 0 {| manager := constructor "12" 7; seats := [] |} 3
          (Responded 409 (inr {| success := false; error := Some "Seat taken";
                                 message := None |}))
          (Rejected "offline")).1)
  = selectedSeats (constructor "12" 7)
  ∧ 3%Z ∉ selectedSeats
      (manager
         (selectSeat 0 {| manager := constructor "12" 7; seats := [] |} 3
            (Responded 409 (inr {| success := false; error := Some "Seat taken";
                                   message := None |}))
            (Rejected "offline")).1).
Proof.
  apply (proj1 (selectSeat_adds_only_when_confirmed 0
                  {| manager := constructor "12" 7; seats := [] |} 3
                  (Responded 409 (inr {| success := false; error := Some "Seat taken";
                                         message := None |}))
                  (Rejected "offline")
                  ltac:(apply not_elem_of_nil))).
  reflexivity.
Defined.

Lemma deselectSeat_request now p n r r2 :
  (deselectSeat now p n r r2).2 !! 0%nat
  = Some (Fetch (PostDeselectSeat (scheduleId (manager p)) n)).
Proof.
  unfold deselectSeat.
  destruct r as [msg | status [msg | data]]; simpl; try done.
  destruct (success data); [|done]. by destruct (fetchSeatStatus now _ r2).
Qed.

(** C5 (as amended): the deselect that releases a hold,
    [RealTimeSeatManager.deselectSeat], sends the release request and
    removes the seat from the local selection only when the server
    confirms it; when the server reports failure or the request fails
    the selection is left unchanged.  The deselect of the booking form,
    the branch of [SeatSelectionHandler.toggleSeat] taken on a selected
    seat, is local: it removes the seat at once and sends no request. *)
Theorem deselectSeat_removes_only_when_confirmed now p n r r2 :
  (deselectSeat now p n r r2).2 !! 0%nat
  = Some (Fetch (PostDeselectSeat (scheduleId (manager p)) n))
  ∧ (confirmed r = false →
     selectedSeats (manager (deselectSeat now p n r r2).1) = selectedSeats (manager p))
  ∧ (confirmed r = true →
     selectedSeats (manager (deselectSeat now p n r r2).1)
     = JsSet.delete (selectedSeats (manager p)) n
     ∧ n ∉ selectedSeats (manager (deselectSeat now p n r r2).1))
  ∧ (∀ h i e,
       SeatBooking.seat_elements (SeatBooking.container h) !! i = Some e →
       SeatBooking.seat e ∈ SeatBooking.selectedSeats h →
       SeatBooking.selectedSeats (SeatBooking.toggleSeat h i).1
       = JsSet.delete (SeatBooking.selectedSeats h) (SeatBooking.seat e)
       ∧ (SeatBooking.seat e
          ∉ SeatBooking.selectedSeats (SeatBooking.toggleSeat h i).1)
       ∧ (SeatBooking.toggleSeat h i).2 = []).
Proof.
  split; [apply deselectSeat_request|].
  rewrite deselectSeat_selectedSeats.
  split_and!.
  - by destruct (confirmed r).
  - destruct (confirmed r); [|done].
    intros _. split; [done|]. rewrite JsSet_elem_of_delete. tauto.
  - intros h i e Hi He. unfold SeatBooking.toggleSeat. rewrite Hi.
    rewrite (proj2 (JsSet_has_true _ _) He). simpl.
    split_and!; [done | | done].
    rewrite JsSet_elem_of_delete. tauto.
Qed.

Lemma deselectSeat_removes_only_when_confirmed_witness :
  selectedSeats
    (manager
       (deselectSeat 0
          {| manager := with_selectedSeats (constructor "12" 7) [3; 5]%Z;
             seats := [] |} 3
          (Responded 200 (inr {| success := false; error := None;
                                 message := Some "No such hold" |}))
          (Rejected "offline")).1)
  = [3; 5]%Z.
Proof.
  apply (proj1 (proj2 (deselectSeat_removes_only_when_confirmed 0
                  {| manager := with_selectedSeats (constructor "12" 7) [3; 5]%Z;
                     seats := [] |} 3
                  (Responded 200 (inr {| success := false; error := None;
                                         message := Some "No such hold" |}))
                  (Rejected "offline")))).
  reflexivity.
Defined.

(** C5 (as stated) fails on the booking form: with seats 3 and 1
    selected, a click on seat 3 removes it from the local selection at
    once; no release request is sent, so no server confirmation is
    involved. *)
Lemma toggleSeat_removes_without_confirmation :
  SeatBooking.selectedSeats BookingScenario.picked = [3; 1]%Z
  ∧ SeatBooking.selectedSeats (SeatBooking.toggleSeat BookingScenario.picked 2).1
    = [1]%Z
  ∧ (SeatBooking.toggleSeat BookingScenario.picked 2).2 = [].
Proof. split_and!; by vm_compute. Qed.

(** C1 (as stated) fails on the server-confirmed path: the five clicks
    of the scenario are all confirmed; the fifth is made when the
    selection holds 4 seats, the limit [maxSeats] defaults to, it still
    sends its select request, and the selection ends with 5 seats. *)
Lemma confirmed_selects_exceed_maxSeats :
  forallb op_confirmed RealTimeScenario.five_clicks = true
  ∧ JsSet.size (selectedSeats (manager (run RealTimeScenario.page0 (take 4 RealTimeScenario.five_clicks)).1)) = 4%Z
  ∧ (exec (run RealTimeScenario.page0 (take 4 RealTimeScenario.five_clicks)).1 (RealTimeScenario.click 4)).2 !! 0%nat
    = Some (Fetch (PostSelectSeat "12" 5))
  ∧ selectedSeats (manager (run RealTimeScenario.page0 RealTimeScenario.five_clicks).1) = [1; 2; 3; 4; 5]%Z
  ∧ ¬ (JsSet.size (selectedSeats (manager (run RealTimeScenario.page0 RealTimeScenario.five_clicks).1)) <= 4)%Z.
Proof. split_and!; by vm_compute. Qed.

End Holds.

(** ** Rendering the seat status *)

Section Rendering.
Import Js RealTime.

Lemma renderSeat_seatNumber now m seat :
  seatNumber (renderSeat now m seat) = seatNumber seat.
Proof.
  unfold renderSeat. case_decide; [done|].
  destruct (tempSelections m !! seatNumber seat) as [sel|]; [|done].
  by destruct (user_id sel =? userId m)%Z.
Qed.

Lemma renderSeat_booked now m seat :
  seatNumber seat ∈ bookedSeats m →
  renderSeat now m seat
  = {| seatNumber := seatNumber seat;
       classList := (classList seat ∖ status_classes)
                      ∪ {[ "bg-red-400"; "text-white"; "cursor-not-allowed" ]};
       ds_status := "booked"; ds_userId := None; ds_username := None;
       title := "Booked" |}.
Proof. intros Hb. unfold renderSeat. by rewrite decide_True. Qed.

(** C7: in a render pass every seat element is classified with the
    precedence booked, then temporary hold, then available.  A seat in
    the booked set, whether or not it is also in the
    temporary-selections map, is rendered as booked and is not
    interactive: it gets the [cursor-not-allowed] class and not
    [cursor-pointer], and a click on it does nothing and sends
    nothing. *)
Theorem updateSeatDisplay_precedence now p i seat :
  seats p !! i = Some seat →
  ∃ seat',
    seats (updateSeatDisplay now p) !! i = Some seat'
    ∧ seatNumber seat' = seatNumber seat
    ∧ (seatNumber seat ∈ bookedSeats (manager p) →
         ds_status seat' = "booked"
         ∧ title seat' = "Booked"
         ∧ "bg-red-400" ∈ classList seat'
         ∧ "cursor-not-allowed" ∈ classList seat'
         ∧ ("cursor-pointer" ∉ classList seat')
         ∧ (∀ now' r r2,
             handleSeatClick now' (updateSeatDisplay now p) i r r2
             = (updateSeatDisplay now p, [])))
    ∧ (seatNumber seat ∉ bookedSeats (manager p) →
         is_Some (tempSelections (manager p) !! seatNumber seat) →
         ds_status seat' = "temporary")
    ∧ (seatNumber seat ∉ bookedSeats (manager p) →
         tempSelections (manager p) !! seatNumber seat = None →
         ds_status seat' = "available").
Proof.
  intros Hi.
  assert (Hi' : seats (updateSeatDisplay now p) !! i
                = Some (renderSeat now (manager p) seat)).
  { unfold updateSeatDisplay. simpl. by rewrite list_lookup_fmap, Hi. }
  exists (renderSeat now (manager p) seat).
  split; [done|]. split; [apply renderSeat_seatNumber|]. split_and!.
  - intros Hb. rewrite (renderSeat_booked _ _ _ Hb). simpl.
    split_and!; try done.
    + set_solver.
    + set_solver.
    + unfold status_classes. set_unfold.
      intros [[_ Hn] | [[H | H] | H]]; try discriminate H.
      apply Hn. right. reflexivity.
    + intros now' r r2. unfold handleSeatClick. rewrite Hi'.
      by rewrite (renderSeat_booked _ _ _ Hb).
  - intros Hb [sel Hsel]. unfold renderSeat. rewrite decide_False by done.
    rewrite Hsel. by destruct (user_id sel =? userId (manager p))%Z.
  - intros Hb Hsel. unfold renderSeat. rewrite decide_False by done.
    by rewrite Hsel.
Qed.

Lemma updateSeatDisplay_precedence_witness :
  ∃ seat',
    seats (updateSeatDisplay 0 RealTimeScenario.overlap_page) !! 2%nat = Some seat'
    ∧ ds_status seat' = "booked"
    ∧ "cursor-pointer" ∉ classList seat'.
Proof.
  destruct (updateSeatDisplay_precedence 0 RealTimeScenario.overlap_page 2
              (RealTimeScenario.seatElement 3) eq_refl)
    as (seat' & Hseat & _ & Hbooked & _).
  exists seat'. split; [exact Hseat|].
  destruct Hbooked as (Hstatus & _ & _ & _ & Hpointer & _).
  - change (3%Z ∈ (list_to_set [3%Z] : gset Z)).
    apply elem_of_list_to_set. left.
  - split; [exact Hstatus | exact Hpointer].
Defined.

End Rendering.

(** ** The local selection of [SeatSelectionHandler] *)

Section Selection.
Import Js SeatBooking.

Lemma count_app {A} (f : A → bool) (l1 l2 : list A) :
  count f (l1 ++ l2) = count f l1 + count f l2.
Proof. unfold count. by rewrite filter_app, length_app. Qed.

Lemma count_cons {A} (f : A → bool) (x : A) (l : list A) :
  count f (x :: l) = (if f x then 1 else 0) + count f l.
Proof.
  unfold count. destruct (f x) eqn:Hx.
  - by rewrite filter_cons_True.
  - rewrite filter_cons_False; [done | congruence].
Qed.

Lemma count_delete {A} (f : A → bool) (l : list A) (k : nat) (x : A) :
  l !! k = Some x →
  count f l = (if f x then 1 else 0) + count f (delete k l).
Proof.
  intros Hk. rewrite <- (take_drop_middle l k x Hk) at 1.
  rewrite delete_take_drop, !count_app, count_cons. lia.
Qed.

Lemma refreshSeatDisplay_no_booking h :
  booking_calls (refreshSeatDisplay h).1 = 0
  ∧ count is_booking_task (refreshSeatDisplay h).2 = 0.
Proof. unfold refreshSeatDisplay. by destruct (truthy _). Qed.

Lemma submission_caught_no_booking h msg :
  booking_calls (submission_caught h msg).1 = 0
  ∧ count is_booking_task (submission_caught h msg).2 = 0.
Proof.
  unfold submission_caught.
  pose proof (refreshSeatDisplay_no_booking h) as [H1 H2].
  destruct (refreshSeatDisplay h) as [evs ts]. simpl in *.
  by rewrite (count_cons is_booking_call).
Qed.

Lemma checkSpecificSeats_no_booking r :
  booking_calls (checkSpecificSeats_resume r).1 = 0.
Proof.
  unfold checkSpecificSeats_resume.
  destruct r as [msg | status [msg | data]]; simpl; try done;
    by destruct (ok status).
Qed.

Lemma toggleSeat_keeps h i :
  maxSeats (toggleSeat h i).1 = maxSeats h
  ∧ bookingManager (toggleSeat h i).1 = bookingManager h
  ∧ Forall (fun e => is_fetch e = false) (toggleSeat h i).2.
Proof.
  unfold toggleSeat.
  destruct (seat_elements (container h) !! i) as [e|]; [|by split_and!].
  destruct (JsSet.has (selectedSeats h) (seat e)); [by split_and!|].
  destruct (JsSet.size (selectedSeats h) >=? maxSeats h)%Z; simpl; split_and!;
    try done.
  by repeat constructor.
Qed.

Lemma toggleSeat_bounded h i :
  NoDup (selectedSeats h) →
  (JsSet.size (selectedSeats h) <= maxSeats h)%Z →
  NoDup (selectedSeats (toggleSeat h i).1)
  ∧ (JsSet.size (selectedSeats (toggleSeat h i).1) <= maxSeats h)%Z.
Proof.
  intros Hnd Hle. unfold toggleSeat.
  destruct (seat_elements (container h) !! i) as [e|]; [|done].
  destruct (JsSet.has (selectedSeats h) (seat e)); simpl.
  - split; [by apply JsSet_NoDup_delete|].
    pose proof (JsSet_size_delete (selectedSeats h) (seat e)). lia.
  - rewrite Z.geb_leb.
    destruct (Z.leb_spec (maxSeats h) (JsSet.size (selectedSeats h))); simpl.
    + done.
    + split; [by apply JsSet_NoDup_add|].
      pose proof (JsSet_size_add (selectedSeats h) (seat e)). lia.
Qed.

Lemma toggleSeat_rejected h i e :
  seat_elements (container h) !! i = Some e →
  seat e ∉ selectedSeats h →
  (maxSeats h <= JsSet.size (selectedSeats h))%Z →
  toggleSeat h i
  = (h, [Alert ("You can only select up to " +:+ show (maxSeats h) +:+ " seats.")]).
Proof.
  intros Hi He Hfull. unfold toggleSeat. rewrite Hi.
  rewrite (proj2 (JsSet_has_false _ _) He), Z.geb_leb.
  by destruct (Z.leb_spec (maxSeats h) (JsSet.size (selectedSeats h))); [|lia].
Qed.

Lemma submit_call_handler h form : (submit_call h form).1.1 = h.
Proof.
  unfold submit_call.
  destruct (_ || _); [done|]. by destruct (_ =? _)%Z.
Qed.

Lemma submit_call_no_booking h form :
  booking_calls (submit_call h form).1.2 = 0
  ∧ count is_booking_task (submit_call h form).2 = 0.
Proof.
  unfold submit_call.
  destruct (_ || _); [done|]. by destruct (_ =? _)%Z.
Qed.

Lemma bookSeats_resume_flag m d r :
  bookingInProgress (bookSeats_resume m d r).1.1 = false.
Proof.
  unfold bookSeats_resume.
  destruct r as [msg | status [msg | data]]; simpl; try done;
    by destruct (ok status).
Qed.

Lemma bookSeats_resume_no_booking m d r :
  booking_calls (bookSeats_resume m d r).1.2 = 0.
Proof.
  unfold bookSeats_resume.
  destruct r as [msg | status [msg | data]]; simpl; try done;
    by destruct (ok status).
Qed.

(** What the arrival of a seat check's reply does to the booking
    guard: nothing, or, if no booking is in progress, one booking
    request is sent and the flag is raised. *)
Lemma submit_checked_booking h sid name email phone r :
  let res := submit_checked h sid name email phone r in
  same_selection h res.1.1
  ∧ ((bookingManager res.1.1 = bookingManager h
      ∧ booking_calls res.1.2 = 0 ∧ count is_booking_task res.2 = 0)
     ∨ (bookingInProgress (bookingManager h) = false
        ∧ bookingInProgress (bookingManager res.1.1) = true
        ∧ booking_calls res.1.2 = 1 ∧ count is_booking_task res.2 = 1)).
Proof.
  unfold submit_checked.
  pose proof (checkSpecificSeats_no_booking r) as Hc.
  destruct (checkSpecificSeats_resume r) as [e1 [check|]]; simpl in Hc.
  - destruct (all_available check); simpl.
    + unfold bookSeats_call.
      destruct (bookingInProgress (bookingManager h)) eqn:Hflag.
      * pose proof (submission_caught_no_booking
                      (with_bookingManager h (bookingManager h)) busy_message)
          as [H1 H2].
        destruct (submission_caught _ _) as [e3 ts]. simpl in *.
        split; [done|]. left. unfold booking_calls in *.
        by rewrite !count_app, Hc, H1.
      * simpl. split; [done|]. right. unfold booking_calls in *.
        by rewrite !count_app, Hc.
    + pose proof (refreshSeatDisplay_no_booking h) as [H1 H2].
      destruct (refreshSeatDisplay h) as [e2 ts]. simpl in *.
      split; [done|]. left. unfold booking_calls in *.
      by rewrite count_app, count_cons, Hc, H1.
  - pose proof (submission_caught_no_booking h null_read_message) as [H1 H2].
    destruct (submission_caught _ _) as [e2 ts]. simpl in *.
    split; [done|]. left. unfold booking_calls in *.
    by rewrite count_app, Hc, H1.
Qed.

Lemma submit_booked_booking h d r :
  let res := submit_booked h d r in
  same_selection h res.1.1
  ∧ bookingInProgress (bookingManager res.1.1) = false
  ∧ booking_calls res.1.2 = 0 ∧ count is_booking_task res.2 = 0.
Proof.
  unfold submit_booked.
  pose proof (bookSeats_resume_flag (bookingManager h) d r) as Hflag.
  pose proof (bookSeats_resume_no_booking (bookingManager h) d r) as Hcalls.
  destruct (bookSeats_resume _ d r) as [[m e1] [result | msg]]; simpl in *.
  - destruct (success result); simpl; split_and!; try done.
    unfold booking_calls in *. by rewrite count_app, Hcalls.
  - pose proof (submission_caught_no_booking (with_bookingManager h m) msg)
      as [H1 H2].
    destruct (submission_caught _ _) as [e2 ts]. simpl in *.
    split_and!; try done. unfold booking_calls in *.
    by rewrite count_app, Hcalls, H1.
Qed.

Lemma availability_arrived_keeps now h sid r :
  same_selection h (availability_arrived now h sid r).1
  ∧ bookingInProgress (bookingManager (availability_arrived now h sid r).1)
    = bookingInProgress (bookingManager h)
  ∧ booking_calls (availability_arrived now h sid r).2 = 0.
Proof.
  unfold availability_arrived, checkSeatAvailability_resume.
  destruct r as [msg | status [msg | data]]; simpl; try done;
    by destruct (ok status).
Qed.

Lemma start_selection_invariant c limit :
  (0 <= limit)%Z → selection_invariant limit (start c limit).
Proof. intros Hl. split; simpl; try done. apply NoDup_nil_2. Qed.

Lemma step_selection_invariant limit s i s' :
  selection_invariant limit s → step s i = Some s' →
  selection_invariant limit s'.
Proof.
  intros [Hmax Hnd Hle] Hstep.
  assert (Hsame : ∀ h, same_selection (handler s) h →
                       selection_invariant limit
                         {| handler := h; pending := pending s'; log := log s' |}).
  { intros h [Hsel Hm]. split; simpl; congruence. }
  destruct i as [i | form | k r | k r | now k r]; simpl in Hstep.
  - pose proof (toggleSeat_keeps (handler s) i) as (Hm & _ & _).
    pose proof (toggleSeat_bounded (handler s) i Hnd) as Hb.
    rewrite Hmax in Hb. destruct (Hb Hle) as [Hnd' Hle'].
    destruct (toggleSeat (handler s) i) as [h evs]. simpl in *. simplify_eq.
    by split.
  - pose proof (submit_call_handler (handler s) form) as Hh.
    destruct (submit_call (handler s) form) as [[h evs] ts]. simpl in *.
    simplify_eq. by split.
  - destruct (pending s !! k) as [[sid name email phone | d | sid]|]; try done.
    pose proof (submit_checked_booking (handler s) sid name email phone r)
      as [Hsel _].
    destruct (submit_checked _ _ _ _ _ r) as [[h evs] ts]. simpl in *.
    simplify_eq. by apply Hsame.
  - destruct (pending s !! k) as [[sid name email phone | d | sid]|]; try done.
    pose proof (submit_booked_booking (handler s) d r) as [Hsel _].
    destruct (submit_booked _ d r) as [[h evs] ts]. simpl in *.
    simplify_eq. by apply Hsame.
  - destruct (pending s !! k) as [[sid name email phone | d | sid]|]; try done.
    pose proof (availability_arrived_keeps now (handler s) sid r) as [Hsel _].
    destruct (availability_arrived _ _ sid r) as [h evs]. simpl in *.
    simplify_eq. by apply Hsame.
Qed.

Lemma steps_selection_invariant limit inputs : ∀ s s',
  selection_invariant limit s → steps s inputs = Some s' →
  selection_invariant limit s'.
Proof.
  induction inputs as [|i inputs IH]; intros s s' Hinv Hsteps; simpl in Hsteps.
  - by simplify_eq.
  - destruct (step s i) as [s1|] eqn:Hstep; [|done].
    eauto using step_selection_invariant.
Qed.

(** A turn keeps the guard's invariant, and the booking requests sent
    stay matched with the replies received and the call in flight. *)
Lemma step_guard_invariant s i s' :
  guard_invariant s → step s i = Some s' →
  guard_invariant s'
  ∧ booking_calls (log s') + in_flight s
    = booking_calls (log s) + in_flight s'
      + (if is_booking_reply i then 1 else 0).
Proof.
  unfold guard_invariant. intros Hflag Hstep.
  destruct i as [i | form | k r | k r | now k r]; simpl in Hstep.
  - pose proof (toggleSeat_keeps (handler s) i) as (_ & Hbm & _).
    assert (Hev : booking_calls (toggleSeat (handler s) i).2 = 0).
    { unfold toggleSeat.
      destruct (seat_elements _ !! i) as [e|]; [|done].
      destruct (JsSet.has _ _); [done|]. by destruct (_ >=? _)%Z. }
    destruct (toggleSeat (handler s) i) as [h evs]. simpl in *. simplify_eq.
    unfold booking_calls, in_flight in *. simpl. rewrite count_app, Hev, Hbm.
    split; [done | lia].
  - pose proof (submit_call_handler (handler s) form) as Hh.
    pose proof (submit_call_no_booking (handler s) form) as [Hev Hts].
    destruct (submit_call (handler s) form) as [[h evs] ts]. simpl in *.
    simplify_eq. unfold booking_calls, in_flight in *. simpl.
    rewrite !count_app, Hev, Hts. split; lia.
  - destruct (pending s !! k) as [[sid name email phone | d | sid]|] eqn:Hk;
      try done.
    pose proof (submit_checked_booking (handler s) sid name email phone r)
      as [_ Hcase].
    pose proof (count_delete is_booking_task _ _ _ Hk) as Hdel. simpl in Hdel.
    destruct (submit_checked _ _ _ _ _ r) as [[h evs] ts]. simpl in *.
    simplify_eq. unfold booking_calls, in_flight in *. simpl.
    rewrite !count_app.
    destruct Hcase as [(Hbm & Hev & Hts) | (Hoff & Hon & Hev & Hts)].
    + rewrite Hev, Hts, Hbm. split; lia.
    + rewrite Hev, Hts, Hon. rewrite Hoff in Hflag. split; lia.
  - destruct (pending s !! k) as [[sid name email phone | d | sid]|] eqn:Hk;
      try done.
    pose proof (submit_booked_booking (handler s) d r)
      as (_ & Hoff & Hev & Hts).
    pose proof (count_delete is_booking_task _ _ _ Hk) as Hdel. simpl in Hdel.
    destruct (submit_booked _ d r) as [[h evs] ts]. simpl in *.
    simplify_eq. unfold booking_calls, in_flight in *. simpl.
    rewrite !count_app, Hev, Hts, Hoff.
    destruct (bookingInProgress (bookingManager (handler s))); split; lia.
  - destruct (pending s !! k) as [[sid name email phone | d | sid]|] eqn:Hk;
      try done.
    pose proof (availability_arrived_keeps now (handler s) sid r)
      as (_ & Hsame & Hev).
    pose proof (count_delete is_booking_task _ _ _ Hk) as Hdel. simpl in Hdel.
    destruct (availability_arrived _ _ sid r) as [h evs]. simpl in *.
    simplify_eq. unfold booking_calls, in_flight in *. simpl.
    rewrite !count_app, Hev, Hsame. split; lia.
Qed.

Lemma steps_guard_invariant inputs : ∀ s s',
  guard_invariant s → steps s inputs = Some s' →
  guard_invariant s'
  ∧ booking_calls (log s') + in_flight s
    = booking_calls (log s) + in_flight s' + booking_replies inputs.
Proof.
  induction inputs as [|i inputs IH]; intros s s' Hinv Hsteps; simpl in Hsteps.
  - simplify_eq. split; [done|]. unfold booking_replies, count. simpl. lia.
  - destruct (step s i) as [s1|] eqn:Hstep; [|done].
    destruct (step_guard_invariant _ _ _ Hinv Hstep) as [Hinv1 Heq1].
    destruct (IH _ _ Hinv1 Hsteps) as [Hinv' Heq'].
    split; [done|]. unfold booking_replies in *. rewrite count_cons. lia.
Qed.

End Selection.

(** ** The bounded local selection *)

Section Bound.
Import Js SeatBooking.

(** C1 (as amended): on the booking form, whatever the sequence of
    seat clicks, submissions and arriving replies, the local selection
    of [SeatSelectionHandler] never holds more than [maxSeats] seats;
    toggling a seat that is not selected while the selection holds
    [maxSeats] seats is rejected with an alert and changes nothing; and
    [toggleSeat] never sends a network request.  (The server-confirmed
    selection of [RealTimeSeatManager] has no such limit.) *)
Theorem toggleSeat_selection_bounded c limit inputs s :
  (0 <= limit)%Z →
  steps (start c limit) inputs = Some s →
  NoDup (selectedSeats (handler s))
  ∧ (JsSet.size (selectedSeats (handler s)) <= limit)%Z
  ∧ (∀ i e,
       seat_elements (container (handler s)) !! i = Some e →
       seat e ∉ selectedSeats (handler s) →
       JsSet.size (selectedSeats (handler s)) = limit →
       toggleSeat (handler s) i
       = (handler s,
          [Alert ("You can only select up to " +:+ show limit +:+ " seats.")]))
  ∧ (∀ h i, Forall (fun e => is_fetch e = false) (toggleSeat h i).2).
Proof.
  intros Hlimit Hsteps.
  destruct (steps_selection_invariant limit inputs _ _
              (start_selection_invariant c limit Hlimit) Hsteps)
    as [Hmax Hnd Hle].
  split_and!; try done.
  - intros i e Hi He Hfull. rewrite <- Hmax.
    apply (toggleSeat_rejected _ _ _ Hi He). lia.
  - intros h i. apply toggleSeat_keeps.
Qed.

Lemma toggleSeat_selection_bounded_witness :
  match
    steps (start BookingScenario.container0 4)
      [ClickSeat 0; ClickSeat 1; ClickSeat 2; ClickSeat 3; ClickSeat 4]
  with
  | Some s =>
      NoDup (selectedSeats (handler s))
      ∧ (JsSet.size (selectedSeats (handler s)) <= 4)%Z
  | None => False
  end.
Proof.
  destruct (steps (start BookingScenario.container0 4)
              [ClickSeat 0; ClickSeat 1; ClickSeat 2; ClickSeat 3; ClickSeat 4])
    as [s|] eqn:Hsteps.
  - destruct (toggleSeat_selection_bounded BookingScenario.container0 4 _ s
                ltac:(lia) Hsteps) as (Hnd & Hle & _).
    split; [exact Hnd | exact Hle].
  - vm_compute in Hsteps. discriminate Hsteps.
Defined.

End Bound.

(** ** The booking guard *)

Section Guard.
Import Js SeatBooking.

Lemma bookSeats_call_busy m d :
  bookingInProgress m = true →
  bookSeats_call m d = (m, [], Thrown busy_message).
Proof. intros Hflag. unfold bookSeats_call. by rewrite Hflag. Qed.

Lemma bookSeats_call_free m d :
  bookingInProgress m = false →
  bookSeats_call m d
  = (with_bookingInProgress m true, [Fetch (PostBookSeats d)], Awaiting).
Proof. intros Hflag. unfold bookSeats_call. by rewrite Hflag. Qed.

Lemma steps_app inputs1 inputs2 : ∀ s,
  steps s (inputs1 ++ inputs2)
  = match steps s inputs1 with
    | Some s1 => steps s1 inputs2
    | None => None
    end.
Proof.
  induction inputs1 as [|i inputs1 IH]; intros s; [done|].
  simpl. destruct (step s i) as [s1|]; [apply IH | done].
Qed.

(** The log only grows. *)
Lemma step_log_grows s i s' :
  step s i = Some s' → ∃ evs, log s' = log s ++ evs.
Proof.
  intros Hstep.
  destruct i as [i | form | k r | k r | now k r]; simpl in Hstep.
  - destruct (toggleSeat (handler s) i) as [h evs]. simplify_eq. by eexists.
  - destruct (submit_call (handler s) form) as [[h evs] ts]. simplify_eq.
    by eexists.
  - destruct (pending s !! k) as [[sid name email phone | d | sid]|]; try done.
    destruct (submit_checked _ _ _ _ _ r) as [[h evs] ts]. simplify_eq.
    by eexists.
  - destruct (pending s !! k) as [[sid name email phone | d | sid]|]; try done.
    destruct (submit_booked _ d r) as [[h evs] ts]. simplify_eq. by eexists.
  - destruct (pending s !! k) as [[sid name email phone | d | sid]|]; try done.
    destruct (availability_arrived _ _ sid r) as [h evs]. simplify_eq.
    by eexists.
Qed.

Lemma steps_booking_calls_grow inputs : ∀ s s',
  steps s inputs = Some s' → booking_calls (log s) <= booking_calls (log s').
Proof.
  induction inputs as [|i inputs IH]; intros s s' Hsteps; simpl in Hsteps.
  - by simplify_eq.
  - destruct (step s i) as [s1|] eqn:Hstep; [|done].
    destruct (step_log_grows _ _ _ Hstep) as [evs Hlog].
    specialize (IH _ _ Hsteps). rewrite Hlog in IH.
    unfold booking_calls in *. rewrite count_app in IH. lia.
Qed.

(** The turn in which a passing seat check arrives: the submission
    goes on to [bookSeats], which sends the booking request when the
    flag is down and throws when it is up. *)
Lemma step_check_passes s k sid name email phone status check :
  pending s !! k = Some (AwaitCheck sid name email phone) →
  ok status = true → all_available check = true →
  step s (CheckArrives k (Responded status (inr check)))
  = Some
      (if bookingInProgress (bookingManager (handler s)) then
         {| handler := handler s;
            pending := delete k (pending s) ++ (refreshSeatDisplay (handler s)).2;
            log := log s ++ Alert ("Booking failed: " +:+ busy_message)
                              :: (refreshSeatDisplay (handler s)).1 |}
       else
         let d := {| schedule_id := parseInt sid; passenger_name := name;
                     passenger_email := email; passenger_phone := phone;
                     seat_numbers := JsSet.to_array (selectedSeats (handler s)) |} in
         {| handler := with_bookingManager (handler s)
                         (with_bookingInProgress (bookingManager (handler s)) true);
            pending := delete k (pending s) ++ [AwaitBooking d];
            log := log s ++ [Fetch (PostBookSeats d)] |}).
Proof.
  intros Hk Hok Hall. simpl. rewrite Hk.
  unfold submit_checked, checkSpecificSeats_resume. rewrite Hok, Hall. simpl.
  unfold bookSeats_call.
  destruct (bookingInProgress (bookingManager (handler s))) eqn:Hflag; [|done].
  unfold submission_caught.
  replace (with_bookingManager (handler s) (bookingManager (handler s)))
    with (handler s) by (by destruct (handler s)).
  by destruct (refreshSeatDisplay (handler s)).
Qed.

Lemma step_check_pending s k r s' :
  step s (CheckArrives k r) = Some s' →
  ∃ sid name email phone, pending s !! k = Some (AwaitCheck sid name email phone).
Proof.
  simpl.
  destruct (pending s !! k) as [[sid name email phone | d | sid]|]; try done.
  intros _. by exists sid, name, email, phone.
Qed.

(** After a passing seat check a booking is in flight: the one just
    sent when none was, the one there was otherwise. *)
Lemma step_check_passes_in_flight s k status check s' :
  guard_invariant s →
  ok status = true → all_available check = true →
  step s (CheckArrives k (Responded status (inr check))) = Some s' →
  guard_invariant s'
  ∧ in_flight s' = 1
  ∧ booking_calls (log s') + in_flight s = booking_calls (log s) + 1.
Proof.
  intros Hinv Hok Hall Hstep.
  destruct (step_guard_invariant _ _ _ Hinv Hstep) as [Hinv' Hcount].
  split; [done|].
  destruct (step_check_pending _ _ _ _ Hstep) as (sid & name & email & phone & Hk).
  rewrite (step_check_passes s k sid name email phone status check Hk Hok Hall)
    in Hstep.
  assert (Hone : in_flight s' = 1).
  { unfold guard_invariant in Hinv'. rewrite Hinv'.
    destruct (bookingInProgress (bookingManager (handler s))) eqn:Hf;
      injection Hstep as <-; simpl; by rewrite ?Hf. }
  split; [done|]. simpl in Hcount. lia.
Qed.

Lemma steps_cons s i inputs :
  steps s (i :: inputs)
  = match step s i with
    | Some s' => steps s' inputs
    | None => None
    end.
Proof. reflexivity. Qed.

(** C3 (as amended): at most one [bookSeats] call is in flight at any
    time.  In every state the page can reach, the number of pending
    [bookSeats] calls is at most one, and the booking requests sent so
    far are those answered and the pending one.  While a call is
    pending, a further [bookSeats] call throws "Booking already in
    progress. Please wait." at once, sends nothing and changes nothing;
    while none is pending, a call sends exactly one booking request and
    is then the pending one.  Hence a submission whose seat check
    passes sends the booking request when no booking is pending, and
    otherwise sends none and alerts that error; and whatever
    submissions have their seat checks answered in a run in which no
    booking reply arrives, with at least one check passing, exactly one
    booking request is sent in it when none was pending before, and
    none when one was. *)
Theorem bookSeats_single_flight c limit inputs s :
  steps (start c limit) inputs = Some s →
  in_flight s <= 1
  ∧ booking_calls (log s) = booking_replies inputs + in_flight s
  ∧ (in_flight s = 1 ↔ bookingInProgress (bookingManager (handler s)) = true)
  ∧ (in_flight s = 1 →
     (∀ d, bookSeats_call (bookingManager (handler s)) d
           = (bookingManager (handler s), [], Thrown busy_message))
     ∧ (∀ sid name email phone r,
          (submit_checked (handler s) sid name email phone r).1.1 = handler s
          ∧ booking_calls (submit_checked (handler s) sid name email phone r).1.2 = 0
          ∧ count is_booking_task
              (submit_checked (handler s) sid name email phone r).2 = 0))
  ∧ (in_flight s = 0 →
     ∀ d, bookSeats_call (bookingManager (handler s)) d
          = (with_bookingInProgress (bookingManager (handler s)) true,
             [Fetch (PostBookSeats d)], Awaiting))
  ∧ (∀ k sid name email phone status check,
       pending s !! k = Some (AwaitCheck sid name email phone) →
       ok status = true → all_available check = true →
       ∃ s',
         step s (CheckArrives k (Responded status (inr check))) = Some s'
         ∧ in_flight s' = 1
         ∧ (in_flight s = 0 →
            log s'
            = log s
                ++ [Fetch (PostBookSeats
                             {| schedule_id := parseInt sid;
                                passenger_name := name;
                                passenger_email := email;
                                passenger_phone := phone;
                                seat_numbers :=
                                  JsSet.to_array (selectedSeats (handler s)) |})])
         ∧ (in_flight s = 1 →
            handler s' = handler s
            ∧ log s'
              = log s ++ Alert ("Booking failed: " +:+ busy_message)
                           :: (refreshSeatDisplay (handler s)).1))
  ∧ (∀ before k status check after s',
       steps s (before ++ CheckArrives k (Responded status (inr check)) :: after)
       = Some s' →
       ok status = true → all_available check = true →
       booking_replies (before ++ after) = 0 →
       in_flight s' = 1
       ∧ booking_calls (log s') + in_flight s = booking_calls (log s) + 1).
Proof.
  intros Hsteps.
  destruct (steps_guard_invariant inputs (start c limit) s eq_refl Hsteps)
    as [Hflag Hcount].
  pose proof Hflag as Hinv. unfold guard_invariant in Hflag.
  change (booking_calls (log (start c limit))) with 0 in Hcount.
  change (in_flight (start c limit)) with 0 in Hcount.
  assert (Hbusy : in_flight s = 1 ↔
                  bookingInProgress (bookingManager (handler s)) = true).
  { rewrite Hflag. by destruct (bookingInProgress _). }
  split_and!.
  - rewrite Hflag. destruct (bookingInProgress _); lia.
  - lia.
  - done.
  - intros Hone. apply Hbusy in Hone. split.
    + intros d. by apply bookSeats_call_busy.
    + intros sid name email phone r.
      pose proof (submit_checked_booking (handler s) sid name email phone r)
        as [_ Hcase].
      assert (Hh : (submit_checked (handler s) sid name email phone r).1.1
                   = handler s).
      { unfold submit_checked.
        destruct (checkSpecificSeats_resume r) as [e1 [check|]].
        - destruct (all_available check); simpl.
          + rewrite (bookSeats_call_busy _ _ Hone).
            destruct (submission_caught _ _). simpl. by destruct (handler s).
          + by destruct (refreshSeatDisplay _).
        - by destruct (submission_caught _ _). }
      split; [done|].
      destruct Hcase as [(_ & Hev & Hts) | (Hoff & _)]; [done | congruence].
  - intros Hnone d. apply bookSeats_call_free.
    rewrite Hflag in Hnone. by destruct (bookingInProgress _).
  - intros k sid name email phone status check Hk Hok Hall.
    pose proof (step_check_passes s k sid name email phone status check
                  Hk Hok Hall) as Hstep.
    destruct (step_check_passes_in_flight _ _ _ _ _ Hinv Hok Hall Hstep)
      as (_ & Hone & _).
    eexists. split; [exact Hstep|]. split; [exact Hone|]. rewrite Hflag.
    destruct (bookingInProgress (bookingManager (handler s))).
    + split; [done|]. intros _. by split.
    + split; [done|]. intros [=].
  - intros before k status check after s' Hrun Hok Hall Hnone.
    unfold booking_replies in Hnone. rewrite count_app in Hnone.
    rewrite steps_app in Hrun.
    destruct (steps s before) as [s1|] eqn:Hbefore; [|done].
    destruct (steps_guard_invariant _ _ _ Hinv Hbefore) as [Hinv1 Hcount1].
    rewrite steps_cons in Hrun.
    destruct (step s1 (CheckArrives k (Responded status (inr check))))
      as [s2|] eqn:Hstep; [|done].
    destruct (step_check_passes_in_flight _ _ _ _ _ Hinv1 Hok Hall Hstep)
      as (Hinv2 & Hone2 & Hcount2).
    destruct (steps_guard_invariant _ _ _ Hinv2 Hrun) as [Hinv' Hcount'].
    pose proof (steps_booking_calls_grow _ _ _ Hrun) as Hgrow.
    assert (Hle : in_flight s' <= 1).
    { unfold guard_invariant in Hinv'. rewrite Hinv'.
      destruct (bookingInProgress (bookingManager (handler s'))); lia. }
    unfold booking_replies in *. lia.
Qed.

Lemma bookSeats_single_flight_witness :
  steps (start BookingScenario.container0 4) BookingScenario.overlapping_submits
  = Some BookingScenario.both_checked
  ∧ in_flight BookingScenario.both_checked = 1
  ∧ booking_calls (log BookingScenario.both_checked) = 1.
Proof.
  split; [vm_compute; reflexivity|].
  assert (Hsteps : steps (start BookingScenario.container0 4)
                     [ClickSeat 2; Submit BookingScenario.form0;
                      Submit BookingScenario.form0]
                   = Some BookingScenario.both_submitted)
    by (vm_compute; reflexivity).
  assert (Hrun : steps BookingScenario.both_submitted
                   ([] ++ CheckArrives 0
                            (Responded 200
                               (inr {| all_available := true;
                                       unavailable_seats := [] |}))
                       :: [CheckArrives 0 BookingScenario.all_free])
                 = Some BookingScenario.both_checked)
    by (vm_compute; reflexivity).
  destruct (bookSeats_single_flight BookingScenario.container0 4 _ _ Hsteps)
    as (_ & _ & _ & _ & _ & _ & Hexactly).
  destruct (Hexactly [] 0%nat 200%Z _ _ _ Hrun eq_refl eq_refl eq_refl)
    as [Hone Hcalls].
  split; [exact Hone|].
  change (in_flight BookingScenario.both_submitted) with 0 in Hcalls.
  change (booking_calls (log BookingScenario.both_submitted)) with 0 in Hcalls.
  lia.
Defined.

(** C3 (as stated) fails for submissions that overlap without their
    bookings overlapping: the second submission is made while the first
    is waiting for its seat check, the first booking is answered (here
    refused by the server) before the second seat check returns, and
    then the guard is down again: both submissions send a booking
    request and none is told that a booking is in progress. *)
Lemma overlapping_submits_both_book :
  (λ s, (booking_calls (log s),
         count (is_alert ("Booking failed: " +:+ busy_message)) (log s)))
    <$> steps (start BookingScenario.container0 4)
          BookingScenario.successive_submits
  = Some (2, 0).
Proof. vm_compute. reflexivity. Qed.

(** The two overlapping submissions of the scenario: one booking
    request is sent, the other submission is told the booking is
    already in progress, and the first booking is still pending. *)
Example overlapping_submits_one_booking_call :
  (λ s, (booking_calls (log s), in_flight s,
         count (is_alert ("Booking failed: " +:+ busy_message)) (log s)))
    <$> steps (start BookingScenario.container0 4)
          BookingScenario.overlapping_submits
  = Some (1, 1, 1).
Proof. vm_compute. reflexivity. Qed.

(** When the first booking has completed before the second submission
    reaches [bookSeats], the guard is down again and both submissions
    send a booking request. *)
Example successive_submits_two_booking_calls :
  (λ s, (booking_calls (log s), in_flight s,
         count (is_alert "Booking failed: Seat 3 was just booked") (log s)))
    <$> steps (start BookingScenario.container0 4)
          BookingScenario.successive_submits
  = Some (2, 1, 1).
Proof. vm_compute. reflexivity. Qed.

(** C10: every [bookSeats] call that got past the guard leaves
    [bookingInProgress] false when it completes, whether it returns the
    reply or throws on a transport error, an unreadable body or a
    non-2xx status; a call rejected as busy leaves the flag as it found
    it.  Hence a [bookSeats] call made after a completion is not
    rejected as busy: it sends its request. *)
Theorem bookSeats_resets_flag m d r :
  bookingInProgress (bookSeats_resume m d r).1.1 = false
  ∧ (bookingInProgress m = false →
     bookingInProgress (bookSeats m d r).1.1 = false)
  ∧ (bookingInProgress m = true →
     bookSeats m d r = (m, [], Throw busy_message))
  ∧ (∀ d',
       bookSeats_call (bookSeats_resume m d r).1.1 d'
       = (with_bookingInProgress (bookSeats_resume m d r).1.1 true,
          [Fetch (PostBookSeats d')], Awaiting)).
Proof.
  pose proof (bookSeats_resume_flag m d r) as Hdone.
  split_and!.
  - done.
  - intros Hfree. unfold bookSeats. rewrite (bookSeats_call_free _ _ Hfree).
    pose proof (bookSeats_resume_flag (with_bookingInProgress m true) d r) as H.
    by destruct (bookSeats_resume _ d r) as [[m2 e2] c2].
  - intros Hbusy. unfold bookSeats. by rewrite (bookSeats_call_busy _ _ Hbusy).
  - intros d'. by apply bookSeats_call_free.
Qed.

Lemma bookSeats_resets_flag_witness :
  bookingInProgress
    (bookSeats newManager
       {| schedule_id := Some 12%Z; passenger_name := "Ada";
          passenger_email := "ada@example.org"; passenger_phone := "555";
          seat_numbers := [3]%Z |}
       (Responded 500 (inr {| success := false; booking_id := None;
                              error := Some "Seat 3 is taken" |}))).1.1
  = false.
Proof.
  apply (proj1 (proj2 (bookSeats_resets_flag newManager
                         {| schedule_id := Some 12%Z; passenger_name := "Ada";
                            passenger_email := "ada@example.org";
                            passenger_phone := "555"; seat_numbers := [3]%Z |}
                         (Responded 500 (inr {| success := false; booking_id := None;
                                                error := Some "Seat 3 is taken" |}))))).
  reflexivity.
Defined.

End Guard.

(** ** Form submission *)

Section Submission.
Import Js SeatBooking.

Lemma submit_call_valid h form :
  truthy (schedule_id_value form) = true →
  truthy (name_value form) = true →
  truthy (email_value form) = true →
  truthy (phone_value form) = true →
  selectedSeats h ≠ [] →
  submit_call h form
  = (h,
     [Fetch (PostCheckSeats (default "" (schedule_id_value form))
               (JsSet.to_array (selectedSeats h)))],
     [AwaitCheck (default "" (schedule_id_value form))
        (default "" (name_value form)) (default "" (email_value form))
        (default "" (phone_value form))]).
Proof.
  intros Hs Hn He Hp Hsel. unfold submit_call. rewrite Hs, Hn, He, Hp. simpl.
  unfold JsSet.size. destruct (selectedSeats h); [done|]. done.
Qed.

Lemma submit_checked_unavailable h sid name email phone status check :
  ok status = true →
  all_available check = false →
  submit_checked h sid name email phone (Responded status (inr check))
  = (h,
     Alert (unavailable_message (unavailable_seats check))
       :: (refreshSeatDisplay h).1,
     (refreshSeatDisplay h).2).
Proof.
  intros Hok Hall. unfold submit_checked, checkSpecificSeats_resume.
  rewrite Hok, Hall. simpl. by destruct (refreshSeatDisplay h).
Qed.

(** C2: when the seat check made before booking reports that not all
    the selected seats are available, the submission aborts.  The seat
    check was sent for exactly the selected seats; no booking request
    is sent and no booking is left pending; the user is alerted with
    exactly the seat numbers the check returned as unavailable, joined
    by commas; and [refreshSeatDisplay] is run, which requests the
    availability of the container's schedule.  The handler itself is
    left as it was. *)
Theorem submission_aborts_when_unavailable h form status check rb :
  truthy (schedule_id_value form) = true →
  truthy (name_value form) = true →
  truthy (email_value form) = true →
  truthy (phone_value form) = true →
  selectedSeats h ≠ [] →
  ok status = true →
  all_available check = false →
  handleFormSubmission h form (Responded status (inr check)) rb
  = (h,
     [Fetch (PostCheckSeats (default "" (schedule_id_value form))
               (JsSet.to_array (selectedSeats h)));
      Alert ("Seats " +:+ join ", " (show <$> unavailable_seats check)
               +:+ " are no longer available. Please select different seats.")]
       ++ (refreshSeatDisplay h).1,
     (refreshSeatDisplay h).2)
  ∧ booking_calls
      (handleFormSubmission h form (Responded status (inr check)) rb).1.2 = 0
  ∧ count is_booking_task
      (handleFormSubmission h form (Responded status (inr check)) rb).2 = 0
  ∧ (truthy (schedule_id_field (container h)) = true →
     (refreshSeatDisplay h).1
     = [Fetch (GetSeatAvailability (default "" (schedule_id_field (container h))))]).
Proof.
  intros Hs Hn He Hp Hsel Hok Hall.
  assert (Hrun :
    handleFormSubmission h form (Responded status (inr check)) rb
    = (h,
       [Fetch (PostCheckSeats (default "" (schedule_id_value form))
                 (JsSet.to_array (selectedSeats h)));
        Alert (unavailable_message (unavailable_seats check))]
         ++ (refreshSeatDisplay h).1,
       (refreshSeatDisplay h).2)).
  { unfold handleFormSubmission.
    rewrite (submit_call_valid h form Hs Hn He Hp Hsel).
    rewrite (submit_checked_unavailable h _ _ _ _ status check Hok Hall).
    unfold refreshSeatDisplay. by destruct (truthy (schedule_id_field _)). }
  pose proof (refreshSeatDisplay_no_booking h) as [Hev Hts].
  split_and!.
  - exact Hrun.
  - rewrite Hrun. simpl. unfold booking_calls in *.
    by rewrite !count_cons.
  - rewrite Hrun. done.
  - intros Hfield. unfold refreshSeatDisplay. by rewrite Hfield.
Qed.

Lemma submission_aborts_when_unavailable_witness :
  handleFormSubmission BookingScenario.picked BookingScenario.form0
    BookingScenario.seat3_taken BookingScenario.booked42
  = (BookingScenario.picked,
     [Fetch (PostCheckSeats "12" [3; 1]%Z);
      Alert "Seats 3 are no longer available. Please select different seats.";
      Fetch (GetSeatAvailability "12")],
     [AwaitAvailability "12"]).
Proof.
  refine (proj1 (submission_aborts_when_unavailable BookingScenario.picked
                   BookingScenario.form0 200
                   {| all_available := false; unavailable_seats := [3]%Z |}
                   BookingScenario.booked42 _ _ _ _ _ _ _));
    first [reflexivity | discriminate].
Defined.

(** C6 (as amended): when the booking reply arrives with a 2xx status
    and [success] set, the page is sent to the payment page of the
    booking id the server returned, [/payment/<booking_id>/], and
    nothing else is done: the local selection is left as it was (it is
    not cleared), and the booking guard is released. *)
Theorem booking_success_navigates h d status result :
  ok status = true →
  success result = true →
  (submit_booked h d (Responded status (inr result))).1.2
  = [Navigate ("/payment/" +:+ show_opt (booking_id result) +:+ "/")]
  ∧ (submit_booked h d (Responded status (inr result))).2 = []
  ∧ selectedSeats (submit_booked h d (Responded status (inr result))).1.1
    = selectedSeats h
  ∧ bookingInProgress
      (bookingManager (submit_booked h d (Responded status (inr result))).1.1)
    = false.
Proof.
  intros Hok Hsuccess. unfold submit_booked, bookSeats_resume.
  rewrite Hok. simpl. rewrite Hsuccess. done.
Qed.

Lemma booking_success_navigates_witness :
  (submit_booked BookingScenario.picked
     {| schedule_id := Some 12%Z; passenger_name := "Ada";
        passenger_email := "ada@example.org"; passenger_phone := "555";
        seat_numbers := [3; 1]%Z |}
     BookingScenario.booked42).1.2
  = [Navigate "/payment/42/"].
Proof.
  refine (proj1 (booking_success_navigates BookingScenario.picked _ 200
                   {| success := true; booking_id := Some 42%Z; error := None |}
                   _ _));
    reflexivity.
Defined.

(** C6 (as stated) fails: the submission of the scenario is booked
    with success, the page is sent to [/payment/42/], and the local
    selection still holds seats 3 and 1. *)
Lemma booking_success_keeps_selection :
  (handleFormSubmission BookingScenario.picked BookingScenario.form0
     BookingScenario.all_free BookingScenario.booked42).1.2
  = [Fetch (PostCheckSeats "12" [3; 1]%Z);
     Fetch (PostBookSeats
              {| schedule_id := Some 12%Z; passenger_name := "Ada";
                 passenger_email := "ada@example.org"; passenger_phone := "555";
                 seat_numbers := [3; 1]%Z |});
     Navigate "/payment/42/"]
  ∧ selectedSeats
      (handleFormSubmission BookingScenario.picked BookingScenario.form0
         BookingScenario.all_free BookingScenario.booked42).1.1
    = [3; 1]%Z
  ∧ selectedSeats
      (handleFormSubmission BookingScenario.picked BookingScenario.form0
         BookingScenario.all_free BookingScenario.booked42).1.1
    ≠ JsSet.empty.
Proof. split_and!; by vm_compute. Qed.

End Submission.

(** * Further properties of the seat page *)

(** ** The polled snapshot *)

Section Snapshot.
Import Js RealTime Observed.

Lemma foldl_insert_lookup (l : list (Z * HoldInfo)) : ∀ (acc : gmap Z HoldInfo) n,
  foldl (fun acc e => <[e.1 := e.2]> acc) acc l !! n
  = match last (filter (fun e => e.1 = n) l) with
    | Some e => Some e.2
    | None => acc !! n
    end.
Proof.
  induction l as [|e l IH]; intros acc n; [done|].
  simpl. rewrite IH. destruct (decide (e.1 = n)) as [He|He].
  - rewrite filter_cons_True by done. rewrite last_cons.
    destruct (last (filter _ l)); [done|]. by rewrite He, lookup_insert_eq.
  - rewrite filter_cons_False by done.
    destruct (last (filter _ l)); [done|]. by rewrite lookup_insert_ne.
Qed.

Lemma fetchSeatStatus_failed now p r :
  reply_data r = None → (fetchSeatStatus now p r).1 = p.
Proof.
  unfold reply_data, fetchSeatStatus.
  destruct r as [msg | status [msg | data]]; simpl; try done;
    by destruct (ok status).
Qed.

Lemma fetchSeatStatus_succeeded now p r data :
  reply_data r = Some data →
  fetchSeatStatus now p r
  = (updateSeatDisplay now
       {| manager := with_status (manager p) data; seats := seats p |},
     [Fetch (GetSeatStatus (scheduleId (manager p)))]).
Proof.
  unfold reply_data, fetchSeatStatus.
  destruct r as [msg | status [msg | d]]; simpl; try done.
  destruct (ok status); [|done]. by intros [= ->].
Qed.

Lemma fetchSeatStatus_complete now p r :
  StatusBody.fetchSeatStatus now p (StatusBody.complete_reply r)
  = fetchSeatStatus now p r.
Proof.
  unfold StatusBody.fetchSeatStatus, fetchSeatStatus.
  destruct r as [msg | status [msg | data]]; simpl; try done.
Qed.

(** X1: [fetchSeatStatus] replaces the snapshot in steps, and only a
    reply that gives no value leaves the page untouched.  When the
    fetch rejects, the status is not 2xx, the body is not JSON or it is
    [null], the page is left exactly as it was.  Otherwise the booked
    and available sets become those of the reply (empty where the
    reply has none), nothing of the old holds survives, and the local
    selection and the ids are kept.  When the reply has its
    [temporary_selections], a seat is held exactly by the last entry
    the reply has for it and every seat element is rendered anew.  When
    it has none, the sets have been replaced all the same, the holds
    are empty, the error is logged and no seat element is rendered: the
    display keeps showing the old snapshot.  On a reply with its three
    parts this is the [fetchSeatStatus] of the operations above. *)
Theorem fetchSeatStatus_replaces_snapshot now p r :
  (reply_data r = None ∨ reply_data r = Some StatusBody.JsonNull →
   (StatusBody.fetchSeatStatus now p r).1 = p)
  ∧ (∀ data, reply_data r = Some (StatusBody.JsonValue data) →
       (∀ n, n ∈ bookedSeats (manager (StatusBody.fetchSeatStatus now p r).1)
             ↔ n ∈ default [] (StatusBody.body_booked_seats data))
       ∧ (∀ n, n ∈ availableSeats (manager (StatusBody.fetchSeatStatus now p r).1)
               ↔ n ∈ default [] (StatusBody.body_available_seats data))
       ∧ selectedSeats (manager (StatusBody.fetchSeatStatus now p r).1)
         = selectedSeats (manager p)
       ∧ scheduleId (manager (StatusBody.fetchSeatStatus now p r).1)
         = scheduleId (manager p)
       ∧ userId (manager (StatusBody.fetchSeatStatus now p r).1)
         = userId (manager p)
       ∧ (∀ entries,
            StatusBody.body_temporary_selections data = Some entries →
            (∀ n, tempSelections (manager (StatusBody.fetchSeatStatus now p r).1) !! n
                  = snd <$> last (filter (fun e => e.1 = n) entries))
            ∧ seats (StatusBody.fetchSeatStatus now p r).1
              = renderSeat now (manager (StatusBody.fetchSeatStatus now p r).1)
                  <$> seats p
            ∧ (StatusBody.fetchSeatStatus now p r).2
              = [Fetch (GetSeatStatus (scheduleId (manager p)))])
       ∧ (StatusBody.body_temporary_selections data = None →
          tempSelections (manager (StatusBody.fetchSeatStatus now p r).1) = ∅
          ∧ seats (StatusBody.fetchSeatStatus now p r).1 = seats p
          ∧ (StatusBody.fetchSeatStatus now p r).2
            = [Fetch (GetSeatStatus (scheduleId (manager p)));
               ConsoleError "Error fetching seat status:"
                 StatusBody.no_entries_message]))
  ∧ (∀ r0, StatusBody.fetchSeatStatus now p (StatusBody.complete_reply r0)
           = fetchSeatStatus now p r0).
Proof.
  split_and!.
  - unfold reply_data, StatusBody.fetchSeatStatus.
    destruct r as [msg | status [msg | [|data]]]; simpl; try done;
      destruct (ok status); try done; by intros [[=] | [=]].
  - intros data. unfold reply_data, StatusBody.fetchSeatStatus.
    destruct r as [msg | status [msg | d]]; simpl; try done.
    destruct (ok status); [|done]. intros [= ->].
    destruct (StatusBody.body_temporary_selections data) as [entries|];
      simpl; (split_and!; try done; try (intros n; apply elem_of_list_to_set)).
    intros ? [= <-]. split_and!; try done.
    intros n. rewrite foldl_insert_lookup, lookup_empty. by destruct (last _).
  - apply fetchSeatStatus_complete.
Qed.

Lemma fetchSeatStatus_replaces_snapshot_witness :
  (3%Z ∈ bookedSeats
          (manager
             (StatusBody.fetchSeatStatus 0 RealTimeScenario.page0
                (Responded 200
                   (inr (StatusBody.JsonValue
                           {| StatusBody.body_booked_seats := Some [3]%Z;
                              StatusBody.body_available_seats := Some [1; 2]%Z;
                              StatusBody.body_temporary_selections := None |})))).1))
  ∧ seats
      (StatusBody.fetchSeatStatus 0 RealTimeScenario.page0
         (Responded 200
            (inr (StatusBody.JsonValue
                    {| StatusBody.body_booked_seats := Some [3]%Z;
                       StatusBody.body_available_seats := Some [1; 2]%Z;
                       StatusBody.body_temporary_selections := None |})))).1
    = seats RealTimeScenario.page0.
Proof.
  destruct (proj1 (proj2 (fetchSeatStatus_replaces_snapshot 0
                            RealTimeScenario.page0
                            (Responded 200
                               (inr (StatusBody.JsonValue
                                       {| StatusBody.body_booked_seats := Some [3]%Z;
                                          StatusBody.body_available_seats :=
                                            Some [1; 2]%Z;
                                          StatusBody.body_temporary_selections :=
                                            None |})))))
              _ eq_refl)
    as (Hbooked & _ & _ & _ & _ & _ & Hnone).
  split.
  - apply Hbooked. simpl. apply list_elem_of_singleton. reflexivity.
  - exact (proj1 (proj2 (Hnone eq_refl))).
Defined.

End Snapshot.

(** ** What a rendered seat shows and does *)

Section RenderedSeat.
Import Js RealTime Observed.

Lemma status_subset_booked :
  ({[ "bg-red-400"; "text-white"; "cursor-not-allowed" ]} : gset string)
  ⊆ status_classes.
Proof. refine (bool_decide_unpack _ _). by vm_compute. Qed.

Lemma status_subset_held :
  ({[ "bg-yellow-400"; "text-white"; "cursor-not-allowed" ]} : gset string)
  ⊆ status_classes.
Proof. refine (bool_decide_unpack _ _). by vm_compute. Qed.

Lemma status_subset_own :
  ({[ "bg-green-500"; "cursor-pointer" ]} : gset string) ⊆ status_classes.
Proof. refine (bool_decide_unpack _ _). by vm_compute. Qed.

Lemma status_subset_available :
  ({[ "bg-gray-200"; "hover:bg-gray-300"; "cursor-pointer" ]} : gset string)
  ⊆ status_classes.
Proof. refine (bool_decide_unpack _ _). by vm_compute. Qed.

Lemma difference_union_absorb (cl S N : gset string) :
  N ⊆ S → (cl ∖ S ∪ N) ∖ S = cl ∖ S.
Proof.
  intros HN. apply set_eq. intros x.
  rewrite !elem_of_difference, elem_of_union, elem_of_difference.
  split; [intros [[[? ?] | ?] ?]; auto | intros [? ?]; auto].
  exfalso. auto.
Qed.

(** The classes a render leaves outside the status classes are those
    the element had. *)
Lemma renderSeat_other_classes now m seat :
  classList (renderSeat now m seat) ∖ status_classes
  = classList seat ∖ status_classes.
Proof.
  unfold renderSeat. case_decide.
  - simpl. apply difference_union_absorb, status_subset_booked.
  - destruct (tempSelections m !! seatNumber seat) as [sel|].
    + destruct (user_id sel =? userId m)%Z; simpl.
      * pose proof status_subset_held as Hh. pose proof status_subset_own as Ho.
        apply set_eq. intros x.
        rewrite !elem_of_difference, !elem_of_union, elem_of_difference,
          elem_of_union, elem_of_difference, !elem_of_singleton.
        split.
        -- intros [[[[[[? ?] | Hx] ?] | ->] | ->] Hn]; auto.
           ++ exfalso. apply Hn, Hh, Hx.
           ++ exfalso. apply Hn, Ho. apply elem_of_union. left.
              by apply elem_of_singleton.
           ++ exfalso. apply Hn, Ho. apply elem_of_union. right.
              by apply elem_of_singleton.
        -- intros [Hx Hn]. split; [|done]. left. left. split; [auto|].
           intros ->. apply Hn, Hh. apply elem_of_union. left.
           apply elem_of_union. left. by apply elem_of_singleton.
      * apply difference_union_absorb, status_subset_held.
    + simpl. apply difference_union_absorb, status_subset_available.
Qed.

Lemma renderSeat_ext now m seat1 seat2 :
  seatNumber seat1 = seatNumber seat2 →
  classList seat1 ∖ status_classes = classList seat2 ∖ status_classes →
  renderSeat now m seat1 = renderSeat now m seat2.
Proof. intros Hn Hcl. unfold renderSeat. by rewrite Hn, Hcl. Qed.

Lemma renderSeat_number now m seat :
  seatNumber (renderSeat now m seat) = seatNumber seat.
Proof.
  unfold renderSeat. case_decide; [done|].
  destruct (tempSelections m !! seatNumber seat) as [sel|]; [|done].
  by destruct (user_id sel =? userId m)%Z.
Qed.

(** X2: a render leaves no trace of an earlier one.  Rendering a seat
    that was already rendered, from whatever snapshot and at whatever
    time, gives the same element as rendering the original: what a seat
    shows depends only on the current snapshot, its seat number and its
    classes outside the status classes.  In particular a render pass is
    idempotent. *)
Theorem renderSeat_overwrites now m now' m' seat :
  renderSeat now m (renderSeat now' m' seat) = renderSeat now m seat
  ∧ ∀ p, updateSeatDisplay now (updateSeatDisplay now p) = updateSeatDisplay now p.
Proof.
  assert (Hone : ∀ now m now' m' seat,
            renderSeat now m (renderSeat now' m' seat) = renderSeat now m seat).
  { clear. intros now m now' m' seat.
    apply renderSeat_ext;
      [apply renderSeat_number | apply renderSeat_other_classes]. }
  split; [apply Hone|].
  intros p. unfold updateSeatDisplay. simpl. f_equal.
  rewrite <- list_fmap_compose. apply list_fmap_ext. intros i e _. apply Hone.
Qed.

(** Membership of a given class in a given set of classes, decided by
    computation. *)
Ltac class_present :=
  intros _; clear; vm_compute; reflexivity.
Ltac class_absent :=
  let H := fresh in intros H; exfalso; revert H; clear; vm_compute; discriminate.

(** The classes of a rendered seat: those it had outside the status
    classes, and the status classes of its state in the snapshot. *)
Lemma renderSeat_classList now m seat :
  classList (renderSeat now m seat)
  = classList seat ∖ status_classes
    ∪ (if decide (seatNumber seat ∈ bookedSeats m)
       then {[ "bg-red-400"; "text-white"; "cursor-not-allowed" ]}
       else match tempSelections m !! seatNumber seat with
            | Some sel =>
                if (user_id sel =? userId m)%Z
                then {[ "text-white"; "cursor-not-allowed";
                        "bg-green-500"; "cursor-pointer" ]}
                else {[ "bg-yellow-400"; "text-white"; "cursor-not-allowed" ]}
            | None => {[ "bg-gray-200"; "hover:bg-gray-300"; "cursor-pointer" ]}
            end).
Proof.
  unfold renderSeat. case_decide; [done|].
  destruct (tempSelections m !! seatNumber seat) as [sel|]; [|done].
  destruct (user_id sel =? userId m)%Z; [|done]. simpl.
  assert (Hy : "bg-yellow-400" ∈ status_classes) by by vm_compute.
  apply set_eq. intros x.
  rewrite !elem_of_union, !elem_of_difference, !elem_of_union,
    !elem_of_difference, !elem_of_singleton.
  split.
  - intros [[[[HA | [[Hyellow | Hwhite] | Hna]] Hne] | Hgreen] | Hpointer].
    + left. exact HA.
    + destruct (Hne Hyellow).
    + right. left. left. left. exact Hwhite.
    + right. left. left. right. exact Hna.
    + right. left. right. exact Hgreen.
    + right. right. exact Hpointer.
  - intros [HA | [[[Hwhite | Hna] | Hgreen] | Hpointer]].
    + left. left. split; [left; exact HA|].
      intros ->. destruct HA as [_ Hout]. exact (Hout Hy).
    + subst x. left. left. split; [right; left; right; reflexivity | discriminate].
    + subst x. left. left. split; [right; right; reflexivity | discriminate].
    + left. right. exact Hgreen.
    + right. exact Hpointer.
Qed.

(** X3: after a render each seat carries exactly one of the four
    background classes, the one of its state in the snapshot: red when
    booked; otherwise green when held by the current user, yellow when
    held by someone else, and grey when not held. *)
Theorem renderSeat_background now m seat :
  ("bg-red-400" ∈ classList (renderSeat now m seat)
     ↔ seatNumber seat ∈ bookedSeats m)
  ∧ ("bg-green-500" ∈ classList (renderSeat now m seat)
     ↔ (seatNumber seat ∉ bookedSeats m)
       ∧ ∃ sel, tempSelections m !! seatNumber seat = Some sel
                ∧ user_id sel = userId m)
  ∧ ("bg-yellow-400" ∈ classList (renderSeat now m seat)
     ↔ (seatNumber seat ∉ bookedSeats m)
       ∧ ∃ sel, tempSelections m !! seatNumber seat = Some sel
                ∧ user_id sel ≠ userId m)
  ∧ ("bg-gray-200" ∈ classList (renderSeat now m seat)
     ↔ (seatNumber seat ∉ bookedSeats m)
       ∧ tempSelections m !! seatNumber seat = None).
Proof.
  assert (Hstatus : ∀ c (cl N : gset string),
            c ∈ status_classes → c ∈ cl ∖ status_classes ∪ N ↔ c ∈ N).
  { intros c cl N Hc. rewrite elem_of_union, elem_of_difference. tauto. }
  assert (Hred : "bg-red-400" ∈ status_classes) by by vm_compute.
  assert (Hgreen : "bg-green-500" ∈ status_classes) by by vm_compute.
  assert (Hyellow : "bg-yellow-400" ∈ status_classes) by by vm_compute.
  assert (Hgray : "bg-gray-200" ∈ status_classes) by by vm_compute.
  rewrite renderSeat_classList, !Hstatus by done.
  clear Hstatus Hred Hgreen Hyellow Hgray.
  case_decide as Hb.
  - split_and!.
    + split; [done | class_present].
    + split; [class_absent | by intros [? _]].
    + split; [class_absent | by intros [? _]].
    + split; [class_absent | by intros [? _]].
  - destruct (tempSelections m !! seatNumber seat) as [sel|] eqn:Hsel.
    + destruct (Z.eqb_spec (user_id sel) (userId m)) as [Hown|Hother].
      * split_and!.
        -- split; [class_absent | done].
        -- split; [intros _; split; [done | by exists sel] | class_present].
        -- split; [class_absent | by intros [_ (sel' & [= <-] & ?)]].
        -- split; [class_absent | by intros [_ ?]].
      * split_and!.
        -- split; [class_absent | done].
        -- split; [class_absent | by intros [_ (sel' & [= <-] & ?)]].
        -- split; [intros _; split; [done | by exists sel] | class_present].
        -- split; [class_absent | by intros [_ ?]].
    + split_and!.
      * split; [class_absent | done].
      * split; [class_absent | by intros [_ (sel' & ? & _)]].
      * split; [class_absent | by intros [_ (sel' & ? & _)]].
      * split; [done | class_present].
Qed.

Lemma clickAction_rendered_eq now m seat :
  clickAction m (renderSeat now m seat)
  = if decide (seatNumber seat ∈ bookedSeats m) then NoAction
    else match tempSelections m !! seatNumber seat with
         | Some sel =>
             if (user_id sel =? userId m)%Z
             then DeselectSeat (seatNumber seat)
             else NoAction
         | None => SelectSeat (seatNumber seat)
         end.
Proof.
  unfold renderSeat. case_decide; [done|].
  destruct (tempSelections m !! seatNumber seat) as [sel|]; [|done].
  destruct (Z.eqb_spec (user_id sel) (userId m)) as [Hown|Hother].
  - unfold clickAction. simpl. by rewrite Hown, bool_decide_eq_true_2.
  - unfold clickAction. simpl. rewrite bool_decide_eq_false_2; [done|].
    by intros [= ?].
Qed.

(** X4: what a click on a freshly rendered seat does follows the
    snapshot: nothing on a booked seat and nothing on a seat held by
    another user, a deselect of the seat on the current user's own
    hold, and a select of the seat when it is neither booked nor
    held. *)
Theorem clickAction_rendered now m seat :
  clickAction m (renderSeat now m seat)
  = if decide (seatNumber seat ∈ bookedSeats m) then NoAction
    else match tempSelections m !! seatNumber seat with
         | Some sel =>
             if (user_id sel =? userId m)%Z
             then DeselectSeat (seatNumber seat)
             else NoAction
         | None => SelectSeat (seatNumber seat)
         end.
Proof.
  unfold renderSeat. case_decide; [done|].
  destruct (tempSelections m !! seatNumber seat) as [sel|]; [|done].
  destruct (Z.eqb_spec (user_id sel) (userId m)) as [Hown|Hother].
  - unfold clickAction. simpl. by rewrite Hown, bool_decide_eq_true_2.
  - unfold clickAction. simpl. rewrite bool_decide_eq_false_2; [done|].
    by intros [= ?].
Qed.

End RenderedSeat.

(** ** Holds: what is sent, and what the selection keeps *)

Section HoldRequests.
Import Js RealTime Observed.

Lemma hold_requests_app evs1 evs2 :
  hold_requests (evs1 ++ evs2) = hold_requests evs1 ++ hold_requests evs2.
Proof. unfold hold_requests. apply omap_app. Qed.

Lemma fetchSeatStatus_requests now p r :
  hold_requests (fetchSeatStatus now p r).2
  = [GetSeatStatus (scheduleId (manager p))].
Proof.
  unfold fetchSeatStatus.
  destruct r as [msg | status [msg | data]]; simpl; try done;
    by destruct (ok status).
Qed.

(** X5: [selectSeat] and [deselectSeat] send exactly one hold request
    each.  When the server does not confirm it, no status refresh
    follows, the whole page (snapshot, selection and seat elements) is
    left as it was, and the last thing shown is an error notification.
    When the server confirms, exactly one status refresh follows.  The
    HTTP status of the hold reply plays no part: only the body's
    [success] is read. *)
Theorem hold_requests_sent now p n r r2 :
  (confirmed r = false →
     (selectSeat now p n r r2).1 = p
     ∧ hold_requests (selectSeat now p n r r2).2
       = [PostSelectSeat (scheduleId (manager p)) n]
     ∧ (∃ msg, last (selectSeat now p n r r2).2 = Some (Notify msg "error"))
     ∧ (deselectSeat now p n r r2).1 = p
     ∧ hold_requests (deselectSeat now p n r r2).2
       = [PostDeselectSeat (scheduleId (manager p)) n]
     ∧ (∃ msg, last (deselectSeat now p n r r2).2 = Some (Notify msg "error")))
  ∧ (confirmed r = true →
     hold_requests (selectSeat now p n r r2).2
     = [PostSelectSeat (scheduleId (manager p)) n;
        GetSeatStatus (scheduleId (manager p))]
     ∧ hold_requests (deselectSeat now p n r r2).2
       = [PostDeselectSeat (scheduleId (manager p)) n;
          GetSeatStatus (scheduleId (manager p))])
  ∧ (∀ status status' body,
       selectSeat now p n (Responded status body) r2
       = selectSeat now p n (Responded status' body) r2
       ∧ deselectSeat now p n (Responded status body) r2
         = deselectSeat now p n (Responded status' body) r2).
Proof.
  split_and!.
  - intros Hr. unfold selectSeat, deselectSeat.
    destruct r as [msg | status [msg | data]]; simpl in *;
      try (split_and!; eauto; done).
    rewrite Hr. split_and!; eauto.
  - intros Hr. unfold selectSeat, deselectSeat.
    destruct r as [msg | status [msg | data]]; simpl in *; try done.
    rewrite Hr. split.
    + pose proof (fetchSeatStatus_requests now
                    {| manager := with_selectedSeats (manager p)
                                    (JsSet.add (selectedSeats (manager p)) n);
                       seats := seats p |} r2) as Hf.
      destruct (fetchSeatStatus now _ r2) as [p2 evs]. simpl in *.
      rewrite hold_requests_app, Hf. done.
    + pose proof (fetchSeatStatus_requests now
                    {| manager := with_selectedSeats (manager p)
                                    (JsSet.delete (selectedSeats (manager p)) n);
                       seats := seats p |} r2) as Hf.
      destruct (fetchSeatStatus now _ r2) as [p2 evs]. simpl in *.
      rewrite hold_requests_app, Hf. done.
  - intros status status' body. split; by destruct body.
Qed.

Lemma hold_requests_sent_witness :
  hold_requests
    (selectSeat 0 RealTimeScenario.page0 3
       (Responded 200 (inr {| success := false; error := Some "Seat taken";
                              message := None |}))
       (Rejected "offline")).2
  = [PostSelectSeat "12" 3].
Proof.
  refine (proj1 (proj2 (proj1 (hold_requests_sent 0 RealTimeScenario.page0 3
                                 (Responded 200 (inr {| success := false;
                                                        error := Some "Seat taken";
                                                        message := None |}))
                                 (Rejected "offline")) _))).
  reflexivity.
Defined.

Lemma exec_selectedSeats p o :
  selectedSeats (manager (exec p o).1) = selectedSeats (manager p)
  ∨ (hold_refused o → False)
    ∧ ((∃ n, selectedSeats (manager (exec p o).1)
             = JsSet.add (selectedSeats (manager p)) n)
       ∨ (∃ n, selectedSeats (manager (exec p o).1)
               = JsSet.delete (selectedSeats (manager p)) n)).
Proof.
  assert (Hsel : ∀ now n r r2,
    selectedSeats (manager (selectSeat now p n r r2).1) = selectedSeats (manager p)
    ∨ (confirmed r = false → False)
      ∧ ((∃ n', selectedSeats (manager (selectSeat now p n r r2).1)
                = JsSet.add (selectedSeats (manager p)) n') ∨
         (∃ n', selectedSeats (manager (selectSeat now p n r r2).1)
                = JsSet.delete (selectedSeats (manager p)) n'))).
  { intros now n r r2. rewrite selectSeat_selectedSeats.
    destruct (confirmed r); [|by left]. right. split; [done|]. left. by exists n. }
  assert (Hdes : ∀ now n r r2,
    selectedSeats (manager (deselectSeat now p n r r2).1) = selectedSeats (manager p)
    ∨ (confirmed r = false → False)
      ∧ ((∃ n', selectedSeats (manager (deselectSeat now p n r r2).1)
                = JsSet.add (selectedSeats (manager p)) n') ∨
         (∃ n', selectedSeats (manager (deselectSeat now p n r r2).1)
                = JsSet.delete (selectedSeats (manager p)) n'))).
  { intros now n r r2. rewrite deselectSeat_selectedSeats.
    destruct (confirmed r); [|by left]. right. split; [done|]. right. by exists n. }
  destruct o as [now i r r2 | now n r r2 | now n r r2 | now r]; simpl.
  - unfold handleSeatClick. destruct (seats p !! i) as [seat|]; [|by left].
    destruct (clickAction (manager p) seat) as [| n | n]; [by left | apply Hdes | apply Hsel].
  - apply Hsel.
  - apply Hdes.
  - left. apply fetchSeatStatus_selectedSeats.
Qed.

(** X6: the local selection of [RealTimeSeatManager] behaves as a set
    and moves only on confirmation.  Through any sequence of clicks,
    selects, deselects and polls, a selection without duplicates stays
    without duplicates; and if the server confirms none of the hold
    requests (polls make none), the selection at the end is the
    selection at the start. *)
Theorem run_selection p ops :
  (NoDup (selectedSeats (manager p)) →
   NoDup (selectedSeats (manager (run p ops).1)))
  ∧ (Forall hold_refused ops →
     selectedSeats (manager (run p ops).1) = selectedSeats (manager p)).
Proof.
  revert p. induction ops as [|o ops IH]; intros p; [done|].
  simpl. pose proof (exec_selectedSeats p o) as Hexec.
  destruct (exec p o) as [p1 e1]. destruct (IH p1) as [IHnd IHsame].
  destruct (run p1 ops) as [p2 e2]. simpl in *. split.
  - intros Hnd. apply IHnd.
    destruct Hexec as [-> | [_ [[n ->] | [n ->]]]];
      [done | by apply JsSet_NoDup_add | by apply JsSet_NoDup_delete].
  - intros Hall. inversion Hall as [|? ? Ho Hops]; subst.
    rewrite (IHsame Hops). destruct Hexec as [-> | [Hno _]]; [done|].
    destruct (Hno Ho).
Qed.

Lemma run_selection_witness :
  selectedSeats
    (manager
       (run RealTimeScenario.page0
          [Select 0 3 (Rejected "offline") (Rejected "offline");
           Poll 0 (Responded 200 (inr RealTimeScenario.overlap_status))]).1)
  = selectedSeats (manager RealTimeScenario.page0).
Proof.
  apply (proj2 (run_selection RealTimeScenario.page0
                  [Select 0 3 (Rejected "offline") (Rejected "offline");
                   Poll 0 (Responded 200 (inr RealTimeScenario.overlap_status))])).
  repeat constructor.
Defined.

Lemma JsSet_delete_absent (s : list Z) (x : Z) :
  x ∉ s → JsSet.delete s x = s.
Proof.
  unfold JsSet.delete, JsSet.t. induction s as [|y s IH]; intros Hx; [done|].
  apply not_elem_of_cons in Hx as [Hne Hx].
  rewrite filter_cons_True by (simpl; congruence). by rewrite IH.
Qed.

Lemma JsSet_delete_added (s : list Z) (x : Z) :
  x ∉ s → JsSet.delete (s ++ [x]) x = s.
Proof.
  intros Hx. pose proof (JsSet_delete_absent s x Hx) as Habsent.
  unfold JsSet.delete, JsSet.t in *.
  rewrite filter_app, filter_cons_False, filter_nil, app_nil_r
    by (intros Hne; by apply Hne).
  done.
Qed.

(** X7: a confirmed select followed by a confirmed deselect of the
    same seat gives back the selection there was, when the seat was not
    selected before; and a confirmed select of a seat that is already
    selected, like a confirmed deselect of one that is not, changes
    nothing in the selection. *)
Theorem select_deselect_round_trip now now' p n r r2 r' r2' :
  confirmed r = true → confirmed r' = true →
  (n ∉ selectedSeats (manager p) →
   selectedSeats
     (manager (deselectSeat now' (selectSeat now p n r r2).1 n r' r2').1)
   = selectedSeats (manager p))
  ∧ (n ∈ selectedSeats (manager p) →
     selectedSeats (manager (selectSeat now p n r r2).1)
     = selectedSeats (manager p))
  ∧ (n ∉ selectedSeats (manager p) →
     selectedSeats (manager (deselectSeat now p n r r2).1)
     = selectedSeats (manager p)).
Proof.
  intros Hr Hr'. split_and!.
  - intros Hn. rewrite deselectSeat_selectedSeats, selectSeat_selectedSeats, Hr, Hr'.
    rewrite (JsSet_add_fresh _ _ Hn). by apply JsSet_delete_added.
  - intros Hn. rewrite selectSeat_selectedSeats, Hr. unfold JsSet.add.
    by rewrite (proj2 (JsSet_has_true _ _) Hn).
  - intros Hn. rewrite deselectSeat_selectedSeats, Hr.
    by apply JsSet_delete_absent.
Qed.

Lemma select_deselect_round_trip_witness :
  selectedSeats
    (manager
       (deselectSeat 0
          (selectSeat 0 RealTimeScenario.page0 3 RealTimeScenario.confirm
             (Rejected "offline")).1
          3 RealTimeScenario.confirm (Rejected "offline")).1)
  = selectedSeats (manager RealTimeScenario.page0).
Proof.
  apply (proj1 (select_deselect_round_trip 0 0 RealTimeScenario.page0 3
                  RealTimeScenario.confirm (Rejected "offline")
                  RealTimeScenario.confirm (Rejected "offline")
                  eq_refl eq_refl)).
  apply not_elem_of_nil.
Defined.

End HoldRequests.

(** ** The minutes of the countdown *)

Section Minutes.
Import Js RealTime.

Lemma diffMins_bounds (diffMs : Z) :
  (60000 * (diffMins diffMs - 1) < diffMs <= 60000 * diffMins diffMs)%Z.
Proof.
  unfold diffMins. change (1000 * 60)%Z with 60000%Z.
  apply ceil_div_bounds. lia.
Qed.

(** X8: the countdown of a hold that has not expired never shows zero
    minutes: it is "1 min" for up to 60 seconds left and "[m] mins"
    with [m] at least 2 beyond that; the number of minutes shown never
    goes up as the clock advances; and an [expires_at] that is not a
    date shows "NaN mins". *)
Theorem getTimeUntilExpiry_minutes now expiry :
  (0 < expiry - now)%Z →
  ((expiry - now <= 60000)%Z →
     getTimeUntilExpiry now (TimeValue expiry) = "1 min")
  ∧ ((60000 < expiry - now)%Z →
     (2 <= diffMins (expiry - now))%Z
     ∧ getTimeUntilExpiry now (TimeValue expiry)
       = show (diffMins (expiry - now)) +:+ " mins")
  ∧ (∀ later, (now <= later)%Z →
       (diffMins (expiry - later) <= diffMins (expiry - now))%Z)
  ∧ getTimeUntilExpiry now InvalidDate = "NaN mins".
Proof.
  intros Hpos. pose proof (diffMins_bounds (expiry - now)) as Hb.
  rewrite (getTimeUntilExpiry_positive now expiry Hpos). split_and!.
  - intros Hle. assert (diffMins (expiry - now) = 1%Z) as -> by lia. done.
  - intros Hgt. assert (2 <= diffMins (expiry - now))%Z as Hm by lia.
    split; [done|]. by destruct (Z.eqb_spec (diffMins (expiry - now)) 1); [lia|].
  - intros later Hlater. pose proof (diffMins_bounds (expiry - later)). lia.
  - done.
Qed.

Lemma getTimeUntilExpiry_minutes_witness :
  getTimeUntilExpiry 1000 (TimeValue 61000) = "1 min"
  ∧ getTimeUntilExpiry 1000 (TimeValue 61001) = "2 mins".
Proof.
  split.
  - apply (proj1 (getTimeUntilExpiry_minutes 1000 61000 ltac:(lia))). lia.
  - apply (proj2 (proj1 (proj2 (getTimeUntilExpiry_minutes 1000 61001 ltac:(lia)))
                    ltac:(lia))).
Defined.

End Minutes.

(** * Further properties of the booking form *)

(** ** Submissions that stop early *)

Section EarlyStops.
Import Js SeatBooking Observed.


(** X9: a submission with a missing or empty field, or with no seat
    selected, sends no request and changes nothing: it only alerts
    "Please fill in all required fields." (checked first) or "Please
    select at least one seat.". *)
Theorem submission_validation h form rc rb :
  (truthy (schedule_id_value form) && truthy (name_value form)
     && truthy (email_value form) && truthy (phone_value form) = false →
   handleFormSubmission h form rc rb
   = (h, [Alert "Please fill in all required fields."], []))
  ∧ (truthy (schedule_id_value form) && truthy (name_value form)
       && truthy (email_value form) && truthy (phone_value form) = true →
     selectedSeats h = [] →
     handleFormSubmission h form rc rb
     = (h, [Alert "Please select at least one seat."], [])).
Proof.
  unfold handleFormSubmission, submit_call.
  destruct (truthy (schedule_id_value form)), (truthy (name_value form)),
    (truthy (email_value form)), (truthy (phone_value form)); simpl;
    split; try done.
  intros _ ->. done.
Qed.

Lemma submission_validation_witness :
  handleFormSubmission BookingScenario.picked
    {| schedule_id_value := Some "12"; name_value := Some "Ada";
       email_value := Some ""; phone_value := None |}
    BookingScenario.all_free BookingScenario.booked42
  = (BookingScenario.picked, [Alert "Please fill in all required fields."], []).
Proof.
  apply (proj1 (submission_validation BookingScenario.picked
                  {| schedule_id_value := Some "12"; name_value := Some "Ada";
                     email_value := Some ""; phone_value := None |}
                  BookingScenario.all_free BookingScenario.booked42)).
  reflexivity.
Defined.

(** X10: when the seat check cannot be read (the fetch rejects, the
    status is not 2xx or the body is not JSON), [checkSpecificSeats]
    returns [null] and the submission stops: no booking request is
    sent, the handler is left as it was, the failure is logged, the
    user is alerted with "Booking failed: " followed by the engine's
    message for reading a property of [null], and
    [refreshSeatDisplay] is run. *)
Theorem submission_stops_when_check_fails h form rc rb :
  truthy (schedule_id_value form) = true →
  truthy (name_value form) = true →
  truthy (email_value form) = true →
  truthy (phone_value form) = true →
  selectedSeats h ≠ [] →
  reply_data rc = None →
  ∃ msg,
    handleFormSubmission h form rc rb
    = (h,
       [Fetch (PostCheckSeats (default "" (schedule_id_value form))
                 (JsSet.to_array (selectedSeats h)));
        ConsoleError "Error checking specific seats:" msg;
        Alert ("Booking failed: " +:+ null_read_message)]
         ++ (refreshSeatDisplay h).1,
       (refreshSeatDisplay h).2)
    ∧ booking_calls (handleFormSubmission h form rc rb).1.2 = 0.
Proof.
  intros Hs Hn He Hp Hsel Hrc.
  assert (Hcheck : ∃ msg, checkSpecificSeats_resume rc
                          = ([ConsoleError "Error checking specific seats:" msg], None)).
  { unfold reply_data in Hrc. unfold checkSpecificSeats_resume.
    destruct rc as [msg | status [msg | data]]; simpl in *; eauto;
      destruct (ok status); eauto; done. }
  destruct Hcheck as [msg Hcheck]. exists msg.
  assert (Hrun : handleFormSubmission h form rc rb
    = (h,
       [Fetch (PostCheckSeats (default "" (schedule_id_value form))
                 (JsSet.to_array (selectedSeats h)));
        ConsoleError "Error checking specific seats:" msg;
        Alert ("Booking failed: " +:+ null_read_message)]
         ++ (refreshSeatDisplay h).1,
       (refreshSeatDisplay h).2)).
  { unfold handleFormSubmission.
    rewrite (submit_call_valid h form Hs Hn He Hp Hsel).
    unfold submit_checked. rewrite Hcheck. unfold submission_caught.
    unfold refreshSeatDisplay. by destruct (truthy (schedule_id_field _)). }
  split; [exact Hrun|]. rewrite Hrun. simpl.
  pose proof (refreshSeatDisplay_no_booking h) as [Hev _].
  unfold booking_calls in *. by rewrite !count_cons.
Qed.

Lemma submission_stops_when_check_fails_witness :
  ∃ msg,
    handleFormSubmission BookingScenario.picked BookingScenario.form0
      (Responded 503 (inl "Unexpected token <")) BookingScenario.booked42
    = (BookingScenario.picked,
       [Fetch (PostCheckSeats "12" [3; 1]%Z);
        ConsoleError "Error checking specific seats:" msg;
        Alert ("Booking failed: " +:+ null_read_message)]
         ++ (refreshSeatDisplay BookingScenario.picked).1,
       (refreshSeatDisplay BookingScenario.picked).2).
Proof.
  destruct (submission_stops_when_check_fails BookingScenario.picked
              BookingScenario.form0 (Responded 503 (inl "Unexpected token <"))
              BookingScenario.booked42 eq_refl eq_refl eq_refl eq_refl
              ltac:(discriminate) eq_refl) as [msg [Hrun _]].
  exists msg. exact Hrun.
Defined.

(** X11: how a booking reply is reported.  A reply with a non-2xx
    status is logged and alerted as "Booking failed: " followed by the
    reply's [error], or by "Booking failed" when it has none, and
    [refreshSeatDisplay] is run; a rejected fetch is reported with its
    own message in the same way.  A 2xx reply whose [success] is not
    set is dropped in silence: nothing is shown, nothing is sent and
    the page stays.  In every case the local selection is kept and the
    booking guard is released. *)
Theorem booking_reply_reported h d r :
  (∀ status reply,
     r = Responded status (inr reply) → ok status = false →
     (submit_booked h d r).1.2
     = [ConsoleError "Error booking seats:" (or_else (error reply) "Booking failed");
        Alert ("Booking failed: " +:+ or_else (error reply) "Booking failed")]
         ++ (refreshSeatDisplay h).1)
  ∧ (∀ msg,
       r = Rejected msg →
       (submit_booked h d r).1.2
       = [ConsoleError "Error booking seats:" msg;
          Alert ("Booking failed: " +:+ msg)]
           ++ (refreshSeatDisplay h).1)
  ∧ (∀ status reply,
       r = Responded status (inr reply) → ok status = true →
       success reply = false →
       (submit_booked h d r).1.2 = [] ∧ (submit_booked h d r).2 = [])
  ∧ selectedSeats (submit_booked h d r).1.1 = selectedSeats h
  ∧ bookingInProgress (bookingManager (submit_booked h d r).1.1) = false.
Proof.
  assert (Hrefresh : ∀ m, refreshSeatDisplay (with_bookingManager h m)
                          = refreshSeatDisplay h) by done.
  split_and!.
  - intros status reply -> Hok. unfold submit_booked, bookSeats_resume.
    rewrite Hok. simpl. unfold submission_caught. rewrite Hrefresh.
    by destruct (refreshSeatDisplay h).
  - intros msg ->. unfold submit_booked, bookSeats_resume. simpl.
    unfold submission_caught. rewrite Hrefresh.
    by destruct (refreshSeatDisplay h).
  - intros status reply -> Hok Hfail. unfold submit_booked, bookSeats_resume.
    rewrite Hok. simpl. by rewrite Hfail.
  - pose proof (submit_booked_booking h d r) as [[Hsel _] _]. exact Hsel.
  - pose proof (submit_booked_booking h d r) as (_ & Hflag & _). exact Hflag.
Qed.

Lemma booking_reply_reported_witness :
  (submit_booked BookingScenario.picked
     {| schedule_id := Some 12%Z; passenger_name := "Ada";
        passenger_email := "ada@example.org"; passenger_phone := "555";
        seat_numbers := [3; 1]%Z |}
     (Responded 200 (inr {| success := false; booking_id := None;
                            error := Some "Seat 3 was just booked" |}))).1.2
  = [].
Proof.
  destruct (booking_reply_reported BookingScenario.picked
              {| schedule_id := Some 12%Z; passenger_name := "Ada";
                 passenger_email := "ada@example.org"; passenger_phone := "555";
                 seat_numbers := [3; 1]%Z |}
              (Responded 200 (inr {| success := false; booking_id := None;
                                     error := Some "Seat 3 was just booked" |})))
    as (_ & _ & Hsilent & _).
  exact (proj1 (Hsilent 200%Z _ eq_refl eq_refl eq_refl)).
Defined.

End EarlyStops.

(** ** Toggling seats and the selection display *)

Section Toggling.
Import Js SeatBooking Observed.

Lemma selectionText_ext h h' :
  selectedSeats h' = selectedSeats h → maxSeats h' = maxSeats h →
  selectionText h' = selectionText h.
Proof. intros Hs Hm. unfold selectionText. by rewrite Hs, Hm. Qed.

Lemma updateSelectionDisplay_display h :
  display (container (updateSelectionDisplay h))
  = (fun _ => selectionText (updateSelectionDisplay h)) <$> display (container h).
Proof. done. Qed.

(** The display, where the page has one, shows the current selection. *)
Lemma toggleSeat_display (d0 : option string) h i :
  display (container h) = (fun _ => selectionText h) <$> d0 →
  display (container (toggleSeat h i).1)
  = (fun _ => selectionText (toggleSeat h i).1) <$> d0.
Proof.
  intros Hd. unfold toggleSeat.
  destruct (seat_elements (container h) !! i) as [e|]; [|done].
  destruct (JsSet.has (selectedSeats h) (seat e)).
  - simpl. rewrite Hd. by destruct d0.
  - destruct (JsSet.size (selectedSeats h) >=? maxSeats h)%Z; [done|].
    simpl. rewrite Hd. by destruct d0.
Qed.

Lemma submit_checked_container h sid name email phone r :
  container (submit_checked h sid name email phone r).1.1 = container h.
Proof.
  unfold submit_checked.
  destruct (checkSpecificSeats_resume r) as [e1 [check|]].
  - destruct (all_available check); simpl.
    + destruct (bookSeats_call (bookingManager h) _) as [[m e2] [msg|]]; [|done].
      by destruct (submission_caught _ _).
    + by destruct (refreshSeatDisplay h).
  - by destruct (submission_caught _ _).
Qed.

Lemma submit_booked_container h d r :
  container (submit_booked h d r).1.1 = container h.
Proof.
  unfold submit_booked.
  destruct (bookSeats_resume (bookingManager h) d r) as [[m e1] [result|msg]].
  - by destruct (success result).
  - by destruct (submission_caught _ _).
Qed.

Lemma availability_arrived_display now h sid r :
  display (container (availability_arrived now h sid r).1) = display (container h).
Proof.
  unfold availability_arrived.
  destruct (checkSeatAvailability_resume now (bookingManager h) sid r)
    as [[m evs] [data|]]; done.
Qed.

Lemma step_display (d0 : option string) s i s' :
  display (container (handler s)) = (fun _ => selectionText (handler s)) <$> d0 →
  step s i = Some s' →
  maxSeats (handler s') = maxSeats (handler s)
  ∧ display (container (handler s')) = (fun _ => selectionText (handler s')) <$> d0.
Proof.
  intros Hd Hstep.
  assert (Hkeep : ∀ h, display (container h) = display (container (handler s)) →
                       same_selection (handler s) h →
                       maxSeats h = maxSeats (handler s)
                       ∧ display (container h) = (fun _ => selectionText h) <$> d0).
  { intros h Hc [Hsel Hmax]. split; [done|]. rewrite Hc, Hd.
    by rewrite (selectionText_ext _ _ Hsel Hmax). }
  destruct i as [i | form | k r | k r | now k r]; simpl in Hstep.
  - pose proof (toggleSeat_display d0 (handler s) i Hd) as Ht.
    pose proof (toggleSeat_keeps (handler s) i) as (Hm & _).
    destruct (toggleSeat (handler s) i) as [h evs]. by simplify_eq.
  - pose proof (submit_call_handler (handler s) form) as Hh.
    destruct (submit_call (handler s) form) as [[h evs] ts]. simpl in *.
    by simplify_eq.
  - destruct (pending s !! k) as [[sid name email phone | d | sid]|]; try done.
    pose proof (submit_checked_container (handler s) sid name email phone r) as Hc.
    pose proof (submit_checked_booking (handler s) sid name email phone r)
      as [Hsel _].
    destruct (submit_checked _ _ _ _ _ r) as [[h evs] ts]. simpl in *.
    simplify_eq. simpl. apply Hkeep; [by rewrite Hc | done].
  - destruct (pending s !! k) as [[sid name email phone | d | sid]|]; try done.
    pose proof (submit_booked_container (handler s) d r) as Hc.
    pose proof (submit_booked_booking (handler s) d r) as [Hsel _].
    destruct (submit_booked _ d r) as [[h evs] ts]. simpl in *.
    simplify_eq. simpl. apply Hkeep; [by rewrite Hc | done].
  - destruct (pending s !! k) as [[sid name email phone | d | sid]|]; try done.
    pose proof (availability_arrived_display now (handler s) sid r) as Hc.
    pose proof (availability_arrived_keeps now (handler s) sid r) as (Hsel & _).
    destruct (availability_arrived _ _ sid r) as [h evs]. simpl in *.
    simplify_eq. simpl. by apply Hkeep.
Qed.

Lemma steps_display (d0 : option string) inputs : ∀ s s',
  display (container (handler s)) = (fun _ => selectionText (handler s)) <$> d0 →
  steps s inputs = Some s' →
  maxSeats (handler s') = maxSeats (handler s)
  ∧ display (container (handler s')) = (fun _ => selectionText (handler s')) <$> d0.
Proof.
  induction inputs as [|i inputs IH]; intros s s' Hd Hsteps; simpl in Hsteps.
  - by simplify_eq.
  - destruct (step s i) as [s1|] eqn:Hstep; [|done].
    destruct (step_display d0 _ _ _ Hd Hstep) as [Hm1 Hd1].
    destruct (IH _ _ Hd1 Hsteps) as [Hm' Hd']. split; [congruence | done].
Qed.

(** X12: the selection display never goes stale.  In every state the
    booking page can reach, through any clicks, submissions and
    replies, the display element (when the container has one) reads
    "Selected seats: ", the selected seat numbers in ascending order
    separated by commas, and the count out of the limit, for the
    selection as it is in that state. *)
Theorem selection_display_in_sync c limit inputs s :
  steps (start c limit) inputs = Some s →
  display (container (handler s))
  = (fun _ =>
       "Selected seats: "
         +:+ join ", "
               (show <$> merge_sort Z.le (JsSet.to_array (selectedSeats (handler s))))
         +:+ " (" +:+ show (JsSet.size (selectedSeats (handler s)))
         +:+ "/" +:+ show limit +:+ ")")
      <$> display c.
Proof.
  intros Hsteps.
  destruct (steps_display (display c) inputs (start c limit) s eq_refl Hsteps)
    as [Hmax Hd].
  rewrite Hd. unfold selectionText. by rewrite Hmax.
Qed.

Lemma selection_display_in_sync_witness :
  match steps (start BookingScenario.container0 4)
          BookingScenario.overlapping_submits with
  | Some s =>
      display (container (handler s)) = Some "Selected seats: 3 (1/4)"
  | None => False
  end.
Proof.
  destruct (steps (start BookingScenario.container0 4)
              BookingScenario.overlapping_submits) as [s|] eqn:Hsteps.
  - rewrite (selection_display_in_sync BookingScenario.container0 4 _ s Hsteps).
    assert (Hsel : selectedSeats (handler s) = [3%Z]).
    { vm_compute in Hsteps. by injection Hsteps as <-. }
    rewrite Hsel. reflexivity.
  - vm_compute in Hsteps. discriminate Hsteps.
Defined.

Lemma toggleSeat_element h i e :
  seat_elements (container h) !! i = Some e →
  ∃ e', seat_elements (container (toggleSeat h i).1) !! i = Some e'
        ∧ seat e' = seat e.
Proof.
  intros Hi. unfold toggleSeat. rewrite Hi.
  destruct (JsSet.has (selectedSeats h) (seat e)).
  - simpl. rewrite list_lookup_alter_eq, Hi. simpl. eexists. by split.
  - destruct (JsSet.size (selectedSeats h) >=? maxSeats h)%Z.
    + simpl. by exists e.
    + simpl. rewrite list_lookup_alter_eq, Hi. simpl. eexists. by split.
Qed.

Lemma JsSet_size_delete_present (s : list Z) (x : Z) :
  NoDup s → x ∈ s → (JsSet.size (JsSet.delete s x) = JsSet.size s - 1)%Z.
Proof.
  unfold JsSet.size, JsSet.delete, JsSet.t.
  induction 1 as [|y s Hy Hnd IH]; intros Hx; [by apply elem_of_nil in Hx|].
  apply elem_of_cons in Hx as [-> | Hx].
  - rewrite filter_cons_False by (intros Hne; by apply Hne).
    pose proof (JsSet_delete_absent s y Hy) as Habs.
    unfold JsSet.delete, JsSet.t in Habs. rewrite Habs. simpl. lia.
  - rewrite filter_cons_True by (intros ->; done).
    simpl length. rewrite !Nat2Z.inj_succ. rewrite (IH Hx). lia.
Qed.

(** X13: deselecting by a click is never refused.  A click on a seat
    that is in the selection, whatever [maxSeats] is and however many
    seats are selected, removes that seat and only that seat, frees
    exactly one place, takes the [selected] class off the element,
    alerts nothing and sends nothing. *)
Theorem toggleSeat_deselects h i e :
  seat_elements (container h) !! i = Some e →
  seat e ∈ selectedSeats h →
  (toggleSeat h i).2 = []
  ∧ (∀ y, y ∈ selectedSeats (toggleSeat h i).1
          ↔ y ≠ seat e ∧ y ∈ selectedSeats h)
  ∧ (NoDup (selectedSeats h) →
     JsSet.size (selectedSeats (toggleSeat h i).1)
     = (JsSet.size (selectedSeats h) - 1)%Z)
  ∧ (∃ e', seat_elements (container (toggleSeat h i).1) !! i = Some e'
           ∧ seat e' = seat e ∧ "selected" ∉ classList e').
Proof.
  intros Hi He. unfold toggleSeat. rewrite Hi.
  rewrite (proj2 (JsSet_has_true _ _) He). simpl. split_and!.
  - done.
  - intros y. apply JsSet_elem_of_delete.
  - intros Hnd. by apply JsSet_size_delete_present.
  - rewrite list_lookup_alter_eq, Hi. simpl. eexists. split_and!; [done | done |].
    simpl. rewrite elem_of_difference, elem_of_singleton. tauto.
Qed.

Lemma toggleSeat_deselects_witness :
  (toggleSeat BookingScenario.picked 2).2 = [].
Proof.
  destruct (seat_elements (container BookingScenario.picked) !! 2%nat)
    as [e|] eqn:Hi; [|vm_compute in Hi; discriminate Hi].
  apply (proj1 (toggleSeat_deselects BookingScenario.picked 2 e Hi
                  ltac:(vm_compute in Hi; injection Hi as <-;
                        apply JsSet_has_true; reflexivity))).
Defined.

(** X14: toggling twice is a round trip.  Below the limit, a click on
    a seat that is not selected followed by a second click on it gives
    back the selection there was, with no alert and no request. *)
Theorem toggleSeat_round_trip h i e :
  seat_elements (container h) !! i = Some e →
  seat e ∉ selectedSeats h →
  (JsSet.size (selectedSeats h) < maxSeats h)%Z →
  selectedSeats (toggleSeat h i).1 = selectedSeats h ++ [seat e]
  ∧ selectedSeats (toggleSeat (toggleSeat h i).1 i).1 = selectedSeats h
  ∧ (toggleSeat h i).2 = []
  ∧ (toggleSeat (toggleSeat h i).1 i).2 = [].
Proof.
  intros Hi He Hroom.
  assert (Hfirst : selectedSeats (toggleSeat h i).1 = selectedSeats h ++ [seat e]
                   ∧ (toggleSeat h i).2 = []).
  { unfold toggleSeat. rewrite Hi.
    rewrite (proj2 (JsSet_has_false _ _) He), Z.geb_leb.
    destruct (Z.leb_spec (maxSeats h) (JsSet.size (selectedSeats h))); [lia|].
    simpl. split; [by apply JsSet_add_fresh | done]. }
  destruct Hfirst as [Hsel Hev].
  destruct (toggleSeat_element h i e Hi) as (e' & Hi' & Hseat).
  assert (He' : seat e' ∈ selectedSeats (toggleSeat h i).1).
  { rewrite Hsel, Hseat. apply elem_of_app. right. by apply list_elem_of_singleton. }
  split_and!; try done.
  - unfold toggleSeat at 1. rewrite Hi'.
    rewrite (proj2 (JsSet_has_true _ _) He'). simpl.
    rewrite Hsel, Hseat. by apply JsSet_delete_added.
  - unfold toggleSeat at 1. rewrite Hi'.
    by rewrite (proj2 (JsSet_has_true _ _) He').
Qed.

Lemma toggleSeat_round_trip_witness :
  selectedSeats
    (toggleSeat (toggleSeat BookingScenario.picked 4).1 4).1
  = selectedSeats BookingScenario.picked.
Proof.
  apply (proj1 (proj2 (toggleSeat_round_trip BookingScenario.picked 4
                         (BookingScenario.seatElement 5)
                         ltac:(vm_compute; reflexivity)
                         ltac:(apply JsSet_has_false; reflexivity)
                         ltac:(vm_compute; reflexivity)))).
Defined.

End Toggling.

(** ** The availability cache *)

Section Cache.
Import Js SeatBooking Monitoring Observed.

Lemma checkSeatAvailability_failed now m sid r :
  reply_data r = None →
  ∃ msg, checkSeatAvailability_resume now m sid r
         = (m, [ConsoleError "Error checking seat availability:" msg], None).
Proof.
  unfold reply_data, checkSeatAvailability_resume.
  destruct r as [msg | status [msg | data]]; simpl; eauto;
    destruct (ok status); eauto; done.
Qed.

Lemma checkSeatAvailability_succeeded now m sid r data :
  reply_data r = Some data →
  checkSeatAvailability_resume now m sid r
  = (with_availabilityCache m (<[inl sid := (data, now)]> (availabilityCache m)),
     [], Some data).
Proof.
  unfold reply_data, checkSeatAvailability_resume.
  destruct r as [msg | status [msg | d]]; simpl; try done.
  destruct (ok status); [|done]. by intros [= ->].
Qed.

(** X15: the availability cache is a ten-second cache that only good
    replies fill.  After a readable 2xx reply for a schedule arrives at
    time [now], [getCachedAvailability] for that schedule returns the
    reply's data at any time less than 10000 ms later and [null] from
    10000 ms on, and what is cached for other keys is untouched.  A
    reply that cannot be read changes nothing in the manager and gives
    [null] to the caller. *)
Theorem availability_cache_round_trip now m sid r later :
  (∀ data, reply_data r = Some data →
     (checkSeatAvailability_resume now m sid r).2 = Some data
     ∧ ((later - now < 10000)%Z →
        getCachedAvailability later (checkSeatAvailability_resume now m sid r).1.1
          (inl sid) = Some data)
     ∧ ((10000 <= later - now)%Z →
        getCachedAvailability later (checkSeatAvailability_resume now m sid r).1.1
          (inl sid) = None)
     ∧ (∀ k, k ≠ inl sid →
          getCachedAvailability later (checkSeatAvailability_resume now m sid r).1.1 k
          = getCachedAvailability later m k))
  ∧ (reply_data r = None →
     (checkSeatAvailability_resume now m sid r).1.1 = m
     ∧ (checkSeatAvailability_resume now m sid r).2 = None).
Proof.
  split.
  - intros data Hdata. rewrite (checkSeatAvailability_succeeded _ _ _ _ _ Hdata).
    unfold getCachedAvailability. simpl. split_and!.
    + done.
    + intros Hfresh. rewrite lookup_insert_eq.
      by destruct (Z.ltb_spec (later - now) 10000); [|lia].
    + intros Hstale. rewrite lookup_insert_eq.
      by destruct (Z.ltb_spec (later - now) 10000); [lia|].
    + intros k Hk. by rewrite lookup_insert_ne.
  - intros Hnone. destruct (checkSeatAvailability_failed now m sid r Hnone)
      as [msg ->]. done.
Qed.

Lemma availability_cache_round_trip_witness :
  getCachedAvailability 9999
    (checkSeatAvailability_resume 0 newManager "12"
       (Responded 200 (inr {| available_count := 38; total_seats := 40;
                              booked_seats := [3; 7]%Z |}))).1.1
    (inl "12")
  = Some {| available_count := 38; total_seats := 40; booked_seats := [3; 7]%Z |}.
Proof.
  refine (proj1 (proj2 (proj1 (availability_cache_round_trip 0 newManager "12"
                                 (Responded 200 (inr {| available_count := 38;
                                                        total_seats := 40;
                                                        booked_seats := [3; 7]%Z |}))
                                 9999) _ eq_refl)) _).
  reflexivity.
Defined.

(** X16: a booking does not invalidate what the availability checks
    cached.  [bookSeats] deletes the cache entry under the numeric
    [schedule_id] of the booking data, while the availability checks
    store under the schedule id string read from the page; so after any
    booking reply, [getCachedAvailability] for a page schedule id
    answers exactly as before, and only an entry stored under the
    number itself is dropped by a successful booking. *)
Theorem booking_keeps_page_cache m d r later sid :
  getCachedAvailability later (bookSeats_resume m d r).1.1 (inl sid)
  = getCachedAvailability later m (inl sid)
  ∧ (∀ h, getCachedAvailability later
            (bookingManager (submit_booked h d r).1.1) (inl sid)
          = getCachedAvailability later (bookingManager h) (inl sid))
  ∧ (∀ reply, reply_data r = Some reply →
       getCachedAvailability later (bookSeats_resume m d r).1.1
         (inr (schedule_id d)) = None).
Proof.
  assert (Hkeep : ∀ m, getCachedAvailability later (bookSeats_resume m d r).1.1 (inl sid)
                       = getCachedAvailability later m (inl sid)).
  { clear m. intros m. unfold bookSeats_resume, getCachedAvailability.
    destruct r as [msg | status [msg | data]]; simpl; try done;
      destruct (ok status); simpl; try done.
    by rewrite lookup_delete_ne. }
  split_and!.
  - apply Hkeep.
  - intros h. unfold submit_booked. pose proof (Hkeep (bookingManager h)) as Hk.
    destruct (bookSeats_resume (bookingManager h) d r) as [[m' e1] [result|msg]];
      simpl in *.
    + by destruct (success result).
    + by destruct (submission_caught _ _).
  - intros reply Hreply. unfold reply_data in Hreply.
    unfold bookSeats_resume, getCachedAvailability.
    destruct r as [msg | status [msg | data]]; simpl in *; try done.
    destruct (ok status); [|done]. simpl. by rewrite lookup_delete_eq.
Qed.

Lemma booking_keeps_page_cache_witness :
  getCachedAvailability 5
    (bookSeats_resume
       {| availabilityCache :=
            {[ inr (Some 12%Z)
               := ({| available_count := 38; total_seats := 40;
                      booked_seats := [3; 7]%Z |}, 0%Z) ]};
          bookingInProgress := true |}
       {| schedule_id := Some 12%Z; passenger_name := "Ada";
          passenger_email := "ada@example.org"; passenger_phone := "555";
          seat_numbers := [3]%Z |}
       BookingScenario.booked42).1.1
    (inr (Some 12%Z))
  = None.
Proof.
  exact (proj2 (proj2 (booking_keeps_page_cache _ _ BookingScenario.booked42 5 ""))
           _ eq_refl).
Defined.

(** X17: [clearCache].  Called with a schedule id that is truthy it
    forgets that key and no other; called without an argument, or with
    the empty string or the number 0 (which are falsy), it forgets
    everything.  It never touches the booking guard. *)
Theorem clearCache_forgets m later :
  (∀ k, key_truthy k = true →
     getCachedAvailability later (clearCache m (Some k)) k = None
     ∧ ∀ k', k' ≠ k →
         getCachedAvailability later (clearCache m (Some k)) k'
         = getCachedAvailability later m k')
  ∧ (∀ k k', key_truthy k = false →
       getCachedAvailability later (clearCache m (Some k)) k' = None)
  ∧ (∀ k', getCachedAvailability later (clearCache m None) k' = None)
  ∧ (∀ arg, bookingInProgress (clearCache m arg) = bookingInProgress m).
Proof.
  split_and!.
  - intros k Hk. unfold clearCache, getCachedAvailability. rewrite Hk. simpl.
    split; [by rewrite lookup_delete_eq|].
    intros k' Hne. by rewrite lookup_delete_ne.
  - intros k k' Hk. unfold clearCache, getCachedAvailability. rewrite Hk. simpl.
    by rewrite lookup_empty.
  - intros k'. unfold clearCache, getCachedAvailability. simpl.
    by rewrite lookup_empty.
  - intros [k|]; [|done]. unfold clearCache. by destruct (key_truthy k).
Qed.

Lemma clearCache_forgets_witness :
  getCachedAvailability 5
    (clearCache
       (checkSeatAvailability_resume 0 newManager "12"
          (Responded 200 (inr {| available_count := 38; total_seats := 40;
                                 booked_seats := [3; 7]%Z |}))).1.1
       (Some (inr (Some 0%Z))))
    (inl "12")
  = None.
Proof.
  refine (proj1 (proj2 (clearCache_forgets _ 5)) (inr (Some 0%Z)) (inl "12") _).
  reflexivity.
Defined.

End Cache.

(** ** Availability monitoring *)

Section Monitor.
Import Js SeatBooking Monitoring Observed.

Lemma step_one_timer mon i mon' evs data :
  one_timer mon → step mon i = Some (mon', evs, data) → one_timer mon'.
Proof.
  unfold one_timer. intros Hone Hstep.
  destruct i as [handle sid | | handle | now k r]; simpl in Hstep.
  - unfold startAvailabilityMonitoring in Hstep.
    assert (Hcleared :
      match refreshInterval mon with
      | Some old => clearInterval old (intervals mon)
      | None => intervals mon
      end = ∅).
    { destruct (refreshInterval mon) as [old|]; [|done].
      destruct Hone as [sid' ->]. unfold clearInterval.
      by rewrite delete_singleton_eq. }
    rewrite Hcleared in Hstep. rewrite decide_False in Hstep
      by (rewrite lookup_empty; by intros [? ?]).
    simpl in Hstep. simplify_eq. simpl. exists sid. by rewrite insert_empty.
  - simplify_eq. unfold stopAvailabilityMonitoring.
    destruct (refreshInterval mon) as [old|] eqn:Hold; simpl.
    + destruct Hone as [sid' ->]. unfold clearInterval.
      by rewrite delete_singleton_eq.
    + by rewrite Hold.
  - destruct (intervals mon !! handle); [|done]. by simplify_eq.
  - destruct (checks mon !! k) as [sid|]; [|done].
    destruct (checkSeatAvailability_resume now (manager mon) sid r) as [[m e] dt].
    by simplify_eq.
Qed.

Lemma steps_one_timer inputs : ∀ mon mon' evs,
  one_timer mon → steps mon inputs = Some (mon', evs) → one_timer mon'.
Proof.
  induction inputs as [|i inputs IH]; intros mon mon' evs Hone Hsteps;
    simpl in Hsteps.
  - by simplify_eq.
  - destruct (step mon i) as [[[mon1 e1] dt]|] eqn:Hstep; [|done].
    destruct (steps mon1 inputs) as [[mon2 e2]|] eqn:Hrest; [|done].
    simpl in Hsteps. simplify_eq.
    eapply IH; [|exact Hrest]. by eapply step_one_timer.
Qed.

(** X18: monitoring never leaves a timer behind.  Whatever sequence
    of starts, stops, timer ticks and arriving replies a manager goes
    through, the interval timers it has running are exactly the one
    [refreshInterval] names, so at most one; after
    [stopAvailabilityMonitoring] none is left, no tick can happen any
    more, and stopping again changes nothing. *)
Theorem monitoring_one_timer inputs mon evs :
  steps newMonitor inputs = Some (mon, evs) →
  one_timer mon
  ∧ size (intervals mon) <= 1
  ∧ intervals (stopAvailabilityMonitoring mon) = ∅
  ∧ refreshInterval (stopAvailabilityMonitoring mon) = None
  ∧ (∀ handle, step (stopAvailabilityMonitoring mon) (Tick handle) = None)
  ∧ stopAvailabilityMonitoring (stopAvailabilityMonitoring mon)
    = stopAvailabilityMonitoring mon.
Proof.
  intros Hsteps.
  assert (Hone : one_timer mon).
  { eapply steps_one_timer; [|exact Hsteps]. done. }
  assert (Hstop : intervals (stopAvailabilityMonitoring mon) = ∅
                  ∧ refreshInterval (stopAvailabilityMonitoring mon) = None).
  { unfold one_timer in Hone. unfold stopAvailabilityMonitoring.
    destruct (refreshInterval mon) as [old|] eqn:Hold; simpl.
    - destruct Hone as [sid ->]. unfold clearInterval.
      by rewrite delete_singleton_eq.
    - by rewrite Hold. }
  destruct Hstop as [Hnone Hoff]. split_and!; try done.
  - unfold one_timer in Hone. destruct (refreshInterval mon) as [old|].
    + destruct Hone as [sid ->]. by rewrite map_size_singleton.
    + rewrite Hone, map_size_empty. lia.
  - intros handle. simpl. by rewrite Hnone, lookup_empty.
  - unfold stopAvailabilityMonitoring at 1. by rewrite Hoff.
Qed.

Lemma monitoring_one_timer_witness :
  match steps newMonitor [Start 1 "12"; Tick 1; Start 1 "15"; Start 2 "12"] with
  | Some (mon, evs) => size (intervals mon) <= 1
  | None => False
  end.
Proof.
  destruct (steps newMonitor [Start 1 "12"; Tick 1; Start 1 "15"; Start 2 "12"])
    as [[mon evs]|] eqn:Hsteps.
  - exact (proj1 (proj2 (monitoring_one_timer _ mon evs Hsteps))).
  - vm_compute in Hsteps. discriminate Hsteps.
Defined.

Lemma passive_steps sid handle inputs : ∀ mon mon' evs,
  intervals mon = {[ handle := sid ]} →
  Forall passive inputs →
  steps mon inputs = Some (mon', evs) →
  intervals mon' = {[ handle := sid ]}
  ∧ form_requests evs
    = replicate (length (form_requests evs)) (GetSeatAvailability sid).
Proof.
  induction inputs as [|i inputs IH]; intros mon mon' evs Hint Hall Hsteps;
    simpl in Hsteps.
  - by simplify_eq.
  - inversion Hall as [|? ? Hi Hrest]; subst.
    destruct (step mon i) as [[[mon1 e1] dt]|] eqn:Hstep; [|done].
    destruct (steps mon1 inputs) as [[mon2 e2]|] eqn:Hsteps1; [|done].
    simpl in Hsteps. simplify_eq.
    assert (Hone : intervals mon1 = {[ handle := sid ]}
                   ∧ form_requests e1
                     = replicate (length (form_requests e1)) (GetSeatAvailability sid)).
    { destruct i as [h' sid' | | h' | now k r]; simpl in Hstep; try done.
      - rewrite Hint in Hstep.
        destruct (decide (h' = handle)) as [->|Hne].
        + rewrite lookup_singleton_eq in Hstep. by simplify_eq.
        + by rewrite lookup_singleton_ne in Hstep.
      - destruct (checks mon !! k) as [sid'|]; [|done].
        unfold checkSeatAvailability_resume in Hstep.
        destruct r as [msg | status [msg | data]]; simpl in Hstep;
          try destruct (ok status); by simplify_eq. }
    destruct Hone as [Hint1 He1].
    destruct (IH _ _ _ Hint1 Hrest Hsteps1) as [Hint2 He2].
    split; [done|]. unfold form_requests in *. rewrite omap_app, length_app.
    rewrite replicate_add. by rewrite <- He1, <- He2.
Qed.

(** X19: restarting the monitoring replaces what is polled.  From any
    state a manager can reach, [startAvailabilityMonitoring] always
    succeeds, sends one availability request for the new schedule at
    once, and leaves exactly one timer, for that schedule; every
    request sent from then on, until the next start or stop, is an
    availability request for that schedule. *)
Theorem monitoring_restart inputs mon evs handle sid :
  steps newMonitor inputs = Some (mon, evs) →
  ∃ mon',
    startAvailabilityMonitoring handle mon sid
    = Some (mon', [Fetch (GetSeatAvailability sid)])
    ∧ refreshInterval mon' = Some handle
    ∧ intervals mon' = {[ handle := sid ]}
    ∧ ∀ later mon'' evs',
        Forall passive later →
        steps mon' later = Some (mon'', evs') →
        intervals mon'' = {[ handle := sid ]}
        ∧ form_requests evs'
          = replicate (length (form_requests evs')) (GetSeatAvailability sid).
Proof.
  intros Hsteps.
  assert (Hone : one_timer mon).
  { eapply steps_one_timer; [|exact Hsteps]. done. }
  unfold one_timer in Hone. unfold startAvailabilityMonitoring.
  assert (Hcleared :
    match refreshInterval mon with
    | Some old => clearInterval old (intervals mon)
    | None => intervals mon
    end = ∅).
  { destruct (refreshInterval mon) as [old|]; [|done].
    destruct Hone as [sid' ->]. unfold clearInterval.
    by rewrite delete_singleton_eq. }
  rewrite Hcleared, decide_False by (rewrite lookup_empty; by intros [? ?]).
  eexists. split; [reflexivity|]. simpl. rewrite insert_empty.
  split_and!; try done.
  intros later mon'' evs' Hpassive Hlater.
  refine (passive_steps sid handle later _ mon'' evs' _ Hpassive Hlater).
  reflexivity.
Qed.

Lemma monitoring_restart_witness :
  ∃ mon',
    startAvailabilityMonitoring 7 newMonitor "12"
    = Some (mon', [Fetch (GetSeatAvailability "12")])
    ∧ intervals mon' = {[ 7%positive := "12" ]}.
Proof.
  destruct (monitoring_restart [] newMonitor [] 7 "12" eq_refl)
    as (mon' & Hstart & _ & Hint & _).
  exists mon'. by split.
Defined.

End Monitor.

(** ** The availability refresh of the booking form *)

Section Refresh.
Import Js SeatBooking Monitoring Observed.




End Refresh.

(** ** Polling and the life of the real-time manager *)

Section Life.
Import Js RealTime Lifecycle.

Lemma startRealTimeUpdates_alive handle l l' :
  alive l → startRealTimeUpdates handle l = Some l' → alive l'.
Proof.
  intros [Ht Hl] Hstart. unfold startRealTimeUpdates in Hstart.
  destruct (updateInterval l) as [old|] eqn:Hold.
  - simplify_eq. split; [by rewrite Hold | done].
  - case_decide; [done|]. simplify_eq. split; simpl; [|done].
    rewrite Ht. apply set_eq. intros x.
    rewrite elem_of_union, elem_of_singleton.
    split; [intros [? | Hx]; [done | by apply not_elem_of_empty in Hx] | by left].
Qed.

Lemma stopRealTimeUpdates_alive l :
  alive l → alive (stopRealTimeUpdates l).
Proof.
  intros [Ht Hl]. unfold stopRealTimeUpdates.
  destruct (updateInterval l) as [old|] eqn:Hold.
  - split; simpl; [|done]. rewrite Ht. apply set_eq. intros x.
    rewrite elem_of_difference. split; [tauto | by intros ?%not_elem_of_empty].
  - split; [by rewrite Hold | done].
Qed.

Lemma step_alive l i l' evs :
  alive l → step l i = Some (l', evs) → alive l'.
Proof.
  intros Halive Hstep.
  destruct i as [handle now r | handle | | hidden handle | handle now r
                | now i r r2 | ]; simpl in Hstep.
  - unfold initialize in Hstep.
    destruct (fetchSeatStatus now (doc l) r) as [p e].
    destruct (startRealTimeUpdates handle (setupEventListeners (with_doc l p)))
      as [l1|] eqn:Hstart; [|done].
    simplify_eq.
    assert (Hsetup : alive (setupEventListeners (with_doc l p))).
    { destruct Halive as [Ht Hl]. split; simpl; [done|]. intros _. lia. }
    destruct (startRealTimeUpdates_alive _ _ _ Hsetup Hstart) as [Ht1 Hl1].
    split; simpl; [done|]. intros _.
    unfold startRealTimeUpdates in Hstart. simpl in Hstart.
    destruct (updateInterval l); [|case_decide; [done|]];
      simplify_eq; simpl; lia.
  - destruct (focus_listeners l =? 0)%nat; [by simplify_eq|].
    destruct (startRealTimeUpdates handle l) as [l1|] eqn:Hstart; [|done].
    simpl in Hstep. simplify_eq. by eapply startRealTimeUpdates_alive.
  - destruct (blur_listeners l =? 0)%nat; simplify_eq; [done|].
    by apply stopRealTimeUpdates_alive.
  - destruct (visibility_listeners l =? 0)%nat; [by simplify_eq|].
    destruct hidden.
    + simplify_eq. by apply stopRealTimeUpdates_alive.
    + destruct (startRealTimeUpdates handle l) as [l1|] eqn:Hstart; [|done].
      simpl in Hstep. simplify_eq. by eapply startRealTimeUpdates_alive.
  - case_decide; [|done]. destruct (fetchSeatStatus now (doc l) r) as [p e].
    simplify_eq. by destruct Halive.
  - destruct (seat_clicks l); [|by simplify_eq].
    destruct (handleSeatClick now (doc l) i r r2) as [p e].
    simplify_eq. by destruct Halive.
  - simplify_eq. destruct (stopRealTimeUpdates_alive l Halive) as [Ht Hl].
    by split.
Qed.

Lemma steps_alive inputs : ∀ l l' evs,
  alive l → steps l inputs = Some (l', evs) → alive l'.
Proof.
  induction inputs as [|i inputs IH]; intros l l' evs Halive Hsteps;
    simpl in Hsteps.
  - by simplify_eq.
  - destruct (step l i) as [[l1 e1]|] eqn:Hstep; [|done].
    destruct (steps l1 inputs) as [[l2 e2]|] eqn:Hrest; [|done].
    simpl in Hsteps. simplify_eq.
    eapply IH; [|exact Hrest]. by eapply step_alive.
Qed.

Lemma newLive_alive sid uid seats : alive (newLive sid uid seats).
Proof. by split. Qed.

(** X21: the manager never polls with more than one timer.  Whatever
    happens in the page (initialization, focus, blur and visibility
    changes, ticks, seat clicks, destroy), the interval timers of the
    manager are exactly the one [updateInterval] names; starting while
    a timer runs changes nothing (no second timer, whatever handle the
    browser would give); and once the window loses focus or the page is
    hidden there is no timer left, so no poll can happen until the
    updates are started again. *)
Theorem polling_one_timer sid uid seats inputs l evs :
  steps (newLive sid uid seats) inputs = Some (l, evs) →
  intervals l = match updateInterval l with
                | Some handle => {[ handle ]}
                | None => ∅
                end
  ∧ (∀ handle, updateInterval l ≠ None → startRealTimeUpdates handle l = Some l)
  ∧ (∀ handle, updateInterval l = None →
       ∃ l', startRealTimeUpdates handle l = Some l'
             ∧ updateInterval l' = Some handle ∧ intervals l' = {[ handle ]})
  ∧ intervals (stopRealTimeUpdates l) = ∅
  ∧ (∀ handle now r, step (stopRealTimeUpdates l) (Tick handle now r) = None)
  ∧ (isInitialized l = true →
     (step l Blur = Some (stopRealTimeUpdates l, []))
     ∧ ∀ handle, step l (VisibilityChange true handle)
                 = Some (stopRealTimeUpdates l, [])).
Proof.
  intros Hsteps.
  pose proof (steps_alive _ _ _ _ (newLive_alive sid uid seats) Hsteps)
    as [Ht Hl].
  assert (Hstop : intervals (stopRealTimeUpdates l) = ∅).
  { unfold stopRealTimeUpdates. destruct (updateInterval l) as [old|]; [|done].
    simpl. rewrite Ht. apply set_eq. intros x.
    rewrite elem_of_difference. split; [tauto | by intros ?%not_elem_of_empty]. }
  split_and!; try done.
  - intros handle Hrun. unfold startRealTimeUpdates.
    by destruct (updateInterval l).
  - intros handle Hnone. unfold startRealTimeUpdates. rewrite Hnone in *.
    rewrite Ht, decide_False by apply not_elem_of_empty.
    eexists. split_and!; try done. simpl. apply set_eq. intros x.
    rewrite elem_of_union. split; [intros [? | ?%not_elem_of_empty]; done | by left].
  - intros handle now r. simpl. rewrite Hstop.
    by rewrite decide_False by apply not_elem_of_empty.
  - intros Hinit. destruct (Hl Hinit) as (Hf & Hb & Hv). simpl. split.
    + by destruct (blur_listeners l); [lia|].
    + intros handle. by destruct (visibility_listeners l); [lia|].
Qed.

Lemma polling_one_timer_witness :
  match steps (newLive "12" 7 [])
          [Initialize 1 0 (Rejected "offline"); Focus 2; Blur; Focus 3] with
  | Some (l, evs) =>
      intervals l = match updateInterval l with
                    | Some handle => {[ handle ]}
                    | None => ∅
                    end
  | None => False
  end.
Proof.
  destruct (steps (newLive "12" 7 [])
              [Initialize 1 0 (Rejected "offline"); Focus 2; Blur; Focus 3])
    as [[l evs]|] eqn:Hsteps.
  - exact (proj1 (polling_one_timer "12" 7 [] _ l evs Hsteps)).
  - vm_compute in Hsteps. discriminate Hsteps.
Defined.

(** X22: what [destroy] undoes and what it leaves.  After [destroy]
    the timer is stopped and no timer is left, and clicks on seats do
    nothing and send nothing.  But the listeners that
    [setupEventListeners] put on the window and the document are still
    there: on an initialized manager, a window focus (or the page
    becoming visible) after [destroy] starts the periodic updates
    again. *)
Theorem destroy_leaves_window_listeners sid uid seats inputs l evs :
  steps (newLive sid uid seats) inputs = Some (l, evs) →
  updateInterval (destroy l) = None
  ∧ intervals (destroy l) = ∅
  ∧ (∀ now i r r2, step (destroy l) (SeatClick now i r r2) = Some (destroy l, []))
  ∧ doc (destroy l) = doc l
  ∧ focus_listeners (destroy l) = focus_listeners l
  ∧ blur_listeners (destroy l) = blur_listeners l
  ∧ visibility_listeners (destroy l) = visibility_listeners l
  ∧ (isInitialized l = true →
     ∀ handle,
       ∃ l', step (destroy l) (Focus handle) = Some (l', [])
             ∧ step (destroy l) (VisibilityChange false handle) = Some (l', [])
             ∧ updateInterval l' = Some handle
             ∧ intervals l' = {[ handle ]}).
Proof.
  intros Hsteps.
  pose proof (steps_alive _ _ _ _ (newLive_alive sid uid seats) Hsteps)
    as [Ht Hl].
  assert (Hstop : updateInterval (stopRealTimeUpdates l) = None
                  ∧ intervals (stopRealTimeUpdates l) = ∅
                  ∧ doc (stopRealTimeUpdates l) = doc l
                  ∧ focus_listeners (stopRealTimeUpdates l) = focus_listeners l
                  ∧ blur_listeners (stopRealTimeUpdates l) = blur_listeners l
                  ∧ visibility_listeners (stopRealTimeUpdates l)
                    = visibility_listeners l
                  ∧ isInitialized (stopRealTimeUpdates l) = isInitialized l).
  { unfold stopRealTimeUpdates. destruct (updateInterval l) as [old|] eqn:Hold.
    - simpl. split_and!; try done. rewrite Ht. apply set_eq. intros x.
      rewrite elem_of_difference. split; [tauto | by intros ?%not_elem_of_empty].
    - by rewrite Hold. }
  destruct Hstop as (Hoff & Hnone & Hdoc & Hf & Hb & Hv & Hi).
  unfold destroy. simpl. split_and!; try done.
  intros Hinit handle. destruct (Hl Hinit) as (Hfocus & _ & Hvis).
  unfold startRealTimeUpdates. simpl. rewrite Hoff, Hnone, Hf, Hv.
  rewrite decide_False by apply not_elem_of_empty.
  destruct (focus_listeners l); [lia|].
  destruct (visibility_listeners l); [lia|]. simpl.
  eexists. split_and!; try done. simpl. apply set_eq. intros x.
  rewrite elem_of_union. split; [intros [? | ?%not_elem_of_empty]; done | by left].
Qed.

Lemma destroy_leaves_window_listeners_witness :
  match steps (newLive "12" 7 []) [Initialize 1 0 (Rejected "offline"); Focus 2]
  with
  | Some (l, evs) =>
      updateInterval (destroy l) = None
      ∧ focus_listeners (destroy l) = focus_listeners l
  | None => False
  end.
Proof.
  destruct (steps (newLive "12" 7 [])
              [Initialize 1 0 (Rejected "offline"); Focus 2])
    as [[l evs]|] eqn:Hsteps.
  - destruct (destroy_leaves_window_listeners "12" 7 [] _ l evs Hsteps)
      as (Hoff & _ & _ & _ & Hfocus & _).
    split; [exact Hoff | exact Hfocus].
  - vm_compute in Hsteps. discriminate Hsteps.
Defined.

(** A manager that is initialized, destroyed, and then sees the window
    gain focus polls again. *)
Example polling_resumes_after_destroy :
  (fun '(l, evs) => (updateInterval l, seat_clicks l))
    <$> steps (newLive "12" 7 [])
          [Initialize 1 0 (Rejected "offline"); Destroy; Focus 5]
  = Some (Some 5%positive, false).
Proof. vm_compute. reflexivity. Qed.

End Life.

(** ** The legend *)

Section LegendEntries.
Import Legend.

Lemma updateLegend_added children :
  updateLegend (Some children)
  = Some (children
            ++ (if existsb is_temp children then [] else [TempLegend])
            ++ (if existsb is_own children then [] else [OwnLegend])).
Proof.
  unfold updateLegend.
  destruct (existsb is_temp children) eqn:Ht;
    destruct (existsb is_own children) eqn:Ho; simpl;
    rewrite ?existsb_app, ?Ht, ?Ho; simpl;
    rewrite ?app_nil_r, <- ?app_assoc; done.
Qed.

Lemma updateLegend_complete children children' :
  updateLegend (Some children) = Some children' →
  existsb is_temp children' = true ∧ existsb is_own children' = true.
Proof.
  rewrite updateLegend_added. intros [= <-].
  destruct (existsb is_temp children) eqn:Ht;
    destruct (existsb is_own children) eqn:Ho; simpl;
    rewrite ?existsb_app, ?Ht, ?Ho; simpl;
    rewrite ?orb_true_r; done.
Qed.

(** X23: [updateLegend] adds each of its two entries at most once.
    After a call the legend has a "Temporarily Selected" and a "Your
    Selection" entry; a further call changes nothing; what was in the
    legend stays, in place, before what is added; and a page without a
    legend container is left alone. *)
Theorem updateLegend_idempotent legend :
  updateLegend (updateLegend legend) = updateLegend legend
  ∧ (∀ children, legend = Some children →
       ∃ added,
         updateLegend legend = Some (children ++ added)
         ∧ existsb is_temp (children ++ added) = true
         ∧ existsb is_own (children ++ added) = true
         ∧ length added <= 2
         ∧ (existsb is_temp children = true → existsb is_own children = true →
            added = []))
  ∧ (legend = None → updateLegend legend = None).
Proof.
  split_and!.
  - destruct legend as [children|]; [|done].
    destruct (updateLegend (Some children)) as [children'|] eqn:Hfirst; [|done].
    destruct (updateLegend_complete _ _ Hfirst) as [Ht Ho].
    rewrite updateLegend_added, Ht, Ho. by rewrite app_nil_r.
  - intros children ->. eexists. split; [apply updateLegend_added|].
    destruct (updateLegend_complete children _ (updateLegend_added children))
      as [Ht Ho].
    split_and!; try done.
    + destruct (existsb is_temp children), (existsb is_own children); simpl; lia.
    + by intros -> ->.
  - by intros ->.
Qed.

Lemma updateLegend_idempotent_witness :
  ∃ added,
    updateLegend (Some [Other "booked-legend"; OwnLegend])
    = Some ([Other "booked-legend"; OwnLegend] ++ added)
    ∧ existsb is_temp ([Other "booked-legend"; OwnLegend] ++ added) = true
    ∧ existsb is_own ([Other "booked-legend"; OwnLegend] ++ added) = true
    ∧ length added <= 2
    ∧ (existsb is_temp [Other "booked-legend"; OwnLegend] = true →
       existsb is_own [Other "booked-legend"; OwnLegend] = true →
       added = []).
Proof.
  exact (proj1 (proj2 (updateLegend_idempotent
                         (Some [Other "booked-legend"; OwnLegend]))) _ eq_refl).
Defined.

End LegendEntries.

(** ** The CSRF token *)

Section Token.
Import Js Cookies.

Lemma split_free_of sep x : free_of sep x = true → split sep x = [x].
Proof.
  induction x as [|c x IH]; [done|]. simpl.
  destruct (c =? sep)%N; [done|]. simpl. intros Hx. by rewrite (IH Hx).
Qed.

Lemma split_append sep x s :
  free_of sep x = true → split sep (x ++ sep :: s) = x :: split sep s.
Proof.
  induction x as [|c x IH]; simpl.
  - intros _. by rewrite N.eqb_refl.
  - destruct (c =? sep)%N; [done|]. simpl. intros Hx. by rewrite (IH Hx).
Qed.

Lemma cookie_string_cons x y l :
  cookie_string (x :: y :: l) = x ++ semicolon :: cookie_string (y :: l).
Proof. reflexivity. Qed.

Lemma split_cookie_string l :
  l ≠ [] → Forall (fun x => free_of semicolon x = true) l →
  split semicolon (cookie_string l) = l.
Proof.
  induction l as [|x l IH]; [done|]. intros _ Hall.
  inversion Hall as [|? ? Hx Hl]; subst.
  destruct l as [|y l]; [by apply split_free_of|].
  rewrite cookie_string_cons, (split_append _ _ _ Hx). by rewrite IH.
Qed.

Lemma cookie_string_empty l : cookie_string l = [] → l = [] ∨ l = [[]].
Proof.
  destruct l as [|x [|y l]]; [by left | simpl; intros ->; by right |].
  rewrite cookie_string_cons. by intros [_ ?]%app_eq_nil.
Qed.

Lemma findToken_cons decode piece l :
  findToken decode (piece :: l)
  = if names_token piece then
      match decode (drop (String.length name + 1) (trim piece)) with
      | Some value => Return (Some value)
      | None => Throw uri_error_message
      end
    else findToken decode l.
Proof. reflexivity. Qed.

Lemma findToken_none decode l :
  Forall (fun piece => names_token piece = false) l →
  findToken decode l = Return None.
Proof.
  induction 1 as [|piece l Hpiece _ IH]; [done|].
  by rewrite findToken_cons, Hpiece.
Qed.

Lemma findToken_first decode before piece after :
  Forall (fun piece => names_token piece = false) before →
  names_token piece = true →
  findToken decode (before ++ piece :: after)
  = match decode (drop (String.length name + 1) (trim piece)) with
    | Some value => Return (Some value)
    | None => Throw uri_error_message
    end.
Proof.
  intros Hbefore Hpiece. induction Hbefore as [|p before Hp _ IH].
  - change ([] ++ piece :: after) with (piece :: after).
    by rewrite findToken_cons, Hpiece.
  - change ((p :: before) ++ piece :: after) with (p :: (before ++ piece :: after)).
    by rewrite findToken_cons, Hp.
Qed.

Lemma trim_start_white ws s :
  Forall (fun c => is_white_space c = true) ws →
  trim_start (ws ++ s) = trim_start s.
Proof. induction 1 as [|c ws Hc _ IH]; [done|]. simpl. by rewrite Hc. Qed.

Lemma trim_end_black l s :
  Forall (fun c => is_white_space c = false) l →
  trim_end (l ++ s) = l ++ trim_end s.
Proof.
  induction 1 as [|c l Hc _ IH]; [done|]. simpl. by rewrite Hc, IH.
Qed.

Lemma name_black :
  Forall (fun c => is_white_space c = false) (units (name +:+ "=")).
Proof. repeat (constructor; [reflexivity|]). constructor. Qed.

Lemma trim_token ws rest :
  Forall (fun c => is_white_space c = true) ws →
  trim (ws ++ units (name +:+ "=") ++ rest)
  = units (name +:+ "=") ++ trim_end rest.
Proof.
  intros Hws. unfold trim. rewrite (trim_start_white _ _ Hws).
  replace (trim_start (units (name +:+ "=") ++ rest))
    with (units (name +:+ "=") ++ rest) by reflexivity.
  apply trim_end_black, name_black.
Qed.

(** X24: [getCSRFToken] reads the first [csrftoken] cookie.  For a
    [document.cookie] made of pieces joined by ";" (pieces free of
    ";"): when no piece, once trimmed, starts with "csrftoken=", the
    token is [null], as it is for the empty cookie string; otherwise the
    token is the decoded text after "csrftoken=" in the first such
    piece, whatever comes later, and the call throws when that text
    cannot be decoded.  Trimming removes whatever white space
    ([String.prototype.trim]'s: the no-break space and the other
    Unicode spaces as well as the ASCII ones) comes before the name and
    after the value.  A piece such as "xcsrftoken=.." or
    "csrftoken2=.." does not count. *)
Theorem getCSRFToken_first_cookie decode :
  (∀ pieces,
     Forall (fun x => free_of semicolon x = true) pieces →
     Forall (fun piece => names_token piece = false) pieces →
     getCSRFToken decode (cookie_string pieces) = Return None)
  ∧ (∀ before piece after value,
       Forall (fun x => free_of semicolon x = true) (before ++ piece :: after) →
       Forall (fun piece => names_token piece = false) before →
       trim piece = units "csrftoken=" ++ value →
       getCSRFToken decode (cookie_string (before ++ piece :: after))
       = match decode value with
         | Some token => Return (Some token)
         | None => Throw uri_error_message
         end)
  ∧ (∀ ws rest,
       Forall (fun c => is_white_space c = true) ws →
       trim (ws ++ units "csrftoken=" ++ rest)
       = units "csrftoken=" ++ trim_end rest
       ∧ names_token (ws ++ units "csrftoken=" ++ rest) = true)
  ∧ (∀ value, names_token (units "xcsrftoken=" ++ value) = false
              ∧ names_token (units "csrftoken2=" ++ value) = false).
Proof.
  split_and!.
  - intros pieces Hfree Hnone. unfold getCSRFToken.
    destruct (bool_decide (cookie_string pieces ≠ [])); [|done].
    destruct pieces as [|x l]; [done|].
    rewrite split_cookie_string by done. by apply findToken_none.
  - intros before piece after value Hfree Hbefore Htrim. unfold getCSRFToken.
    destruct (decide (cookie_string (before ++ piece :: after) = []))
      as [Hempty|Hnonempty].
    + apply cookie_string_empty in Hempty as [Hnil | Hone].
      * by destruct before.
      * destruct before as [|b before]; simpl in Hone.
        -- injection Hone as -> ->. discriminate Htrim.
        -- injection Hone as _ Hrest. by destruct before.
    + rewrite bool_decide_true by done.
      rewrite split_cookie_string by (done || by destruct before).
      rewrite (findToken_first decode before piece after Hbefore).
      * by rewrite Htrim.
      * unfold names_token. by rewrite Htrim.
  - intros ws rest Hws.
    pose proof (trim_token ws rest Hws) as Htrim.
    split; [exact Htrim|]. unfold names_token.
    change (units "csrftoken=") with (units (name +:+ "=")).
    by rewrite Htrim.
  - intros value. by split.
Qed.

Lemma getCSRFToken_first_cookie_witness :
  getCSRFToken Some
    (cookie_string ([units "a=1"] ++ (160%N :: units "csrftoken=abc")
                      :: [units " csrftoken=zzz"]))
  = Return (Some (units "abc")).
Proof.
  apply (proj1 (proj2 (getCSRFToken_first_cookie Some))
           [units "a=1"] (160%N :: units "csrftoken=abc")
           [units " csrftoken=zzz"] (units "abc")).
  - repeat constructor.
  - repeat constructor.
  - reflexivity.
Defined.

End Token.

(** ** Failures do not stop the polling *)

Section Resilience.
Import Js RealTime Lifecycle Observed.

(** X25: no failure stops the real-time manager.  [initialize]
    always completes, whatever the reply to its first status request:
    it sends that one request, attaches the click listener and one
    listener each for focus, blur and visibility changes, starts the
    timer and marks the manager initialized; when the first request
    fails the seat page is simply left as it was.  Likewise a tick
    whose request fails leaves the page and the timer as they were, so
    the next tick tries again. *)
Theorem polling_survives_failures sid uid seats handle now r :
  (∃ l evs,
     initialize handle now (newLive sid uid seats) r = Some (l, evs)
     ∧ isInitialized l = true
     ∧ updateInterval l = Some handle
     ∧ intervals l = {[ handle ]}
     ∧ seat_clicks l = true
     ∧ focus_listeners l = 1 ∧ blur_listeners l = 1 ∧ visibility_listeners l = 1
     ∧ hold_requests evs = [GetSeatStatus sid]
     ∧ (reply_data r = None → doc l = doc (newLive sid uid seats)))
  ∧ (∀ l, handle ∈ intervals l →
       ∃ l' evs,
         step l (Tick handle now r) = Some (l', evs)
         ∧ intervals l' = intervals l
         ∧ updateInterval l' = updateInterval l
         ∧ hold_requests evs = [GetSeatStatus (scheduleId (manager (doc l)))]
         ∧ (reply_data r = None → l' = l)).
Proof.
  split.
  - unfold initialize.
    pose proof (fetchSeatStatus_requests now (doc (newLive sid uid seats)) r) as Hreq.
    pose proof (fetchSeatStatus_failed now (doc (newLive sid uid seats)) r) as Hfail.
    destruct (fetchSeatStatus now (doc (newLive sid uid seats)) r) as [p evs].
    simpl in *. unfold startRealTimeUpdates. simpl.
    rewrite decide_False by apply not_elem_of_empty.
    eexists _, _. split; [reflexivity|]. simpl. split_and!; try done.
    apply set_eq. intros x. rewrite elem_of_union.
    split; [intros [? | ?%not_elem_of_empty]; done | by left].
  - intros l Hin. simpl. rewrite decide_True by done.
    pose proof (fetchSeatStatus_requests now (doc l) r) as Hreq.
    pose proof (fetchSeatStatus_failed now (doc l) r) as Hfail.
    destruct (fetchSeatStatus now (doc l) r) as [p evs]. simpl in *.
    eexists _, _. split; [reflexivity|]. split_and!; try done.
    intros Hnone. rewrite (Hfail Hnone). by destruct l.
Qed.

Lemma polling_survives_failures_witness :
  ∃ l' evs,
    step LifeScenario.polling (Tick 4 0 (Rejected "offline")) = Some (l', evs)
    ∧ intervals l' = intervals LifeScenario.polling.
Proof.
  assert (Hin : 4%positive ∈ intervals LifeScenario.polling)
    by (vm_compute; reflexivity).
  destruct (proj2 (polling_survives_failures "12" 7 [] 4 0 (Rejected "offline"))
              LifeScenario.polling Hin)
    as (l' & evs & Hstep & Hint & _).
  exists l', evs. by split.
Defined.

(** X26: the expiry of a hold is display only.  The time of a render
    enters nothing but the title: rendered at two different times, a
    seat gets the same classes, the same [data-status], the same holder
    and the same click behaviour.  In particular a hold whose
    [expires_at] has passed is still shown as held, its title reading
    "expires in expired", and its owner alone can still deselect it. *)
Theorem expiry_is_display_only now now' m seat :
  classList (renderSeat now m seat) = classList (renderSeat now' m seat)
  ∧ ds_status (renderSeat now m seat) = ds_status (renderSeat now' m seat)
  ∧ ds_userId (renderSeat now m seat) = ds_userId (renderSeat now' m seat)
  ∧ ds_username (renderSeat now m seat) = ds_username (renderSeat now' m seat)
  ∧ clickAction m (renderSeat now m seat) = clickAction m (renderSeat now' m seat)
  ∧ (∀ sel expiry,
       seatNumber seat ∉ bookedSeats m →
       tempSelections m !! seatNumber seat = Some sel →
       expires_at sel = TimeValue expiry →
       (expiry <= now)%Z →
       ds_status (renderSeat now m seat) = "temporary"
       ∧ title (renderSeat now m seat)
         = (if (user_id sel =? userId m)%Z
            then "Your selection (expires in expired)"
            else "Temporarily selected by " +:+ username sel
                   +:+ " (expires in expired)")
       ∧ clickAction m (renderSeat now m seat)
         = if (user_id sel =? userId m)%Z
           then DeselectSeat (seatNumber seat) else NoAction).
Proof.
  split_and!.
  - by rewrite !renderSeat_classList.
  - unfold renderSeat. case_decide; [done|].
    destruct (tempSelections m !! seatNumber seat) as [sel|]; [|done].
    by destruct (user_id sel =? userId m)%Z.
  - unfold renderSeat. case_decide; [done|].
    destruct (tempSelections m !! seatNumber seat) as [sel|]; [|done].
    by destruct (user_id sel =? userId m)%Z.
  - unfold renderSeat. case_decide; [done|].
    destruct (tempSelections m !! seatNumber seat) as [sel|]; [|done].
    by destruct (user_id sel =? userId m)%Z.
  - by rewrite !clickAction_rendered_eq.
  - intros sel expiry Hb Hsel Hexp Hpast.
    rewrite clickAction_rendered_eq. unfold renderSeat.
    rewrite !decide_False by done. rewrite Hsel, Hexp.
    rewrite (getTimeUntilExpiry_expired now expiry) by lia.
    by destruct (user_id sel =? userId m)%Z.
Qed.

Lemma expiry_is_display_only_witness :
  ds_status (renderSeat 700000
               (with_status (constructor "12" 7) (RealTimeScenario.status_after 1))
               (RealTimeScenario.seatElement 1))
  = "temporary"
  ∧ title (renderSeat 700000
             (with_status (constructor "12" 7) (RealTimeScenario.status_after 1))
             (RealTimeScenario.seatElement 1))
    = "Your selection (expires in expired)"
  ∧ clickAction
      (with_status (constructor "12" 7) (RealTimeScenario.status_after 1))
      (renderSeat 700000
         (with_status (constructor "12" 7) (RealTimeScenario.status_after 1))
         (RealTimeScenario.seatElement 1))
    = DeselectSeat 1.
Proof.
  assert (Hfree : seatNumber (RealTimeScenario.seatElement 1)
                  ∉ bookedSeats (with_status (constructor "12" 7)
                                   (RealTimeScenario.status_after 1)))
    by (intros H; exfalso; revert H; clear; vm_compute; discriminate).
  exact (proj2 (proj2 (proj2 (proj2 (proj2
           (expiry_is_display_only 700000 0
              (with_status (constructor "12" 7) (RealTimeScenario.status_after 1))
              (RealTimeScenario.seatElement 1))))))
           (RealTimeScenario.hold 1).2 600000%Z Hfree eq_refl eq_refl
           ltac:(lia)).
Defined.

End Resilience.

(** ** What a submission books *)

Section Booked.
Import Js SeatBooking Observed.

Lemma form_requests_app evs1 evs2 :
  form_requests (evs1 ++ evs2) = form_requests evs1 ++ form_requests evs2.
Proof. unfold form_requests. apply omap_app. Qed.

Lemma toggleSeat_requests h i : form_requests (toggleSeat h i).2 = [].
Proof.
  unfold toggleSeat.
  destruct (seat_elements (container h) !! i) as [e|]; [|done].
  destruct (JsSet.has (selectedSeats h) (seat e)); [done|].
  by destruct (JsSet.size (selectedSeats h) >=? maxSeats h)%Z.
Qed.

Lemma clicks_keep clicks : ∀ s s',
  steps s (ClickSeat <$> clicks) = Some s' →
  pending s' = pending s
  ∧ bookingManager (handler s') = bookingManager (handler s)
  ∧ form_requests (log s') = form_requests (log s).
Proof.
  induction clicks as [|i clicks IH]; intros s s' Hsteps; simpl in Hsteps.
  - by simplify_eq.
  - pose proof (toggleSeat_keeps (handler s) i) as (_ & Hbm & _).
    pose proof (toggleSeat_requests (handler s) i) as Hreq.
    destruct (toggleSeat (handler s) i) as [h evs]. simpl in *.
    destruct (IH _ _ Hsteps) as (Hp & Hm & Hl). simpl in *.
    split_and!; [done | congruence |].
    rewrite Hl, form_requests_app, Hreq. by rewrite app_nil_r.
Qed.

(** X27: a submission books the selection as it is when the seat
    check returns, not the selection that was checked.  When a valid
    form is submitted, the seat check is sent for the seats selected at
    that moment; if the user toggles seats while the check is in
    flight and the check then passes, the booking request carries the
    seats selected at that later moment (with the form values read at
    submission), without a second check and without testing again that
    a seat is selected. *)
Theorem booking_sends_current_selection s form clicks s1 s2 s3 status check :
  truthy (schedule_id_value form) = true →
  truthy (name_value form) = true →
  truthy (email_value form) = true →
  truthy (phone_value form) = true →
  selectedSeats (handler s) ≠ [] →
  bookingInProgress (bookingManager (handler s)) = false →
  ok status = true →
  all_available check = true →
  step s (Submit form) = Some s1 →
  steps s1 (ClickSeat <$> clicks) = Some s2 →
  step s2 (CheckArrives (length (pending s)) (Responded status (inr check)))
  = Some s3 →
  form_requests (log s3)
  = form_requests (log s)
      ++ [PostCheckSeats (default "" (schedule_id_value form))
            (JsSet.to_array (selectedSeats (handler s)));
          PostBookSeats
            {| schedule_id := parseInt (default "" (schedule_id_value form));
               passenger_name := default "" (name_value form);
               passenger_email := default "" (email_value form);
               passenger_phone := default "" (phone_value form);
               seat_numbers := JsSet.to_array (selectedSeats (handler s2)) |}].
Proof.
  intros Hs Hn He Hp Hsel Hfree Hok Hall Hsubmit Hclicks Hcheck.
  simpl in Hsubmit. rewrite (submit_call_valid _ form Hs Hn He Hp Hsel) in Hsubmit.
  injection Hsubmit as <-.
  destruct (clicks_keep _ _ _ Hclicks) as (Hpend & Hbm & Hlog). simpl in *.
  rewrite Hpend, lookup_app_r, Nat.sub_diag in Hcheck by lia. simpl in Hcheck.
  unfold submit_checked, checkSpecificSeats_resume in Hcheck.
  rewrite Hok, Hall in Hcheck. simpl in Hcheck.
  unfold bookSeats_call in Hcheck. rewrite Hbm, Hfree in Hcheck.
  simpl in Hcheck. injection Hcheck as <-. simpl.
  rewrite form_requests_app, Hlog, form_requests_app. simpl.
  by rewrite <- app_assoc.
Qed.

Lemma booking_sends_current_selection_witness :
  steps (start BookingScenario.container0 4) BookingScenario.late_pick
  = Some BookingScenario.checked
  ∧ form_requests (log BookingScenario.checked)
    = [PostCheckSeats "12" [3]%Z;
       PostBookSeats
         {| schedule_id := Some 12%Z; passenger_name := "Ada";
            passenger_email := "ada@example.org"; passenger_phone := "555";
            seat_numbers := [3; 1]%Z |}].
Proof.
  split; [vm_compute; reflexivity|].
  assert (H1 : step BookingScenario.seat3_picked (Submit BookingScenario.form0)
               = Some BookingScenario.submitted) by (vm_compute; reflexivity).
  assert (H2 : steps BookingScenario.submitted (ClickSeat <$> [0])
               = Some BookingScenario.seat1_added) by (vm_compute; reflexivity).
  assert (H3 : step BookingScenario.seat1_added
                 (CheckArrives (length (pending BookingScenario.seat3_picked))
                    (Responded 200
                       (inr {| all_available := true; unavailable_seats := [] |})))
               = Some BookingScenario.checked) by (vm_compute; reflexivity).
  assert (Hsel : selectedSeats (handler BookingScenario.seat3_picked) ≠ [])
    by (vm_compute; discriminate).
  pose proof (booking_sends_current_selection BookingScenario.seat3_picked
                BookingScenario.form0 [0] _ _ _ 200
                {| all_available := true; unavailable_seats := [] |}
                eq_refl eq_refl eq_refl eq_refl Hsel eq_refl eq_refl eq_refl
                H1 H2 H3) as Hreq.
  clear H1 H2 H3 Hsel. vm_compute in Hreq. vm_compute. exact Hreq.
Defined.

End Booked.
